(** * Oregon Trail: the day-cycle engine of [oregon_trail/game.py]

    A shallow embedding of [Game], [GameState], [TradeOffer] and
    [Difficulty] and of the methods of [Game], followed by the properties
    of the engine: first the claims C1 to C10 of the specification, then
    the further properties X1 to X23 of the handlers and of the stores a
    caller can reach.

    - Python [int] is [Z]; Python [float] is the IEEE 754 binary64 type
      [float] of the kernel, so that [round], [int] and [math.ceil] are
      computed on the very values Python computes.
    - Python [str] is [string]; [lower] and [strip] are the ASCII ones:
      they are [str.lower] and [str.strip] on strings of ASCII characters
      ([ascii_only]), the strings of the engine's own tables and messages.
    - [self.rng] is a reference to the caller's [random.Random] object: the
      store of a run is the pair of the game object and the random source.
      The source itself is an interface ([RandomSource]); nothing is assumed
      about it but the documented range of [randint].
    - A method that raises does so in the store it has reached: every
      computation returns its outcome together with the store. *)

From Stdlib Require Import ZArith List String Ascii Bool Lia Floats DecimalString.
Import ListNotations.

Set Warnings "-inexact-float".

Local Open Scope string_scope.
Local Open Scope Z_scope.

(* ================================================================== *)
(** * Python primitives *)

(** Exceptions raised by the engine.  [ValueError] is the invalid-argument
    error and [RuntimeError] the invalid-state error; [OverflowError] only
    comes from converting an infinite float to [int] and [IndexError] from
    indexing a list out of its range. *)
Inductive PyExc : Type :=
  | RuntimeError (msg : string)
  | ValueError (msg : string)
  | OverflowError (msg : string)
  | IndexError (msg : string).

Definition is_RuntimeError (e : PyExc) : bool :=
  match e with RuntimeError _ => true | _ => false end.

Definition is_ValueError (e : PyExc) : bool :=
  match e with ValueError _ => true | _ => false end.

Module Py.

(** [str.isspace] on an ASCII character. *)
Definition is_space (c : ascii) : bool :=
  let n := N_of_ascii c in
  ((9 <=? n) && (n <=? 13) || (28 <=? n) && (n <=? 32))%N.

(** [str.lower] and [str.strip] on strings of ASCII characters: the
    letters A to Z are folded and the ASCII blanks stripped.  Python also
    folds and strips characters outside ASCII; these are left as they
    are. *)
Definition lower_char (c : ascii) : ascii :=
  let n := N_of_ascii c in
  if ((65 <=? n) && (n <=? 90))%N then ascii_of_N (n + 32) else c.

Fixpoint lower (s : string) : string :=
  match s with
  | EmptyString => EmptyString
  | String c s' => String (lower_char c) (lower s')
  end.

Fixpoint lstrip (s : string) : string :=
  match s with
  | EmptyString => EmptyString
  | String c s' => if is_space c then lstrip s' else s
  end.

Fixpoint rstrip (s : string) : string :=
  match s with
  | EmptyString => EmptyString
  | String c s' =>
      match rstrip s' with
      | EmptyString => if is_space c then EmptyString else String c EmptyString
      | t => String c t
      end
  end.

Definition strip (s : string) : string := rstrip (lstrip s).

(** [str(n)] for an [int]. *)
Definition str (n : Z) : string := NilZero.string_of_int (Z.to_int n).

(** [", ".join(l)] and friends. *)
Definition join (sep : string) (l : list string) : string := String.concat sep l.

(** [float(n)]: the nearest binary64, ties to even.  It is exact on the
    integers the engine converts: the speeds of the table, the base ration
    and the quantities [randint] draws. *)
Definition float_of_int (n : Z) : float :=
  SF2Prim (binary_normalize prec emax n 0 false).

(** [max(a, b)] on floats keeps [a] unless [b > a]. *)
Definition fmax (a b : float) : float := if (a <? b)%float then b else a.

(** The three float-to-[int] conversions differ only in how the discarded
    fraction [r / d] of the magnitude [q + r / d] is treated; [neg] is the
    sign.  NaN raises [ValueError], an infinity [OverflowError]. *)
Definition to_int (pick : bool -> Z -> Z -> Z -> Z) (x : float) : PyExc + Z :=
  match Prim2SF x with
  | S754_zero _ => inr 0
  | S754_finite neg m e =>
      let n := match e with
               | Zneg p => let d := Z.pow_pos 2 p in
                           pick neg (Z.pos m / d) (Z.pos m mod d) d
               | _ => Z.pos m * 2 ^ e
               end in
      inr (if neg then - n else n)
  | S754_infinity _ => inl (OverflowError "cannot convert float infinity to integer")
  | S754_nan => inl (ValueError "cannot convert float NaN to integer")
  end.

(** [int(x)]: towards zero. *)
Definition int : float -> PyExc + Z := to_int (fun _ q _ _ => q).

(** [round(x)]: to nearest, ties to even. *)
Definition round : float -> PyExc + Z :=
  to_int (fun _ q r d =>
            match 2 * r ?= d with
            | Lt => q
            | Gt => q + 1
            | Eq => if Z.even q then q else q + 1
            end).

(** [math.ceil(x)]. *)
Definition ceil : float -> PyExc + Z :=
  to_int (fun neg q r _ => if neg then q else if r =? 0 then q else q + 1).

(** [d.get(key, default)] and [key in d] on a dict kept as an association
    list in insertion order. *)
Fixpoint get {A : Type} (d : list (string * A)) (key : string) : option A :=
  match d with
  | [] => None
  | (k, v) :: d' => if String.eqb k key then Some v else get d' key
  end.

Definition get_default {A : Type} (d : list (string * A)) (key : string) (default : A) : A :=
  match get d key with Some v => v | None => default end.

Definition keys {A : Type} (d : list (string * A)) : list string := map fst d.

End Py.

(* ================================================================== *)
(** * Configuration tables *)

Inductive Difficulty : Type := EASY | NORMAL | HARD.

Definition Difficulty_value (d : Difficulty) : string :=
  match d with EASY => "easy" | NORMAL => "normal" | HARD => "hard" end.

(** [Difficulty.from_choice]. *)
Definition Difficulty_members : list Difficulty := [EASY; NORMAL; HARD].

Definition from_choice (value : string) : PyExc + Difficulty :=
  let value := Py.strip (Py.lower value) in
  match find (fun member => String.eqb (Difficulty_value member) value) Difficulty_members with
  | Some member => inr member
  | None => inl (ValueError ("Unknown difficulty '" ++ value ++ "'."))
  end.

Definition PACE_SPEEDS : list (string * Z) :=
  [("slow", 12); ("steady", 18); ("grueling", 24)].

Definition PACE_FOOD_MULTIPLIER : list (string * float) :=
  [("slow", 0.8%float); ("steady", 1.0%float); ("grueling", 1.35%float)].

Definition BASE_FOOD_PER_DAY : Z := 5.
Definition TARGET_MILES : Z := 2000.

(** One entry of [DIFFICULTY_SETTINGS]; the integer entries are the values
    the code reads through [int(...)]. *)
Record Settings : Type := mkSettings {
  cfg_food : Z;
  cfg_ammo : Z;
  cfg_money : Z;
  cfg_event_chance : float;
  cfg_rest_health : Z;
  cfg_starvation_penalty : Z;
  cfg_max_days : Z
}.

Definition DIFFICULTY_SETTINGS (d : Difficulty) : Settings :=
  match d with
  | EASY => mkSettings 300 70 1400 0.18%float 15 8 60
  | NORMAL => mkSettings 240 55 1100 0.27%float 12 10 55
  | HARD => mkSettings 200 45 900 0.35%float 9 12 50
  end.

Definition PROFESSION_BONUSES : list (string * list (string * Z)) :=
  [("banker", [("money", 600)]);
   ("carpenter", [("ammo", 10); ("health", 5)]);
   ("farmer", [("food", 50); ("health", 5)]);
   ("doctor", [("health", 10)])].

Definition WEATHER_OPTIONS : list (string * float) :=
  [("Mild", 1.0%float); ("Warm", 1.05%float); ("Hot", 0.9%float);
   ("Cold", 0.85%float); ("Freezing", 0.7%float); ("Stormy", 0.6%float)].

Definition TERRAIN_OPTIONS : list (string * float) :=
  [("Plains", 1.0%float); ("Hills", 0.85%float); ("Mountains", 0.7%float);
   ("Desert", 0.75%float); ("Forest", 0.9%float)].

Definition TRADE_ITEMS : list string := ["food"; "ammo"].

(* ================================================================== *)
(** * Data model *)

Record TradeOffer : Type := mkTradeOffer {
  item : string;
  quantity : Z;
  price : Z
}.

Definition describe (o : TradeOffer) : string :=
  let direction := if 0 <? price o then "buy" else "sell" in
  let cost := Z.abs (price o) in
  if String.eqb direction "buy"
  then "Buy " ++ Py.str (quantity o) ++ " " ++ item o ++ " for $" ++ Py.str cost
  else "Sell " ++ Py.str (quantity o) ++ " " ++ item o ++ " for $" ++ Py.str cost.

Record GameState : Type := mkGameState {
  player_name : string;
  profession : string;
  difficulty : Difficulty;
  day : Z;
  distance : Z;
  food : Z;
  ammo : Z;
  money : Z;
  health : Z;
  pace : string;
  weather : string;
  terrain : string;
  alive : bool;
  won : bool;
  status : string;
  event_log : list string;
  trade_available : bool
}.

Definition set_day (v : Z) (st : GameState) : GameState :=
  mkGameState (player_name st) (profession st) (difficulty st)
    v (distance st) (food st) (ammo st) (money st) (health st) (pace st)
    (weather st) (terrain st) (alive st) (won st) (status st) (event_log st) (trade_available st).

Definition set_distance (v : Z) (st : GameState) : GameState :=
  mkGameState (player_name st) (profession st) (difficulty st)
    (day st) v (food st) (ammo st) (money st) (health st) (pace st)
    (weather st) (terrain st) (alive st) (won st) (status st) (event_log st) (trade_available st).

Definition set_food (v : Z) (st : GameState) : GameState :=
  mkGameState (player_name st) (profession st) (difficulty st)
    (day st) (distance st) v (ammo st) (money st) (health st) (pace st)
    (weather st) (terrain st) (alive st) (won st) (status st) (event_log st) (trade_available st).

Definition set_ammo (v : Z) (st : GameState) : GameState :=
  mkGameState (player_name st) (profession st) (difficulty st)
    (day st) (distance st) (food st) v (money st) (health st) (pace st)
    (weather st) (terrain st) (alive st) (won st) (status st) (event_log st) (trade_available st).

Definition set_money (v : Z) (st : GameState) : GameState :=
  mkGameState (player_name st) (profession st) (difficulty st)
    (day st) (distance st) (food st) (ammo st) v (health st) (pace st)
    (weather st) (terrain st) (alive st) (won st) (status st) (event_log st) (trade_available st).

Definition set_health (v : Z) (st : GameState) : GameState :=
  mkGameState (player_name st) (profession st) (difficulty st)
    (day st) (distance st) (food st) (ammo st) (money st) v (pace st)
    (weather st) (terrain st) (alive st) (won st) (status st) (event_log st) (trade_available st).

Definition set_pace (v : string) (st : GameState) : GameState :=
  mkGameState (player_name st) (profession st) (difficulty st)
    (day st) (distance st) (food st) (ammo st) (money st) (health st) v
    (weather st) (terrain st) (alive st) (won st) (status st) (event_log st) (trade_available st).

Definition set_weather (v : string) (st : GameState) : GameState :=
  mkGameState (player_name st) (profession st) (difficulty st)
    (day st) (distance st) (food st) (ammo st) (money st) (health st) (pace st)
    v (terrain st) (alive st) (won st) (status st) (event_log st) (trade_available st).

Definition set_terrain (v : string) (st : GameState) : GameState :=
  mkGameState (player_name st) (profession st) (difficulty st)
    (day st) (distance st) (food st) (ammo st) (money st) (health st) (pace st)
    (weather st) v (alive st) (won st) (status st) (event_log st) (trade_available st).

Definition set_alive (v : bool) (st : GameState) : GameState :=
  mkGameState (player_name st) (profession st) (difficulty st)
    (day st) (distance st) (food st) (ammo st) (money st) (health st) (pace st)
    (weather st) (terrain st) v (won st) (status st) (event_log st) (trade_available st).

Definition set_won (v : bool) (st : GameState) : GameState :=
  mkGameState (player_name st) (profession st) (difficulty st)
    (day st) (distance st) (food st) (ammo st) (money st) (health st) (pace st)
    (weather st) (terrain st) (alive st) v (status st) (event_log st) (trade_available st).

Definition set_status (v : string) (st : GameState) : GameState :=
  mkGameState (player_name st) (profession st) (difficulty st)
    (day st) (distance st) (food st) (ammo st) (money st) (health st) (pace st)
    (weather st) (terrain st) (alive st) (won st) v (event_log st) (trade_available st).

Definition set_event_log (v : list string) (st : GameState) : GameState :=
  mkGameState (player_name st) (profession st) (difficulty st)
    (day st) (distance st) (food st) (ammo st) (money st) (health st) (pace st)
    (weather st) (terrain st) (alive st) (won st) (status st) v (trade_available st).

Definition set_trade_available (v : bool) (st : GameState) : GameState :=
  mkGameState (player_name st) (profession st) (difficulty st)
    (day st) (distance st) (food st) (ammo st) (money st) (health st) (pace st)
    (weather st) (terrain st) (alive st) (won st) (status st) (event_log st) v.

(** The dictionary [perform_action] returns: [asdict(state)] with the
    difficulty as its value string, plus the day's messages and the
    descriptions of the trade offers. *)
Record Snapshot : Type := mkSnapshot {
  snap_player_name : string;
  snap_profession : string;
  snap_difficulty : string;
  snap_day : Z;
  snap_distance : Z;
  snap_food : Z;
  snap_ammo : Z;
  snap_money : Z;
  snap_health : Z;
  snap_pace : string;
  snap_weather : string;
  snap_terrain : string;
  snap_alive : bool;
  snap_won : bool;
  snap_status : string;
  snap_event_log : list string;
  snap_trade_available : bool;
  snap_messages : list string;
  snap_trade_offers : list string
}.

Definition snapshot (st : GameState) (messages trade_offers : list string) : Snapshot :=
  mkSnapshot (player_name st) (profession st) (Difficulty_value (difficulty st))
    (day st) (distance st) (food st) (ammo st) (money st) (health st) (pace st)
    (weather st) (terrain st) (alive st) (won st) (status st) (event_log st)
    (trade_available st) messages trade_offers.

(** The attributes of a [Game] object other than [rng]; [game_difficulty]
    is [self.difficulty], the name [difficulty] being the field of
    [GameState]. *)
Record Game : Type := mkGame {
  game_difficulty : Difficulty;
  settings : Settings;
  state : GameState;
  event_chance : float;
  max_days : Z;
  is_over : bool;
  current_trade_offers : list TradeOffer
}.

Definition set_state (f : GameState -> GameState) (g : Game) : Game :=
  mkGame (game_difficulty g) (settings g) (f (state g)) (event_chance g) (max_days g)
    (is_over g) (current_trade_offers g).

Definition set_event_chance (v : float) (g : Game) : Game :=
  mkGame (game_difficulty g) (settings g) (state g) v (max_days g)
    (is_over g) (current_trade_offers g).

Definition set_is_over (v : bool) (g : Game) : Game :=
  mkGame (game_difficulty g) (settings g) (state g) (event_chance g) (max_days g)
    v (current_trade_offers g).

Definition set_current_trade_offers (v : list TradeOffer) (g : Game) : Game :=
  mkGame (game_difficulty g) (settings g) (state g) (event_chance g) (max_days g)
    (is_over g) v.

(** The keyword arguments [perform_action] reads. *)
Record Kwargs : Type := mkKwargs {
  kw_pace : option string;
  kw_ammo_spent : option Z;
  kw_offer_index : option Z
}.

Definition no_kwargs : Kwargs := mkKwargs None None None.

(* ================================================================== *)
(** * The random source *)

(** The four methods of [random.Random] the engine calls.  [choices p w] is
    [rng.choices(p, weights=w, k=1)[0]].  The only law is the documented
    range of [randint]. *)
Class RandomSource (R : Type) : Type := {
  random : R -> float * R;
  randint : Z -> Z -> R -> Z * R;
  uniform : float -> float -> R -> float * R;
  choices : list string -> list Z -> R -> string * R;
  randint_range : forall a b r, a <= b -> a <= fst (randint a b r) <= b
}.

(* ================================================================== *)
(** * Computations over the store *)

Section Monad.

Context {R : Type}.

Definition Store : Type := Game * R.

Definition M (A : Type) : Type := Store -> (PyExc + A) * Store.

Definition ret {A : Type} (a : A) : M A := fun w => (inr a, w).

Definition raise {A : Type} (e : PyExc) : M A := fun w => (inl e, w).

Definition bind {A B : Type} (m : M A) (k : A -> M B) : M B :=
  fun w =>
    match fst (m w) with
    | inl e => (inl e, snd (m w))
    | inr a => k a (snd (m w))
    end.

Definition get : M Game := fun w => (inr (fst w), w).

Definition gets {A : Type} (f : Game -> A) : M A := fun w => (inr (f (fst w)), w).

Definition modify (f : Game -> Game) : M unit := fun w => (inr tt, (f (fst w), snd w)).

Definition modify_state (f : GameState -> GameState) : M unit := modify (set_state f).

(** A method that neither draws nor raises. *)
Definition call {A : Type} (f : Game -> A * Game) : M A :=
  fun w => (inr (fst (f (fst w))), (snd (f (fst w)), snd w)).

(** A conversion that may raise. *)
Definition lift {A : Type} (x : PyExc + A) : M A :=
  match x with inl e => raise e | inr a => ret a end.

(** One call of a method of the random source. *)
Definition draw {A : Type} (f : R -> A * R) : M A :=
  fun w => (inr (fst (f (snd w))), (fst w, snd (f (snd w)))).

End Monad.

Arguments Store : clear implicits.
Arguments M : clear implicits.

Notation "x <- m ;; k" := (bind m (fun x => k))
  (at level 61, m at next level, right associativity).
Notation "' p <- m ;; k" := (bind m (fun x => match x with p => k end))
  (at level 61, p pattern, m at next level, right associativity).
Notation "m ;; k" := (bind m (fun _ => k))
  (at level 61, right associativity).

(* ================================================================== *)
(** * The engine: methods of [Game] *)

Definition in_list (x : string) (l : list string) : bool := existsb (String.eqb x) l.

(** [list.pop(i)] for an index in range. *)
Definition pop {A : Type} (i : nat) (l : list A) : list A :=
  (firstn i l ++ skipn (S i) l)%list.

Definition is_empty {A : Type} (l : list A) : bool :=
  match l with [] => true | _ => false end.

(** ** Helpers that neither draw nor raise *)

Definition _consume_food (amount : Z) (g : Game) : Game :=
  set_state (fun st => set_food (Z.max 0 (food st - Z.max 0 amount)) st) g.

Definition _weather_modifier (g : Game) : float :=
  Py.get_default WEATHER_OPTIONS (weather (state g)) 1.0%float.

Definition _terrain_modifier (g : Game) : float :=
  Py.get_default TERRAIN_OPTIONS (terrain (state g)) 1.0%float.

Definition _rest (g : Game) : string * Game :=
  let health_gain := cfg_rest_health (settings g) in
  let previous_health := health (state g) in
  let g := set_state (fun st => set_health (Z.min 100 (health st + health_gain)) st) g in
  let gained := health (state g) - previous_health in
  if gained <=? 0
  then ("You rest for the day but feel no better.", g)
  else ("You rest for the day and recover " ++ Py.str gained ++ " health.", g).

Definition _end_of_day (g : Game) : Game :=
  let g :=
    if food (state g) <=? 0 then
      let penalty := cfg_starvation_penalty (settings g) in
      set_state (fun st =>
        set_event_log (event_log st ++ ["Without food your health deteriorates quickly."])%list
          (set_health (Z.max 0 (health st - penalty)) st)) g
    else g in
  if health (state g) <=? 0 then
    set_is_over true
      (set_state (fun st => set_status "You have perished on the trail." (set_alive false st)) g)
  else if TARGET_MILES <=? distance (state g) then
    set_is_over true
      (set_state (fun st =>
         set_status "Congratulations! You have reached Oregon City." (set_won true st)) g)
  else if max_days g <=? day (state g) then
    set_is_over true
      (set_state (fun st =>
         set_status "Time has run out before you reached Oregon." (set_alive false st)) g)
  else set_state (set_status "On the trail") g.

Definition available_professions : list string := Py.keys PROFESSION_BONUSES.

Definition pace_options : list string := Py.keys PACE_SPEEDS.

Definition available_actions (g : Game) : list string :=
  (["travel"; "hunt"; "rest"] ++ if trade_available (state g) then ["trade"] else [])%list.

Definition get_trade_offers (g : Game) : list TradeOffer := current_trade_offers g.

Section Engine.

Context {R : Type} {RS : RandomSource R}.

(** ** Environment *)

Definition _update_weather_and_terrain : M R unit :=
  w <- draw (choices (map fst WEATHER_OPTIONS) [5; 4; 3; 3; 2; 2]) ;;
  modify_state (set_weather w) ;;
  t <- draw (choices (map fst TERRAIN_OPTIONS) [5; 3; 2; 2; 3]) ;;
  modify_state (set_terrain t).

(** ** Action handlers *)

Definition _travel (pace : string) : M R (string * Z) :=
  let pace_key := Py.strip (Py.lower pace) in
  match Py.get PACE_SPEEDS pace_key with
  | None =>
      raise (ValueError ("Invalid pace '" ++ pace ++ "'. Choose from "
                         ++ Py.join ", " (Py.keys PACE_SPEEDS) ++ "."))
  | Some speed =>
      weather_mod <- gets _weather_modifier ;;
      terrain_mod <- gets _terrain_modifier ;;
      let miles_float := (Py.float_of_int speed * weather_mod * terrain_mod)%float in
      rounded <- lift (Py.round miles_float) ;;
      let miles := Z.max 5 rounded in
      modify_state (fun st => set_distance (distance st + miles) st) ;;
      modify_state (set_pace pace_key) ;;
      st <- gets state ;;
      let message :=
        "You travel " ++ Py.str miles ++ " miles at a " ++ pace_key ++ " pace through "
        ++ Py.lower (weather st) ++ " weather and " ++ Py.lower (terrain st) ++ " terrain." in
      let multiplier := Py.get_default PACE_FOOD_MULTIPLIER pace_key 1.0%float in
      extra_food <- lift (Py.ceil (Py.float_of_int BASE_FOOD_PER_DAY
                                   * Py.fmax 0.0 (multiplier - 1.0))%float) ;;
      ret (message, extra_food)
  end.

Definition _hunt (ammo_override : option Z) : M R string :=
  let ammo_cost := match ammo_override with Some a => a | None => 5 end in
  if ammo_cost <=? 0 then raise (ValueError "Ammo spent must be positive when hunting.") else
  have <- gets (fun g => ammo (state g)) ;;
  if have <? ammo_cost then raise (ValueError "Not enough ammunition to hunt.") else
  modify_state (fun st => set_ammo (ammo st - ammo_cost) st) ;;
  bag <- draw (randint 25 55) ;;
  let food_gained := bag + ammo_cost * 2 in
  modify_state (fun st => set_food (food st + food_gained) st) ;;
  ret ("You spend " ++ Py.str ammo_cost ++ " ammo hunting and bring back "
       ++ Py.str food_gained ++ " lbs of food.").

Definition _add_resource (item : string) (amount : Z) : M R unit :=
  if String.eqb item "food" then
    modify_state (fun st => set_food (Z.max 0 (food st + amount)) st)
  else if String.eqb item "ammo" then
    modify_state (fun st => set_ammo (Z.max 0 (ammo st + amount)) st)
  else raise (ValueError "Unknown resource type.").

Definition _get_resource (item : string) : M R Z :=
  if String.eqb item "food" then gets (fun g => food (state g))
  else if String.eqb item "ammo" then gets (fun g => ammo (state g))
  else raise (ValueError "Unknown resource type.").

Definition _trade (offer_index : option Z) : M R string :=
  g <- get ;;
  if negb (trade_available (state g)) || is_empty (current_trade_offers g) then
    ret "There is no trading post available today."
  else
  match offer_index with
  | None =>
      modify_state (set_trade_available false) ;;
      modify (set_current_trade_offers []) ;;
      ret "You browse the trading post but decide not to trade."
  | Some i =>
      if (i <? 0) || (Z.of_nat (List.length (current_trade_offers g)) <=? i) then
        raise (ValueError "Invalid trade offer selection.")
      else
      match nth_error (current_trade_offers g) (Z.to_nat i) with
      | None => raise (IndexError "list index out of range")
      | Some offer =>
          if negb (in_list (item offer) TRADE_ITEMS) then
            raise (ValueError "Unsupported trade item.")
          else
          message <-
            (if 0 <? price offer then
               funds <- gets (fun g => money (state g)) ;;
               if funds <? price offer then
                 raise (ValueError "Not enough money for that trade.")
               else
               modify_state (fun st => set_money (money st - price offer) st) ;;
               _add_resource (item offer) (quantity offer) ;;
               ret ("You buy " ++ Py.str (quantity offer) ++ " " ++ item offer
                    ++ " for $" ++ Py.str (price offer) ++ ".")
             else
               have <- _get_resource (item offer) ;;
               if have <? quantity offer then
                 raise (ValueError "You do not have enough goods for that trade.")
               else
               _add_resource (item offer) (- quantity offer) ;;
               modify_state (fun st => set_money (money st + Z.abs (price offer)) st) ;;
               ret ("You sell " ++ Py.str (quantity offer) ++ " " ++ item offer
                    ++ " for $" ++ Py.str (Z.abs (price offer)) ++ ".")) ;;
          modify_state (set_trade_available false) ;;
          modify (fun g => set_current_trade_offers
                             (pop (Z.to_nat i) (current_trade_offers g)) g) ;;
          ret message
      end
  end.

(** ** Random events *)

Definition _apply_random_event : M R (list string) :=
  trigger <- draw random ;;
  chance <- gets event_chance ;;
  if (chance <? trigger)%float then ret [] else
  event_roll <- draw random ;;
  if (event_roll <? 0.2)%float then
    loss <- draw (randint 10 30) ;;
    modify_state (fun st => set_food (Z.max 0 (food st - loss)) st) ;;
    ret ["Spoiled supplies force you to discard " ++ Py.str loss ++ " lbs of food."]
  else if (event_roll <? 0.4)%float then
    injury <- draw (randint 8 15) ;;
    modify_state (fun st => set_health (Z.max 0 (health st - injury)) st) ;;
    ret ["A wagon accident injures you for " ++ Py.str injury ++ " health."]
  else if (event_roll <? 0.6)%float then
    disease <- draw (randint 12 20) ;;
    modify_state (fun st => set_health (Z.max 0 (health st - disease)) st) ;;
    ret ["You fall ill and lose " ++ Py.str disease ++ " health fighting the sickness."]
  else if (event_roll <? 0.75)%float then
    stolen <- draw (randint 4 10) ;;
    have <- gets (fun g => ammo (state g)) ;;
    let ammo_loss := Z.min have stolen in
    modify_state (fun st => set_ammo (ammo st - ammo_loss) st) ;;
    ret ["Bandits raid your camp and steal " ++ Py.str ammo_loss ++ " ammo."]
  else if (event_roll <? 0.9)%float then
    found_food <- draw (randint 20 45) ;;
    modify_state (fun st => set_food (food st + found_food) st) ;;
    ret ["You find wild game and add " ++ Py.str found_food ++ " lbs of food to your stores."]
  else
    modify_state (fun st => set_distance (Z.max 0 (distance st - 10)) st) ;;
    ret ["You lose the trail and backtrack 10 miles."].

(** ** Trading posts *)

(** One pass through the body of [for _ in range(num_offers)]. *)
Definition make_offer : M R TradeOffer :=
  kind <- draw random ;;
  '(item, quantity, price) <-
    (if (kind <? 0.5)%float then
       quantity <- draw (randint 25 60) ;;
       factor <- draw (uniform 0.4 0.7) ;;
       cost <- lift (Py.int (Py.float_of_int quantity * factor)%float) ;;
       ret ("food", quantity, Z.max 10 cost)
     else
       quantity <- draw (randint 6 15) ;;
       factor <- draw (uniform 1.5 2.0) ;;
       cost <- lift (Py.int (Py.float_of_int quantity * factor)%float) ;;
       ret ("ammo", quantity, Z.max 8 cost)) ;;
  flip <- draw random ;;
  let price := if (flip <? 0.25)%float then price * -1 else price in
  ret (mkTradeOffer item quantity price).

Fixpoint make_offers (n : nat) (offers : list TradeOffer) : M R (list TradeOffer) :=
  match n with
  | O => ret offers
  | S n' => offer <- make_offer ;; make_offers n' (offers ++ [offer])%list
  end.

Definition _maybe_prepare_trade_post (initial : bool) : M R unit :=
  let probability := if negb initial then 0.25%float else 0.3%float in
  roll <- draw random ;;
  if (probability <? roll)%float then
    modify_state (set_trade_available false) ;;
    modify (set_current_trade_offers [])
  else
  num_offers <- draw (randint 1 3) ;;
  offers <- make_offers (Z.to_nat num_offers) [] ;;
  modify_state (set_trade_available true) ;;
  modify (set_current_trade_offers offers).

(** ** Construction *)

Definition Game_init (player_name profession : string) (difficulty : Difficulty)
  : R -> PyExc + Store R :=
  fun rng =>
  let profession_key := Py.strip (Py.lower profession) in
  match Py.get PROFESSION_BONUSES profession_key with
  | None =>
      inl (ValueError ("Unknown profession '" ++ profession ++ "'. Choose from "
                       ++ Py.join ", " (Py.keys PROFESSION_BONUSES)))
  | Some bonuses =>
      let settings := DIFFICULTY_SETTINGS difficulty in
      let base_food := cfg_food settings in
      let base_ammo := cfg_ammo settings in
      let base_money := cfg_money settings in
      let health := 100 in
      let food := base_food + Py.get_default bonuses "food" 0 in
      let ammo := base_ammo + Py.get_default bonuses "ammo" 0 in
      let money := base_money + Py.get_default bonuses "money" 0 in
      let health := health + Py.get_default bonuses "health" 0 in
      let name := Py.strip player_name in
      let state :=
        mkGameState (if String.eqb name "" then "Pioneer" else name)
          profession_key difficulty 1 0 food ammo money health
          "steady" "Mild" "Plains" true false "On the trail" [] false in
      let game :=
        mkGame difficulty settings state (cfg_event_chance settings)
          (cfg_max_days settings) false [] in
      match (_update_weather_and_terrain ;; _maybe_prepare_trade_post true) (game, rng) with
      | (inl e, _) => inl e
      | (inr _, w) => inr w
      end
  end.

(** ** The day cycle *)

Definition perform_action (action : string) (kwargs : Kwargs) : M R Snapshot :=
  over <- gets is_over ;;
  if over then
    raise (RuntimeError "The game has ended. Start a new game to continue playing.")
  else
  let action_key := Py.strip (Py.lower action) in
  if negb (in_list action_key ["travel"; "hunt"; "rest"; "trade"]) then
    raise (ValueError ("Unknown action '" ++ action ++ "'."))
  else
  modify_state (set_event_log []) ;;
  _update_weather_and_terrain ;;
  '(messages, food_consumed) <-
    (if String.eqb action_key "travel" then
       pace <- gets (fun g => match kw_pace kwargs with
                              | Some p => p
                              | None => pace (state g)
                              end) ;;
       '(message, extra_food) <- _travel pace ;;
       ret ([message], BASE_FOOD_PER_DAY + extra_food)
     else if String.eqb action_key "hunt" then
       message <- _hunt (kw_ammo_spent kwargs) ;;
       ret ([message], BASE_FOOD_PER_DAY)
     else if String.eqb action_key "rest" then
       message <- call _rest ;;
       ret ([message], BASE_FOOD_PER_DAY)
     else if String.eqb action_key "trade" then
       message <- _trade (kw_offer_index kwargs) ;;
       ret ([message], Z.max 1 (BASE_FOOD_PER_DAY - 2))
     else ret ([], BASE_FOOD_PER_DAY)) ;;
  modify (_consume_food food_consumed) ;;
  events <- _apply_random_event ;;
  modify _end_of_day ;;
  g <- get ;;
  let messages := (messages ++ events ++ event_log (state g))%list in
  let snap := snapshot (state g) messages (map describe (current_trade_offers g)) in
  (if negb (is_over g) then
     modify_state (fun st => set_day (day st + 1) st) ;;
     _maybe_prepare_trade_post false
   else ret tt) ;;
  ret snap.

End Engine.

(* ================================================================== *)
(** * Runs of the engine *)

(** A run of the engine: the outcome of every call in turn, each with the
    game it leaves. *)
Fixpoint play {R : Type} {RS : RandomSource R} (actions : list (string * Kwargs))
         (w : Store R) : list ((PyExc + Snapshot) * Game) :=
  match actions with
  | [] => []
  | (action, kwargs) :: rest =>
      let out := perform_action action kwargs w in
      (fst out, fst (snd out)) :: play rest (snd out)
  end.

(** A game from construction on: the game [Game.__init__] builds, then the
    run. *)
Definition run {R : Type} {RS : RandomSource R} (name prof : string) (d : Difficulty)
           (actions : list (string * Kwargs)) (rng : R)
  : PyExc + Game * list ((PyExc + Snapshot) * Game) :=
  match Game_init name prof d rng with
  | inl e => inl e
  | inr w => inr (fst w, play actions w)
  end.

(* ================================================================== *)
(** * Random sources for concrete runs *)

(** A random source that replays a script, one entry per call: the float
    of a [random] or [uniform] call, the integer of a [randint] call, the
    label of a [choices] call.  An integer outside [a..b] is replaced by
    [a] and a label outside the population by its first element; a missing
    or ill-kinded entry yields [0.5], [a], [a] and the first element. *)
Inductive Draw : Type :=
  | Float (x : float)
  | Int (n : Z)
  | Choice (s : string).

Definition Script : Type := list Draw.

Definition script_random (s : Script) : float * Script :=
  match s with
  | Float x :: s' => (x, s')
  | _ :: s' => (0.5%float, s')
  | [] => (0.5%float, [])
  end.

Definition script_randint (a b : Z) (s : Script) : Z * Script :=
  match s with
  | Int n :: s' => (if (a <=? n) && (n <=? b) then n else a, s')
  | _ :: s' => (a, s')
  | [] => (a, [])
  end.

Definition script_uniform (a b : float) (s : Script) : float * Script :=
  match s with
  | Float x :: s' => (x, s')
  | _ :: s' => (a, s')
  | [] => (a, [])
  end.

Definition script_choices (population : list string) (weights : list Z) (s : Script)
  : string * Script :=
  match s with
  | Choice c :: s' => (if in_list c population then c else hd "" population, s')
  | _ :: s' => (hd "" population, s')
  | [] => (hd "" population, [])
  end.

Lemma script_randint_range (a b : Z) (s : Script) :
  a <= b -> a <= fst (script_randint a b s) <= b.
Proof.
  intros Hab. destruct s as [|[x|n|c] s']; simpl; try lia.
  destruct (a <=? n) eqn:Ha; destruct (n <=? b) eqn:Hb; simpl; lia.
Qed.

#[export] Instance Scripted : RandomSource Script := {
  random := script_random;
  randint := script_randint;
  uniform := script_uniform;
  choices := script_choices;
  randint_range := script_randint_range
}.

(** The same script read through a cursor: the script stays whole and a
    position advances by one at every call. *)
Definition Cursor : Type := nat * Script.

Definition at_cursor (c : Cursor) : Script := skipn (fst c) (snd c).

Definition advance (c : Cursor) : Cursor := (S (fst c), snd c).

Lemma cursor_randint_range (a b : Z) (c : Cursor) :
  a <= b -> a <= fst (fst (script_randint a b (at_cursor c)), advance c) <= b.
Proof. intros H. cbn [fst]. apply script_randint_range. exact H. Qed.

#[export] Instance Cursored : RandomSource Cursor := {
  random c := (fst (script_random (at_cursor c)), advance c);
  randint a b c := (fst (script_randint a b (at_cursor c)), advance c);
  uniform a b c := (fst (script_uniform a b (at_cursor c)), advance c);
  choices p ws c := (fst (script_choices p ws (at_cursor c)), advance c);
  randint_range := cursor_randint_range
}.

(* ================================================================== *)
(** * A random source that records what it is asked *)

(** One call of a method of the random source, with its arguments. *)
Inductive Request : Type :=
  | AskRandom
  | AskRandint (a b : Z)
  | AskUniform (a b : float)
  | AskChoices (population : list string) (weights : list Z).

(** A source together with the requests made of it so far, oldest first. *)
Definition Recorded (R : Type) : Type := R * list Request.

Section Recording.

Context {R : Type} (RS : RandomSource R).

Definition recorded_random (s : Recorded R) : float * Recorded R :=
  (fst (random (fst s)), (snd (random (fst s)), snd s ++ [AskRandom])%list).

Definition recorded_randint (a b : Z) (s : Recorded R) : Z * Recorded R :=
  (fst (randint a b (fst s)), (snd (randint a b (fst s)), snd s ++ [AskRandint a b])%list).

Definition recorded_uniform (a b : float) (s : Recorded R) : float * Recorded R :=
  (fst (uniform a b (fst s)), (snd (uniform a b (fst s)), snd s ++ [AskUniform a b])%list).

Definition recorded_choices (population : list string) (weights : list Z) (s : Recorded R)
  : string * Recorded R :=
  (fst (choices population weights (fst s)),
   (snd (choices population weights (fst s)), snd s ++ [AskChoices population weights])%list).

Lemma recorded_randint_range (a b : Z) (s : Recorded R) :
  a <= b -> a <= fst (recorded_randint a b s) <= b.
Proof. intros H. apply randint_range. exact H. Qed.

(** The source [RS] with every request recorded; it answers as [RS]
    does. *)
Definition Recording : RandomSource (Recorded R) := {|
  random := recorded_random;
  randint := recorded_randint;
  uniform := recorded_uniform;
  choices := recorded_choices;
  randint_range := recorded_randint_range
|}.

End Recording.

(** ** The order of the draws

    The order in which the engine asks: the weather roll, the terrain
    roll, the rolls of the action, the event trigger roll, the rolls of the
    event, the roll for the trading post of the next day and the rolls of
    its offers. *)

Definition weather_roll : Request := AskChoices (map fst WEATHER_OPTIONS) [5; 4; 3; 3; 2; 2].

Definition terrain_roll : Request := AskChoices (map fst TERRAIN_OPTIONS) [5; 3; 2; 2; 3].

(** Only the hunt draws: the game it brings back. *)
Definition action_rolls (action_key : string) : list Request :=
  if String.eqb action_key "hunt" then [AskRandint 25 55] else [].

(** The trigger roll alone when no event fires; else the trigger roll, the
    roll for the kind of event and, but for the lost trail, its amount. *)
Definition event_rolls (l : list Request) : Prop :=
  l = [AskRandom]
  \/ l = [AskRandom; AskRandom]
  \/ exists a b,
       In (a, b) [(10, 30); (8, 15); (12, 20); (4, 10); (20, 45)]
       /\ l = [AskRandom; AskRandom; AskRandint a b].

(** One offer: its kind, its quantity, its price factor, its direction. *)
Definition offer_rolls (l : list Request) : Prop :=
  l = [AskRandom; AskRandint 25 60; AskUniform 0.4 0.7; AskRandom]
  \/ l = [AskRandom; AskRandint 6 15; AskUniform 1.5 2.0; AskRandom].

(** The roll for the post alone when there is none; else that roll, the
    number of offers and the rolls of one to three offers. *)
Definition post_rolls (l : list Request) : Prop :=
  l = [AskRandom]
  \/ exists offers,
       l = ([AskRandom; AskRandint 1 3] ++ List.concat offers)%list
       /\ 1 <= Z.of_nat (List.length offers) <= 3
       /\ Forall offer_rolls offers.

(** The draws of the constructor. *)
Definition init_rolls (l : list Request) : Prop :=
  exists post, l = ([weather_roll; terrain_roll] ++ post)%list /\ post_rolls post.

(** The draws of one call of [perform_action] that returns; [over] is
    whether it leaves the game over, in which case no post is made. *)
Definition day_rolls (action_key : string) (over : bool) (l : list Request) : Prop :=
  exists event post,
    l = ([weather_roll; terrain_roll] ++ action_rolls action_key ++ event ++ post)%list
    /\ event_rolls event
    /\ (if over then post = [] else post_rolls post).

(* ================================================================== *)
(** * Specification vocabulary *)

(** The health bonus of a profession, as [Game.__init__] reads it. *)
Definition health_bonus (p : string) : Z :=
  Py.get_default (Py.get_default PROFESSION_BONUSES p []) "health" 0.

(** What every game built by [Game.__init__] and driven by [perform_action]
    satisfies. *)
Definition Inv (g : Game) : Prop :=
  0 <= food (state g) /\
  0 <= ammo (state g) /\
  0 <= money (state g) /\
  0 <= distance (state g) /\
  0 <= health (state g) <= 100 + health_bonus (profession (state g)) /\
  0 <= cfg_rest_health (settings g) /\
  0 <= cfg_starvation_penalty (settings g) /\
  settings g = DIFFICULTY_SETTINGS (difficulty (state g)) /\
  max_days g = cfg_max_days (settings g) /\
  (is_over g = false -> won (state g) = false /\ alive (state g) = true).

(** The game [g'] differs from [g] at most in its trading post. *)
Definition post_only (g g' : Game) : Prop :=
  exists (open : bool) (offers : list TradeOffer),
    g' = set_current_trade_offers offers (set_state (set_trade_available open) g).

(** The miles [_travel] adds for a base speed and the two modifiers. *)
Definition miles_for (speed : Z) (weather_mod terrain_mod : float) : PyExc + Z :=
  match Py.round (Py.float_of_int speed * weather_mod * terrain_mod)%float with
  | inr rounded => inr (Z.max 5 rounded)
  | inl e => inl e
  end.

(** The extra food [_travel] asks for at a pace. *)
Definition extra_food_for (pace_key : string) : PyExc + Z :=
  Py.ceil (Py.float_of_int BASE_FOOD_PER_DAY
           * Py.fmax 0.0 (Py.get_default PACE_FOOD_MULTIPLIER pace_key 1.0 - 1.0))%float.

Definition modifiers (table : list (string * float)) : list float :=
  1.0%float :: map snd table.

Definition is_ok {A : Type} (x : PyExc + A) : bool :=
  match x with inr _ => true | inl _ => false end.



(** Two random sources answer alike from related states: every method
    returns the same value on both sides and leaves related states.  Two
    sources initialised from the same seed are related in this way. *)
Definition answer_alike {R1 R2 : Type} (RS1 : RandomSource R1) (RS2 : RandomSource R2)
           (sim : R1 -> R2 -> Prop) : Prop :=
  forall r1 r2, sim r1 r2 ->
    (fst (random r1) = fst (random r2) /\ sim (snd (random r1)) (snd (random r2)))
    /\ (forall a b,
          fst (randint a b r1) = fst (randint a b r2)
          /\ sim (snd (randint a b r1)) (snd (randint a b r2)))
    /\ (forall a b,
          fst (uniform a b r1) = fst (uniform a b r2)
          /\ sim (snd (uniform a b r1)) (snd (uniform a b r2)))
    /\ (forall p ws,
          fst (choices p ws r1) = fst (choices p ws r2)
          /\ sim (snd (choices p ws r1)) (snd (choices p ws r2))).

Section Vocabulary.

Context {R : Type} {RS : RandomSource R}.

(** [wp m Q E w]: run from [w], [m] either returns a value and a store in
    [Q] or raises in a store in [E]. *)
Definition wp {A : Type} (m : M R A) (Q : A -> Store R -> Prop)
           (E : PyExc -> Store R -> Prop) (w : Store R) : Prop :=
  match fst (m w) with
  | inr a => Q a (snd (m w))
  | inl e => E e (snd (m w))
  end.

(** [m] keeps the predicate [I] on the game, also when it raises. *)
Definition keeps {A : Type} (I : Game -> Prop) (m : M R A) : Prop :=
  forall g r, I g -> wp m (fun _ w' => I (fst w')) (fun _ w' => I (fst w')) (g, r).

(** The stores a caller can observe: the one [Game.__init__] leaves, and
    the one any [perform_action] call leaves, whether it returns or
    raises. *)
Inductive reachable : Store R -> Prop :=
  | reach_init (name prof : string) (d : Difficulty) (rng : R) (w : Store R) :
    Game_init name prof d rng = inr w -> reachable w
  | reach_step (w : Store R) (action : string) (kwargs : Kwargs) :
    reachable w -> reachable (snd (perform_action action kwargs w)).

(** The two draws of [_update_weather_and_terrain]. *)
Definition sky (r : R) : string * R :=
  choices (map fst WEATHER_OPTIONS) [5; 4; 3; 3; 2; 2] r.

Definition land (r : R) : string * R :=
  choices (map fst TERRAIN_OPTIONS) [5; 3; 2; 2; 3] (snd (sky r)).

(** The store in which the action handler starts: the event log is
    cleared and the weather and terrain of the new day are drawn. *)
Definition new_day (g : Game) (r : R) : Store R :=
  (set_state (fun st => set_terrain (fst (land r))
                          (set_weather (fst (sky r)) (set_event_log [] st))) g,
   snd (land r)).

(** The game at the end of a day of rest without random event. *)
Definition rested_game (g : Game) (r : R) : Game :=
  _end_of_day
    (_consume_food BASE_FOOD_PER_DAY
       (set_state (fun st => set_health (Z.min 100 (health st + cfg_rest_health (settings g))) st)
          (fst (new_day g r)))).

(** The game at the end of a day of travel without random event. *)
Definition travelled_game (g : Game) (r : R) (pace_key : string) (miles extra : Z) : Game :=
  _end_of_day
    (_consume_food (BASE_FOOD_PER_DAY + extra)
       (set_state (set_pace pace_key)
          (set_state (fun st => set_distance (distance st + miles) st) (fst (new_day g r))))).


End Vocabulary.

Section Relating.

Context {R1 R2 : Type}.
Variable sim : R1 -> R2 -> Prop.

(** Same game, related sources. *)
Definition related (w1 : Store R1) (w2 : Store R2) : Prop :=
  fst w1 = fst w2 /\ sim (snd w1) (snd w2).

(** The two computations have the same outcome and leave related stores. *)
Definition agree {A : Type} (m1 : M R1 A) (m2 : M R2 A) : Prop :=
  forall w1 w2, related w1 w2 ->
    fst (m1 w1) = fst (m2 w2) /\ related (snd (m1 w1)) (snd (m2 w2)).

End Relating.

(* ================================================================== *)
(** * Concrete games *)

(** A script under which [Game.__init__] draws mild weather on the plains
    and no trading post. *)
Definition quiet_start : Script := [Choice "Mild"; Choice "Plains"; Float 0.9].

(** [Game("Tester", "banker", Difficulty.NORMAL)], the game of the test
    suite, after a quiet start. *)
Definition banker_game : Game :=
  mkGame NORMAL (DIFFICULTY_SETTINGS NORMAL)
    (mkGameState "Tester" "banker" NORMAL 1 0 240 55 1700 100
       "steady" "Mild" "Plains" true false "On the trail" [] false)
    0.27%float 55 false [].

(** [Game("Ada", "doctor", Difficulty.NORMAL)] after a quiet start. *)
Definition doctor_game : Game :=
  mkGame NORMAL (DIFFICULTY_SETTINGS NORMAL)
    (mkGameState "Ada" "doctor" NORMAL 1 0 240 55 1100 110
       "steady" "Mild" "Plains" true false "On the trail" [] false)
    0.27%float 55 false [].

(** The banker's game once Oregon City is reached. *)
Definition arrived_game : Game :=
  set_is_over true
    (set_state (fun st => set_status "Congratulations! You have reached Oregon City."
                            (set_won true (set_distance 2004 (set_day 40 st))))
       banker_game).

(** The banker at a trading post with two offers. *)
Definition trading_game : Game :=
  set_current_trade_offers [mkTradeOffer "food" 30 12; mkTradeOffer "ammo" 9 (-17)]
    (set_state (set_trade_available true) banker_game).

(** The banker on day 12 with no food left and health 7: the penalty of 10
    brings health to 0 and the game is lost, although 2004 miles are
    covered. *)
Definition starving_game : Game :=
  set_state (fun st => set_health 7 (set_food 0 (set_distance 2004 (set_day 12 st))))
    banker_game.

(** The banker on day 55, the last day, with 3 lbs of food and health 50. *)
Definition last_day_game : Game :=
  set_state (fun st => set_health 50 (set_food 3 (set_day 55 st))) banker_game.

(** The banker's game with the event chance set to zero, as the test suite
    does. *)
Definition calm_game : Game := set_event_chance 0%float banker_game.

(** The same game on day 30, with nothing left to eat. *)
Definition hungry_game : Game :=
  set_state (fun st => set_health 80 (set_food 0 (set_day 30 st))) calm_game.


(** Three days of the banker: travel, a hunt asking for too much, rest. *)
Definition three_days : list (string * Kwargs) :=
  [("travel", mkKwargs (Some "steady") None None);
   ("hunt", mkKwargs None (Some 100) None);
   ("rest", no_kwargs)].

Definition three_days_script : Script :=
  (quiet_start
   ++ [Choice "Hot"; Choice "Hills"; Float 0.1; Float 0.7; Int 9; Float 0.9;
       Choice "Cold"; Choice "Forest";
       Choice "Warm"; Choice "Plains"; Float 0.5; Float 0.1; Int 1; Float 0.3; Int 30;
       Float 0.5; Float 0.9])%list.

(** The banker travels at a grueling pace, is raided, then asks for a hunt
    with more ammunition than is left. *)
Definition C4_store : Store Script :=
  snd (perform_action "hunt" (mkKwargs None (Some 100) None)
    (snd (perform_action "travel" (mkKwargs (Some "grueling") None None)
      (banker_game,
       [Choice "Hot"; Choice "Hills"; Float 0.1; Float 0.7; Int 9; Float 0.9;
        Choice "Cold"; Choice "Forest"])))).

(* ================================================================== *)
(** * Vocabulary of the further properties *)

(** The strings of ASCII characters only.  On these, [Py.lower] and
    [Py.strip] are [str.lower] and [str.strip]; on others Python also folds
    letters and strips blanks outside ASCII, which the two functions leave
    alone.  What is stated of names that the engine refuses, or does not
    take for an action, is stated of these strings. *)
Definition is_ascii (c : ascii) : bool := (N_of_ascii c <? 128)%N.

Fixpoint ascii_only (s : string) : bool :=
  match s with
  | EmptyString => true
  | String c s' => is_ascii c && ascii_only s'
  end.

(** The two errors of a float-to-[int] conversion. *)
Definition conversion_error (e : PyExc) : Prop :=
  e = OverflowError "cannot convert float infinity to integer"
  \/ e = ValueError "cannot convert float NaN to integer".

(** An offer as [_maybe_prepare_trade_post] makes them. *)
Definition offer_ok (o : TradeOffer) : Prop :=
  (item o = "food" /\ 25 <= quantity o <= 60 /\ 10 <= Z.abs (price o))
  \/ (item o = "ammo" /\ 6 <= quantity o <= 15 /\ 8 <= Z.abs (price o)).

(** The trading post of a game: well-made offers, three at most, and at
    least one when trading is announced. *)
Definition post_ok (g : Game) : Prop :=
  Forall offer_ok (current_trade_offers g)
  /\ Z.of_nat (List.length (current_trade_offers g)) <= 3
  /\ (trade_available (state g) = true -> current_trade_offers g <> []).

(** A game in the middle of a day, after the action handler. *)
Definition Underway (g : Game) : Prop :=
  is_over g = false /\ alive (state g) = true /\ won (state g) = false
  /\ 1 <= day (state g) <= max_days g /\ max_days g <= 60
  /\ distance (state g) <= 25 * day (state g)
  /\ In (pace (state g)) pace_options
  /\ post_ok g.

(** A game between two calls. *)
Definition Course (g : Game) : Prop :=
  1 <= day (state g) <= max_days g /\ max_days g <= 60
  /\ In (pace (state g)) pace_options
  /\ post_ok g
  /\ (is_over g = false ->
      alive (state g) = true /\ won (state g) = false
      /\ 0 < health (state g) /\ distance (state g) <= 25 * (day (state g) - 1))
  /\ (is_over g = true ->
      alive (state g) = false /\ won (state g) = false
      /\ distance (state g) <= 25 * day (state g)).

(** What [Game.__init__] fixes for the whole game. *)
Definition same_setup (g g' : Game) : Prop :=
  player_name (state g') = player_name (state g)
  /\ profession (state g') = profession (state g)
  /\ difficulty (state g') = difficulty (state g)
  /\ game_difficulty g' = game_difficulty g
  /\ settings g' = settings g
  /\ event_chance g' = event_chance g
  /\ max_days g' = max_days g.

(** The setup is as in [g], and so is the money unless the day is a day of
    trade. *)
Definition kept (trading : bool) (g g' : Game) : Prop :=
  same_setup g g' /\ (trading = false -> money (state g') = money (state g)).

Section MoreVocabulary.

Context {R : Type} {RS : RandomSource R}.

(** The game at the end of a day of hunting without random event. *)
Definition hunted_game (g : Game) (r : R) (cost : Z) : Game :=
  _end_of_day
    (_consume_food BASE_FOOD_PER_DAY
       (set_state (fun st =>
                     set_food (food st + (fst (randint 25 55 (snd (land r))) + cost * 2)) st)
          (set_state (fun st => set_ammo (ammo st - cost) st) (fst (new_day g r))))).

(** A computation that asks nothing leaves the source as it is. *)
Definition silent {A : Type} (m : M (Recorded R) A) : Prop :=
  forall g s, wp m (fun _ w' => snd w' = s) (fun _ w' => snd w' = s) (g, s).

(** A handler that raises has changed nothing. *)
Definition atomic {A : Type} (m : M R A) : Prop :=
  forall g r, wp m (fun _ _ => True) (fun _ w' => w' = (g, r)) (g, r).

End MoreVocabulary.

(** The banker after a day of grueling travel, with the trading post that
    came up for the second day: a trader who buys 10 ammo for $18 and one
    who sells 40 food for $20. *)
Definition later_script : Script :=
  [Choice "Warm"; Choice "Plains"; Float 0.9;
   Float 0.2; Int 2; Float 0.7; Int 10; Float 1.8; Float 0.1; Float 0.3; Int 40; Float 0.5;
   Float 0.9;
   Choice "Cold"; Choice "Hills"; Float 0.9; Float 0.9].

Definition market_store : Store Script :=
  snd (perform_action "travel" (mkKwargs (Some "grueling") None None)
         (banker_game, later_script)).

(** The same game a day later, the ammo sold. *)
Definition later_store : Store Script :=
  snd (perform_action "trade" (mkKwargs None None (Some 0)) market_store).

(* ================================================================== *)
(** * Reasoning about computations *)

Section Wp.

Context {R : Type} {RS : RandomSource R}.

Lemma wp_ret {A} (a : A) Q E (w : Store R) : Q a w -> wp (ret a) Q E w.
Proof. exact (fun H => H). Qed.

Lemma wp_raise {A} (e : PyExc) (Q : A -> Store R -> Prop) E (w : Store R) :
  E e w -> wp (raise e) Q E w.
Proof. exact (fun H => H). Qed.

Lemma wp_bind {A B} (m : M R A) (k : A -> M R B) Q E w :
  wp m (fun a w' => wp (k a) Q E w') E w -> wp (bind m k) Q E w.
Proof.
  unfold wp, bind. destruct (fst (m w)); simpl; auto.
Qed.

Lemma wp_mono {A} (m : M R A) (Q Q' : A -> Store R -> Prop) (E E' : PyExc -> Store R -> Prop) w :
  wp m Q E w ->
  (forall a w', Q a w' -> Q' a w') ->
  (forall e w', E e w' -> E' e w') ->
  wp m Q' E' w.
Proof.
  unfold wp. destruct (fst (m w)); auto.
Qed.

Lemma wp_get Q E (w : Store R) : Q (fst w) w -> wp get Q E w.
Proof. exact (fun H => H). Qed.

Lemma wp_gets {A} (f : Game -> A) Q E (w : Store R) : Q (f (fst w)) w -> wp (gets f) Q E w.
Proof. exact (fun H => H). Qed.

Lemma wp_modify (f : Game -> Game) Q E (w : Store R) :
  Q tt (f (fst w), snd w) -> wp (modify f) Q E w.
Proof. exact (fun H => H). Qed.

Lemma wp_modify_state (f : GameState -> GameState) Q E (w : Store R) :
  Q tt (set_state f (fst w), snd w) -> wp (modify_state f) Q E w.
Proof. exact (fun H => H). Qed.

Lemma wp_call {A} (f : Game -> A * Game) Q E (w : Store R) :
  Q (fst (f (fst w))) (snd (f (fst w)), snd w) -> wp (call f) Q E w.
Proof. exact (fun H => H). Qed.

Lemma wp_lift {A} (x : PyExc + A) Q E (w : Store R) :
  (forall a, x = inr a -> Q a w) -> (forall e, x = inl e -> E e w) -> wp (lift x) Q E w.
Proof.
  intros Hq He. destruct x; unfold wp; simpl; auto.
Qed.

(** Whatever a draw returns. *)
Lemma wp_draw {A} (f : R -> A * R) Q E w :
  (forall a r', Q a (fst w, r')) -> wp (draw f) Q E w.
Proof. intros H. apply H. Qed.

(** A [randint] draw lies in its range. *)
Lemma wp_randint (a b : Z) Q E w :
  a <= b -> (forall n r', a <= n <= b -> Q n (fst w, r')) -> wp (draw (randint a b)) Q E w.
Proof.
  intros Hab H. unfold wp, draw; simpl. apply H. apply randint_range; assumption.
Qed.

Lemma keeps_bind {A B} I (m : M R A) (k : A -> M R B) :
  keeps I m -> (forall a, keeps I (k a)) -> keeps I (bind m k).
Proof.
  intros Hm Hk g r HI. apply wp_bind.
  eapply wp_mono; [apply Hm; exact HI | | auto].
  intros a [g' r'] HI'. apply Hk. exact HI'.
Qed.

Lemma keeps_ret {A} I (a : A) : keeps I (@ret R A a).
Proof. intros g r HI. exact HI. Qed.

Lemma keeps_raise {A} I (e : PyExc) : keeps I (@raise R A e).
Proof. intros g r HI. exact HI. Qed.

Lemma keeps_gets {A} I (f : Game -> A) : keeps I (@gets R A f).
Proof. intros g r HI. exact HI. Qed.

Lemma keeps_get I : keeps I (@get R).
Proof. intros g r HI. exact HI. Qed.

Lemma keeps_draw {A} I (f : R -> A * R) : keeps I (draw f).
Proof. intros g r HI. exact HI. Qed.

Lemma keeps_lift {A} I (x : PyExc + A) : keeps I (@lift R A x).
Proof. intros g r HI. destruct x; exact HI. Qed.

Lemma keeps_modify I (f : Game -> Game) :
  (forall g, I g -> I (f g)) -> keeps I (@modify R f).
Proof. intros H g r HI. apply H. exact HI. Qed.

Lemma keeps_call {A} I (f : Game -> A * Game) :
  (forall g, I g -> I (snd (f g))) -> keeps I (@call R A f).
Proof. intros H g r HI. apply H. exact HI. Qed.

End Wp.

(** One step of a [wp] goal along the structure of the computation. *)
Ltac wp_step :=
  lazymatch goal with
  | |- wp (bind _ _) _ _ _ => apply wp_bind
  | |- wp (ret _) _ _ _ => apply wp_ret
  | |- wp (raise _) _ _ _ => apply wp_raise
  | |- wp get _ _ _ => apply wp_get
  | |- wp (gets _) _ _ _ => apply wp_gets
  | |- wp (modify_state _) _ _ _ => apply wp_modify_state
  | |- wp (modify _) _ _ _ => apply wp_modify
  | |- wp (call _) _ _ _ => apply wp_call
  | |- wp (draw (randint _ _)) _ _ _ => apply wp_randint; [lia | intros ? ? ?]
  | |- wp (draw _) _ _ _ => apply wp_draw; intros ? ?
  | |- wp (lift _) _ _ _ => apply wp_lift; [intros ? ? | intros ? ?]
  | |- wp (if ?c then _ else _) _ _ _ => destruct c eqn:?
  | |- wp (match ?x with _ => _ end) _ _ _ => destruct x eqn:?
  end; cbn [fst snd].

(** One step of a [keeps] goal. *)
Ltac keeps_step :=
  lazymatch goal with
  | |- keeps _ (bind _ _) => apply keeps_bind; [ | intros ? ]
  | |- keeps _ (ret _) => apply keeps_ret
  | |- keeps _ (raise _) => apply keeps_raise
  | |- keeps _ get => apply keeps_get
  | |- keeps _ (gets _) => apply keeps_gets
  | |- keeps _ (draw _) => apply keeps_draw
  | |- keeps _ (lift _) => apply keeps_lift
  | |- keeps _ (if ?c then _ else _) => destruct c
  | |- keeps _ (match ?x with _ => _ end) => destruct x
  end.

(** Projections of updated records. *)
Ltac fields :=
  cbn [fst snd
       game_difficulty settings state event_chance max_days is_over current_trade_offers
       set_state set_event_chance set_is_over set_current_trade_offers
       player_name profession difficulty day distance food ammo money health pace
       weather terrain alive won status event_log trade_available
       set_day set_distance set_food set_ammo set_money set_health set_pace set_weather
       set_terrain set_alive set_won set_status set_event_log set_trade_available] in *.

(* ================================================================== *)
(** * Reachable stores and the invariant of the engine *)

Lemma health_bonus_range (p : string) : 0 <= health_bonus p <= 10.
Proof.
  unfold health_bonus, Py.get_default, PROFESSION_BONUSES. cbn [Py.get].
  repeat match goal with
         | |- context [if String.eqb ?a p then _ else _] => destruct (String.eqb a p)
         end; cbn; lia.
Qed.

Ltac inv_solve :=
  unfold Inv in *; fields; intuition (try lia; try congruence).

Lemma inv_consume_food (amount : Z) (g : Game) : Inv g -> Inv (_consume_food amount g).
Proof. unfold _consume_food. intros H. inv_solve. Qed.

Lemma inv_rest (g : Game) : Inv g -> Inv (snd (_rest g)).
Proof.
  intros H. unfold _rest.
  match goal with |- context [if ?c then _ else _] => destruct c end; cbn [snd];
    pose proof (health_bonus_range (profession (state g))); inv_solve.
Qed.

Lemma inv_end_of_day (g : Game) : Inv g -> Inv (_end_of_day g).
Proof.
  intros H. unfold _end_of_day.
  repeat match goal with
         | |- context [if ?c then _ else _] => destruct c; fields
         end; inv_solve.
Qed.

Section Invariant.

Context {R : Type} {RS : RandomSource R}.

Lemma keeps_update_weather_and_terrain : keeps Inv (@_update_weather_and_terrain R RS).
Proof.
  unfold _update_weather_and_terrain.
  repeat (keeps_step || (apply keeps_modify; intros g H; inv_solve)).
Qed.

Lemma keeps_travel (p : string) : keeps Inv (@_travel R p).
Proof.
  unfold _travel. intros g r H.
  repeat wp_step; try exact H; inv_solve.
Qed.

Lemma keeps_hunt (o : option Z) : keeps Inv (@_hunt R RS o).
Proof.
  unfold _hunt. intros g r H.
  repeat wp_step; try exact H; inv_solve.
Qed.

Lemma keeps_add_resource (i : string) (n : Z) : keeps Inv (@_add_resource R i n).
Proof.
  unfold _add_resource. intros g r H.
  repeat wp_step; try exact H; inv_solve.
Qed.

Lemma keeps_trade (o : option Z) : keeps Inv (@_trade R o).
Proof.
  unfold _trade, _add_resource, _get_resource. intros g r H.
  repeat wp_step; try exact H; inv_solve.
Qed.

Lemma keeps_apply_random_event : keeps Inv (@_apply_random_event R RS).
Proof.
  unfold _apply_random_event. intros g r H.
  repeat wp_step; try exact H; inv_solve.
Qed.

Lemma keeps_make_offer (I : Game -> Prop) : keeps I (@make_offer R RS).
Proof.
  unfold make_offer. intros g r H.
  repeat wp_step; exact H.
Qed.

Lemma keeps_make_offers (I : Game -> Prop) (n : nat) :
  forall l, keeps I (@make_offers R RS n l).
Proof.
  induction n as [|n IH]; intros l; cbn [make_offers].
  - apply keeps_ret.
  - apply keeps_bind; [apply keeps_make_offer | intros o; apply IH].
Qed.

Lemma keeps_maybe_prepare_trade_post (b : bool) :
  keeps Inv (@_maybe_prepare_trade_post R RS b).
Proof.
  unfold _maybe_prepare_trade_post.
  repeat (keeps_step || apply keeps_make_offers
          || (apply keeps_modify; intros g H; inv_solve)).
Qed.

Lemma keeps_perform_action (action : string) (kwargs : Kwargs) :
  keeps Inv (@perform_action R RS action kwargs).
Proof.
  unfold perform_action.
  repeat (keeps_step
          || apply keeps_update_weather_and_terrain
          || apply keeps_travel || apply keeps_hunt || apply keeps_trade
          || apply keeps_apply_random_event || apply keeps_maybe_prepare_trade_post
          || (apply keeps_call; apply inv_rest)
          || (apply keeps_modify; first [ apply inv_consume_food | apply inv_end_of_day ])
          || (apply keeps_modify; intros g H; inv_solve)).
Qed.

Lemma init_inv (name prof : string) (d : Difficulty) (rng : R) (w : Store R) :
  Game_init name prof d rng = inr w -> Inv (fst w).
Proof.
  unfold Game_init. intros H.
  destruct (Py.get PROFESSION_BONUSES (Py.strip (Py.lower prof))) as [bonuses|] eqn:Hb;
    [ | discriminate ].
  match type of H with
  | match ?m ?w0 with _ => _ end = _ =>
      assert (K : wp m (fun _ w' => Inv (fst w')) (fun _ w' => Inv (fst w')) w0);
      [ | unfold wp in K; destruct (m w0) as [[e|u] w1]; [discriminate |];
          cbn [fst snd] in K; inversion H; subst; exact K ]
  end.
  apply keeps_bind;
    [ apply keeps_update_weather_and_terrain
    | intros _; apply keeps_maybe_prepare_trade_post | ].
  unfold Inv; fields.
  assert (Hh : Py.get_default bonuses "health" 0
               = health_bonus (Py.strip (Py.lower prof))).
  { unfold health_bonus, Py.get_default. rewrite Hb. reflexivity. }
  pose proof (health_bonus_range (Py.strip (Py.lower prof))).
  assert (0 <= Py.get_default bonuses "food" 0
          /\ 0 <= Py.get_default bonuses "ammo" 0
          /\ 0 <= Py.get_default bonuses "money" 0).
  { revert Hb. unfold PROFESSION_BONUSES. cbn [Py.get].
    repeat match goal with
           | |- context [if String.eqb ?a ?b then _ else _] => destruct (String.eqb a b)
           end; intros E; inversion E; subst; cbn; lia. }
  destruct d; cbn [DIFFICULTY_SETTINGS cfg_food cfg_ammo cfg_money cfg_rest_health
                     cfg_starvation_penalty cfg_max_days];
    intuition (try lia; try congruence).
Qed.

(** Every reachable store satisfies the invariant. *)
Lemma reachable_inv (w : Store R) : reachable w -> Inv (fst w).
Proof.
  induction 1 as [name prof d rng w H | w action kwargs Hr IH].
  - eapply init_inv; exact H.
  - destruct w as [g r]. pose proof (keeps_perform_action action kwargs g r IH) as K.
    unfold wp in K. destruct (fst (perform_action action kwargs (g, r))); exact K.
Qed.

End Invariant.

(* ================================================================== *)
(** * The concrete games are games of the constructor *)

Lemma banker_game_init (rest : Script) :
  Game_init "Tester" "banker" NORMAL (quiet_start ++ rest)%list = inr (banker_game, rest).
Proof. reflexivity. Qed.

Lemma doctor_game_init (rest : Script) :
  Game_init "Ada" "doctor" NORMAL (quiet_start ++ rest)%list = inr (doctor_game, rest).
Proof. reflexivity. Qed.

(* ================================================================== *)
(** * C1: the range of health *)

(** C1, as stated, fails: a doctor starts with health 110, because
    [Game.__init__] adds the profession's health bonus to 100 without
    clamping. *)
Lemma C1_doctor_starts_at_110 :
  Game_init "Ada" "doctor" NORMAL quiet_start = inr (doctor_game, [])
  /\ reachable (doctor_game, @nil Draw)
  /\ health (state doctor_game) = 110
  /\ ~ (0 <= health (state doctor_game) <= 100).
Proof.
  split; [reflexivity | split; [ | split ]].
  - apply (reach_init "Ada" "doctor" NORMAL quiet_start). reflexivity.
  - reflexivity.
  - cbn. lia.
Qed.

(** C1 (amended): in every reachable store, that is after construction with
    any valid profession and difficulty and after any sequence of
    [perform_action] calls, health is an integer between 0 and 100 plus the
    health bonus of the profession, hence between 0 and 110. *)
Theorem C1_health_range {R : Type} {RS : RandomSource R} (w : Store R) :
  reachable w ->
  0 <= health (state (fst w)) <= 100 + health_bonus (profession (state (fst w)))
  /\ health (state (fst w)) <= 110.
Proof.
  intros Hr. apply reachable_inv in Hr.
  pose proof (health_bonus_range (profession (state (fst w)))).
  unfold Inv in Hr. intuition lia.
Qed.

Lemma C1_health_range_witness :
  0 <= health (state doctor_game) <= 100 + health_bonus (profession (state doctor_game))
  /\ health (state doctor_game) <= 110.
Proof.
  apply (C1_health_range (doctor_game, @nil Draw)).
  apply (reach_init "Ada" "doctor" NORMAL quiet_start). reflexivity.
Defined.

(* ================================================================== *)
(** * C4: resources never go negative *)

(** C4: after construction and after every sequence of [perform_action]
    calls, returning or raising, food, ammo, money and distance are at
    least zero. *)
Theorem C4_resources_nonnegative {R : Type} {RS : RandomSource R} (w : Store R) :
  reachable w ->
  0 <= food (state (fst w)) /\ 0 <= ammo (state (fst w))
  /\ 0 <= money (state (fst w)) /\ 0 <= distance (state (fst w)).
Proof.
  intros Hr. apply reachable_inv in Hr. unfold Inv in Hr. intuition lia.
Qed.

Lemma C4_resources_nonnegative_witness :
  0 <= food (state (fst C4_store)) /\ 0 <= ammo (state (fst C4_store))
  /\ 0 <= money (state (fst C4_store)) /\ 0 <= distance (state (fst C4_store)).
Proof.
  apply (C4_resources_nonnegative C4_store).
  unfold C4_store. do 2 apply reach_step.
  apply (reach_init "Tester" "banker" NORMAL
           (quiet_start ++ [Choice "Hot"; Choice "Hills"; Float 0.1; Float 0.7; Int 9;
                            Float 0.9; Choice "Cold"; Choice "Forest"])%list).
  reflexivity.
Defined.

(* ================================================================== *)
(** * C3: a finished game accepts no action *)

(** C3: on a terminal game, [perform_action] raises the invalid-state error
    ([RuntimeError]) for every action name, known or not, and leaves the
    game and the random source as they were. *)
Theorem C3_terminal_rejects_every_action {R : Type} {RS : RandomSource R}
        (g : Game) (r : R) (action : string) (kwargs : Kwargs) :
  is_over g = true ->
  perform_action action kwargs (g, r)
  = (inl (RuntimeError "The game has ended. Start a new game to continue playing."), (g, r)).
Proof.
  intros Hover. unfold perform_action, bind, gets; cbn [fst snd].
  rewrite Hover. reflexivity.
Qed.

Lemma C3_terminal_rejects_every_action_witness :
  perform_action "fly" no_kwargs (arrived_game, [Float 0.1])
  = (inl (RuntimeError "The game has ended. Start a new game to continue playing."),
     (arrived_game, [Float 0.1])).
Proof.
  apply (C3_terminal_rejects_every_action arrived_game [Float 0.1] "fly" no_kwargs).
  reflexivity.
Defined.

(* ================================================================== *)
(** * Running a computation step by step *)

Section Run.

Context {R : Type} {RS : RandomSource R}.

Lemma bind_ok {A B} (m : M R A) (k : A -> M R B) (w w' : Store R) (a : A) :
  m w = (inr a, w') -> bind m k w = k a w'.
Proof. intros H. unfold bind. rewrite H. reflexivity. Qed.

Lemma bind_err {A B} (m : M R A) (k : A -> M R B) (w w' : Store R) (e : PyExc) :
  m w = (inl e, w') -> bind m k w = (inl e, w').
Proof. intros H. unfold bind. rewrite H. reflexivity. Qed.

Lemma update_weather_and_terrain_eq (g : Game) (r : R) :
  _update_weather_and_terrain (g, r)
  = (inr tt, (set_state (fun st => set_terrain (fst (land r))
                                     (set_weather (fst (sky r)) st)) g,
              snd (land r))).
Proof. reflexivity. Qed.


End Run.

(** Enter [perform_action] on a game that is not over, with a literal
    action name. *)
Ltac enter_day Hover :=
  lazymatch goal with
  | |- context [perform_action ?a _ _] =>
      let k := eval vm_compute in (Py.strip (Py.lower a)) in
      let known := eval vm_compute in (in_list k ["travel"; "hunt"; "rest"; "trade"]) in
      let b1 := eval vm_compute in (String.eqb k "travel") in
      let b2 := eval vm_compute in (String.eqb k "hunt") in
      let b3 := eval vm_compute in (String.eqb k "rest") in
      let b4 := eval vm_compute in (String.eqb k "trade") in
      unfold perform_action;
      unfold bind at 1; unfold gets at 1; cbn [fst snd]; rewrite Hover;
      change (Py.strip (Py.lower a)) with k;
      change (in_list k ["travel"; "hunt"; "rest"; "trade"]) with known;
      change (String.eqb k "travel") with b1;
      change (String.eqb k "hunt") with b2;
      change (String.eqb k "rest") with b3;
      change (String.eqb k "trade") with b4
  end;
  cbn [negb];
  erewrite bind_ok by reflexivity;
  erewrite bind_ok by apply update_weather_and_terrain_eq.


Section Handlers.

Context {R : Type} {RS : RandomSource R}.

Lemma trade_without_post (g : Game) (r : R) (o : option Z) :
  trade_available (state g) = false \/ current_trade_offers g = [] ->
  _trade o (g, r) = (inr "There is no trading post available today.", (g, r)).
Proof.
  intros H. unfold _trade, bind, get; cbn [fst snd].
  destruct H as [H|H]; rewrite H; cbn [negb orb is_empty]; [reflexivity | ].
  destruct (negb (trade_available (state g))); reflexivity.
Qed.

Lemma trade_out_of_range (g : Game) (r : R) (i : Z) :
  trade_available (state g) = true ->
  current_trade_offers g <> [] ->
  i < 0 \/ Z.of_nat (List.length (current_trade_offers g)) <= i ->
  _trade (Some i) (g, r) = (inl (ValueError "Invalid trade offer selection."), (g, r)).
Proof.
  intros Ha Ho Hi. unfold _trade, bind, get; cbn [fst snd].
  rewrite Ha. destruct (current_trade_offers g) as [|o l] eqn:El; [congruence | ].
  cbn [negb orb is_empty].
  destruct ((i <? 0) || (Z.of_nat (List.length (o :: l)) <=? i)) eqn:E; [reflexivity | ].
  apply orb_false_iff in E. destruct E as [E1 E2]. lia.
Qed.

End Handlers.

(* ================================================================== *)
(** * C2: hunting with more ammunition than is in stock *)




(* ================================================================== *)
(** * C5: the end of the day *)

(** C5: on a game in play, [_end_of_day] first applies the starvation
    penalty of the difficulty when food is zero (health is lowered by the
    penalty and, like every loss of health, stops at 0); then, on the
    resulting health [h]: if [h <= 0] the game is over, not alive and not
    won; else if the distance is at least 2000 the game is over and won,
    [alive] untouched; else if the day has reached the difficulty's
    [max_days] the game is over, not alive and not won; otherwise the game
    goes on with status "On the trail".  The hypotheses are the invariant of
    the engine and [is_over = false], under which [perform_action] runs
    [_end_of_day]. *)
Theorem C5_end_of_day_priority (g : Game) :
  Inv g ->
  is_over g = false ->
  let cfg := DIFFICULTY_SETTINGS (difficulty (state g)) in
  let h := if food (state g) =? 0
           then Z.max 0 (health (state g) - cfg_starvation_penalty cfg)
           else health (state g) in
  let g' := _end_of_day g in
  health (state g') = h
  /\ (h <= 0 ->
      is_over g' = true /\ alive (state g') = false /\ won (state g') = false)
  /\ (0 < h -> TARGET_MILES <= distance (state g) ->
      is_over g' = true /\ won (state g') = true /\ alive (state g') = alive (state g))
  /\ (0 < h -> distance (state g) < TARGET_MILES -> cfg_max_days cfg <= day (state g) ->
      is_over g' = true /\ alive (state g') = false /\ won (state g') = false)
  /\ (0 < h -> distance (state g) < TARGET_MILES -> day (state g) < cfg_max_days cfg ->
      is_over g' = false /\ status (state g') = "On the trail"
      /\ alive (state g') = true /\ won (state g') = false).
Proof.
  intros HI Hover cfg h g'. subst cfg h g'.
  destruct HI as (Hf & _ & _ & _ & _ & _ & _ & Hs & Hm & Hw).
  destruct (Hw Hover) as [Hwon Halive]. rewrite <- Hs, <- Hm.
  unfold _end_of_day.
  replace (food (state g) =? 0) with (food (state g) <=? 0)
    by (destruct (food (state g) <=? 0) eqn:E1; destruct (food (state g) =? 0) eqn:E2; lia).
  destruct (food (state g) <=? 0); fields;
    repeat match goal with
           | |- context [if ?c then _ else _] => destruct c eqn:?; fields
           end;
    repeat split; intros; try assumption; try reflexivity; try lia.
Qed.

Lemma C5_end_of_day_priority_witness :
  health (state (_end_of_day starving_game)) = 0
  /\ is_over (_end_of_day starving_game) = true
  /\ alive (state (_end_of_day starving_game)) = false
  /\ won (state (_end_of_day starving_game)) = false.
Proof.
  assert (HI : Inv starving_game).
  { unfold Inv. cbn. repeat split; try lia; reflexivity. }
  destruct (C5_end_of_day_priority starving_game HI eq_refl) as (Hh & Hdead & _).
  split; [exact Hh | apply Hdead; cbn; lia].
Defined.

(* ================================================================== *)
(** * C8: trade offers out of range *)

(** C8, as stated, fails: when there is no offer, [_trade] returns before it
    looks at the index, and the call completes.  The banker's game has no
    trading post; index 0 is out of range of its empty offer list. *)
Lemma C8_no_offers_no_error :
  current_trade_offers banker_game = []
  /\ exists snap w',
       perform_action "trade" (mkKwargs None None (Some 0))
         (banker_game, [Choice "Mild"; Choice "Plains"; Float 0.9; Float 0.9])
       = (inr snap, w')
       /\ snap_messages snap = ["There is no trading post available today."].
Proof.
  split; [reflexivity | ]. vm_compute. eexists. eexists. split; reflexivity.
Qed.

(** C8 (amended): on a game that is not over and has a trading post with at
    least one offer, [perform_action("trade", offer_index)] raises the
    invalid-argument error for every integer index that is negative or not
    below the number of offers.  When there is no trading post or no offer,
    the trade handler raises for no index: it reports that there is no
    trading post and leaves the store as it is. *)
Theorem C8_trade_index_out_of_range {R : Type} {RS : RandomSource R}
        (g : Game) (r : R) (kwargs : Kwargs) (i : Z) :
  is_over g = false ->
  kw_offer_index kwargs = Some i ->
  i < 0 \/ Z.of_nat (List.length (current_trade_offers g)) <= i ->
  (trade_available (state g) = true -> current_trade_offers g <> [] ->
   perform_action "trade" kwargs (g, r)
   = (inl (ValueError "Invalid trade offer selection."), new_day g r))
  /\ (trade_available (state g) = false \/ current_trade_offers g = [] ->
      _trade (Some i) (new_day g r)
      = (inr "There is no trading post available today.", new_day g r)).
Proof.
  intros Hover Hkw Hi. split.
  - intros Ha Ho. enter_day Hover. rewrite Hkw.
    erewrite bind_err; [reflexivity | ].
    erewrite bind_err; [reflexivity | ].
    apply trade_out_of_range; assumption.
  - intros H. apply trade_without_post. exact H.
Qed.

Lemma C8_trade_index_out_of_range_witness :
  perform_action "trade" (mkKwargs None None (Some 2))
    (trading_game, [Choice "Warm"; Choice "Forest"])
  = (inl (ValueError "Invalid trade offer selection."),
     new_day trading_game [Choice "Warm"; Choice "Forest"]).
Proof.
  refine (proj1 (C8_trade_index_out_of_range trading_game _
                   (mkKwargs None None (Some 2)) 2 eq_refl eq_refl _) eq_refl _).
  - right. cbn. lia.
  - discriminate.
Defined.

(* ================================================================== *)
(** * The rest of the day *)

Section DayTail.

Context {R : Type} {RS : RandomSource R}.

Lemma post_only_refl (g : Game) : post_only g g.
Proof.
  exists (trade_available (state g)), (current_trade_offers g).
  destruct g as [d s st c m o l]; destruct st; reflexivity.
Qed.

Lemma maybe_prepare_trade_post_only (b : bool) (g : Game) (r : R) :
  post_only g (fst (snd (_maybe_prepare_trade_post b (g, r)))).
Proof.
  assert (K : wp (_maybe_prepare_trade_post b)
                 (fun _ w' => post_only g (fst w')) (fun _ w' => post_only g (fst w'))
                 (g, r)).
  { unfold _maybe_prepare_trade_post.
    wp_step. wp_step. wp_step.
    - wp_step. wp_step. wp_step. eexists; eexists; reflexivity.
    - wp_step. wp_step. wp_step.
      eapply wp_mono;
        [ apply (keeps_make_offers (fun g' => g' = g)); reflexivity | | ].
      + intros offers [g1 r1]; cbn [fst]; intros ->.
        repeat wp_step. eexists; eexists; reflexivity.
      + intros e [g1 r1]; cbn [fst]; intros ->. apply post_only_refl. }
  unfold wp in K. destruct (fst (_maybe_prepare_trade_post b (g, r))); exact K.
Qed.

Lemma snd_bind_ret {A B} (m : M R A) (b : B) (w : Store R) :
  snd (bind m (fun _ => ret b) w) = snd (m w).
Proof. unfold bind. destruct (fst (m w)); reflexivity. Qed.

Lemma no_event (g : Game) (r : R) :
  (event_chance g <? fst (random r))%float = true ->
  _apply_random_event (g, r) = (inr [], (g, snd (random r))).
Proof.
  intros H. unfold _apply_random_event, bind, draw, gets; cbn [fst snd].
  rewrite H. reflexivity.
Qed.

Lemma rest_game (g : Game) :
  snd (_rest g)
  = set_state (fun st => set_health (Z.min 100 (health st + cfg_rest_health (settings g))) st) g.
Proof. unfold _rest. fields. destruct (_ <=? 0); reflexivity. Qed.

(** What [_end_of_day] leaves alone, and what it does to health. *)
Lemma end_of_day_frame (g : Game) :
  let g' := _end_of_day g in
  food (state g') = food (state g) /\ ammo (state g') = ammo (state g)
  /\ money (state g') = money (state g) /\ distance (state g') = distance (state g)
  /\ pace (state g') = pace (state g) /\ day (state g') = day (state g)
  /\ current_trade_offers g' = current_trade_offers g
  /\ health (state g')
     = (if food (state g) <=? 0
        then Z.max 0 (health (state g) - cfg_starvation_penalty (settings g))
        else health (state g)).
Proof.
  unfold _end_of_day.
  destruct (food (state g) <=? 0); fields;
    repeat match goal with
           | |- context [if ?c then _ else _] => destruct c; fields
           end; repeat split; reflexivity.
Qed.

(** After the snapshot is taken: the day advances and the next trading
    post is prepared, unless the game is over. *)
Lemma day_tail_post_only (g : Game) (r : R) :
  post_only (if is_over g then g else set_state (fun st => set_day (day st + 1) st) g)
    (fst (snd ((if negb (is_over g)
                then modify_state (fun st => set_day (day st + 1) st) ;;
                     _maybe_prepare_trade_post false
                else ret tt) (g, r)))).
Proof.
  destruct (is_over g); cbn [negb].
  - apply post_only_refl.
  - erewrite bind_ok by reflexivity. apply maybe_prepare_trade_post_only.
Qed.

Lemma rest_day (g : Game) (r : R) (kwargs : Kwargs) :
  is_over g = false ->
  (event_chance g <? fst (random (snd (land r))))%float = true ->
  post_only (if is_over (rested_game g r) then rested_game g r
             else set_state (fun st => set_day (day st + 1) st) (rested_game g r))
    (fst (snd (perform_action "rest" kwargs (g, r)))).
Proof.
  intros Hover Hquiet.
  enter_day Hover. cbn [gets fst snd].
  erewrite bind_ok by reflexivity. cbv iota.
  unfold call; cbn [fst snd]. rewrite rest_game.
  erewrite bind_ok by reflexivity. cbn [fst snd].
  erewrite bind_ok by (apply no_event; fields; exact Hquiet).
  erewrite bind_ok by reflexivity. cbn [fst snd].
  erewrite bind_ok by reflexivity. cbn [fst snd].
  rewrite snd_bind_ret.
  apply day_tail_post_only.
Qed.

End DayTail.

(* ================================================================== *)
(** * C10: what a day of rest changes *)

(** C10, as stated, fails.  The banker rests on the last day with 3 lbs of
    food and health 50, and no random event fires: food runs out, so that
    the starvation penalty of the end of the day takes health from the
    rested 62 to 52, and time runs out, so that [alive] becomes false and
    the game is over. *)
Lemma C10_rest_changes_more :
  let w := (last_day_game, [Choice "Mild"; Choice "Plains"; Float 0.9]) in
  let g' := fst (snd (perform_action "rest" no_kwargs w)) in
  (event_chance last_day_game <? 0.9)%float = true
  /\ health (state g') = 52
  /\ health (state g') <> Z.min 100 (health (state last_day_game) + 12)
  /\ alive (state last_day_game) = true /\ alive (state g') = false
  /\ is_over last_day_game = false /\ is_over g' = true.
Proof.
  vm_compute. repeat split; try reflexivity; discriminate.
Qed.

(** C10 (amended): on a game that is not over, a day of rest whose event
    trigger roll exceeds the event chance leaves ammo, money, distance and
    pace unchanged; food becomes [max(0, food - 5)]; health becomes
    [min(100, health + rest_health)] and, when that leaves no food, is then
    lowered by the starvation penalty, stopping at 0. *)
Theorem C10_rest_frame {R : Type} {RS : RandomSource R}
        (g : Game) (r : R) (kwargs : Kwargs) :
  is_over g = false ->
  (event_chance g <? fst (random (snd (land r))))%float = true ->
  let g' := fst (snd (perform_action "rest" kwargs (g, r))) in
  let rested := Z.min 100 (health (state g) + cfg_rest_health (settings g)) in
  let left := Z.max 0 (food (state g) - BASE_FOOD_PER_DAY) in
  food (state g') = left
  /\ health (state g')
     = (if left =? 0 then Z.max 0 (rested - cfg_starvation_penalty (settings g)) else rested)
  /\ ammo (state g') = ammo (state g)
  /\ money (state g') = money (state g)
  /\ distance (state g') = distance (state g)
  /\ pace (state g') = pace (state g).
Proof.
  intros Hover Hquiet. cbv zeta.
  destruct (rest_day g r kwargs Hover Hquiet) as (open & offers & E).
  rewrite E; clear E. unfold rested_game.
  set (g2 := _consume_food _ _).
  destruct (end_of_day_frame g2) as (Ff & Fa & Fm & Fd & Fp & _ & _ & Fh).
  assert (Hfood : food (state g2) = Z.max 0 (food (state g) - BASE_FOOD_PER_DAY))
    by (subst g2; unfold _consume_food, new_day, BASE_FOOD_PER_DAY; cbn; f_equal).
  assert (Hhealth : health (state g2)
                    = Z.min 100 (health (state g) + cfg_rest_health (settings g)))
    by reflexivity.
  assert (Hpenalty : cfg_starvation_penalty (settings g2) = cfg_starvation_penalty (settings g))
    by reflexivity.
  assert (Hammo : ammo (state g2) = ammo (state g)) by reflexivity.
  assert (Hmoney : money (state g2) = money (state g)) by reflexivity.
  assert (Hdist : distance (state g2) = distance (state g)) by reflexivity.
  assert (Hpace : pace (state g2) = pace (state g)) by reflexivity.
  rewrite Hfood, Hhealth, Hpenalty in Fh.
  replace (Z.max 0 (food (state g) - BASE_FOOD_PER_DAY) <=? 0)
    with (Z.max 0 (food (state g) - BASE_FOOD_PER_DAY) =? 0) in Fh
    by (destruct (_ =? 0) eqn:E1; destruct (_ <=? 0) eqn:E2; lia).
  clearbody g2.
  destruct (is_over (_end_of_day g2));
    cbn [state set_state set_current_trade_offers set_trade_available set_day
         food health ammo money distance pace];
    repeat split; congruence.
Qed.

Lemma C10_rest_frame_witness :
  let g' := fst (snd (perform_action "rest" no_kwargs
                        (banker_game, [Choice "Cold"; Choice "Hills"; Float 0.9; Float 0.9]))) in
  food (state g') = 235 /\ health (state g') = 100 /\ ammo (state g') = 55
  /\ money (state g') = 1700 /\ distance (state g') = 0 /\ pace (state g') = "steady".
Proof.
  pose proof (C10_rest_frame banker_game
                [Choice "Cold"; Choice "Hills"; Float 0.9; Float 0.9]
                no_kwargs eq_refl eq_refl) as H.
  vm_compute in H. vm_compute. exact H.
Defined.

(* ================================================================== *)
(** * A day of travel *)

Lemma get_default_in_modifiers (table : list (string * float)) (key : string) :
  In (Py.get_default table key 1.0%float) (modifiers table).
Proof.
  unfold Py.get_default, modifiers.
  induction table as [|[k v] t IH]; cbn [Py.get map snd].
  - left. reflexivity.
  - destruct (String.eqb k key).
    + right. left. reflexivity.
    + destruct IH as [IH|IH]; [left; exact IH | right; right; exact IH].
Qed.

Lemma pace_speed_cases (key : string) (speed : Z) :
  Py.get PACE_SPEEDS key = Some speed ->
  In (key, speed) PACE_SPEEDS.
Proof.
  unfold PACE_SPEEDS. cbn [Py.get].
  repeat match goal with
         | |- context [String.eqb ?a key] =>
             let E := fresh "E" in
             destruct (String.eqb a key) eqn:E; [apply String.eqb_eq in E; subst key | ]
         end; intros H; inversion H; subst; cbn; auto.
Qed.

(** [round] never raises in [_travel]: every speed of the table times every
    pair of modifiers is a finite float. *)
Lemma miles_for_total (speed : Z) (wm tm : float) :
  In speed (map snd PACE_SPEEDS) ->
  In wm (modifiers WEATHER_OPTIONS) ->
  In tm (modifiers TERRAIN_OPTIONS) ->
  exists miles, miles_for speed wm tm = inr miles /\ 5 <= miles.
Proof.
  intros Hs Hw Ht.
  assert (K : forallb (fun s =>
                forallb (fun w =>
                  forallb (fun t =>
                    match miles_for s w t with inr m => 5 <=? m | inl _ => false end)
                    (modifiers TERRAIN_OPTIONS))
                  (modifiers WEATHER_OPTIONS))
                (map snd PACE_SPEEDS) = true) by (vm_compute; reflexivity).
  rewrite forallb_forall in K. specialize (K speed Hs).
  rewrite forallb_forall in K. specialize (K wm Hw).
  rewrite forallb_forall in K. specialize (K tm Ht).
  destruct (miles_for speed wm tm) as [e|m]; [discriminate | ].
  exists m. split; [reflexivity | lia].
Qed.

Lemma extra_food_for_total (key : string) (speed : Z) :
  In (key, speed) PACE_SPEEDS ->
  exists extra, extra_food_for key = inr extra /\ 0 <= extra <= 2.
Proof.
  intros H. cbn in H.
  destruct H as [H|[H|[H|[]]]]; inversion H; subst.
  - exists 0. split; [vm_compute; reflexivity | lia].
  - exists 0. split; [vm_compute; reflexivity | lia].
  - exists 2. split; [vm_compute; reflexivity | lia].
Qed.

Section Travel.

Context {R : Type} {RS : RandomSource R}.

(** With a pace of the table, [_travel] returns: it adds the miles to the
    distance, records the pace and asks for the extra food. *)
Lemma travel_runs (g : Game) (r : R) (p : string) (speed : Z) :
  Py.get PACE_SPEEDS (Py.strip (Py.lower p)) = Some speed ->
  exists miles extra message,
    miles_for speed (_weather_modifier g) (_terrain_modifier g) = inr miles
    /\ 5 <= miles
    /\ extra_food_for (Py.strip (Py.lower p)) = inr extra
    /\ 0 <= extra <= 2
    /\ _travel p (g, r)
       = (inr (message, extra),
          (set_state (set_pace (Py.strip (Py.lower p)))
             (set_state (fun st => set_distance (distance st + miles) st) g), r)).
Proof.
  intros Hpace.
  pose proof (pace_speed_cases _ _ Hpace) as Hin.
  destruct (miles_for_total speed (_weather_modifier g) (_terrain_modifier g))
    as (miles & Hmiles & Hfive).
  { change speed with (snd (Py.strip (Py.lower p), speed)). apply in_map. exact Hin. }
  { apply get_default_in_modifiers. }
  { apply get_default_in_modifiers. }
  destruct (extra_food_for_total _ _ Hin) as (extra & Hextra & Hrange).
  assert (Hround : exists rounded,
             Py.round (Py.float_of_int speed * _weather_modifier g * _terrain_modifier g)%float
             = inr rounded /\ miles = Z.max 5 rounded).
  { unfold miles_for in Hmiles. destruct (Py.round _) as [e|rounded]; [discriminate | ].
    exists rounded. split; [reflexivity | congruence]. }
  destruct Hround as (rounded & Hround & ->).
  exists (Z.max 5 rounded), extra. eexists.
  repeat split; try assumption; try lia.
  unfold _travel. rewrite Hpace.
  erewrite bind_ok by reflexivity.
  erewrite bind_ok by reflexivity. cbn [fst snd].
  erewrite bind_ok by (rewrite Hround; reflexivity).
  erewrite bind_ok by reflexivity.
  erewrite bind_ok by reflexivity.
  erewrite bind_ok by reflexivity. cbn [fst snd].
  erewrite bind_ok by (unfold extra_food_for in Hextra; rewrite Hextra; reflexivity).
  reflexivity.
Qed.

Lemma travel_day (g : Game) (r : R) (kwargs : Kwargs) (p : string) (speed : Z) :
  is_over g = false ->
  p = match kw_pace kwargs with Some q => q | None => pace (state g) end ->
  Py.get PACE_SPEEDS (Py.strip (Py.lower p)) = Some speed ->
  (event_chance g <? fst (random (snd (land r))))%float = true ->
  exists miles extra,
    miles_for speed (_weather_modifier (fst (new_day g r)))
      (_terrain_modifier (fst (new_day g r))) = inr miles
    /\ 5 <= miles
    /\ extra_food_for (Py.strip (Py.lower p)) = inr extra
    /\ 0 <= extra <= 2
    /\ let g3 := travelled_game g r (Py.strip (Py.lower p)) miles extra in
       post_only (if is_over g3 then g3
                  else set_state (fun st => set_day (day st + 1) st) g3)
         (fst (snd (perform_action "travel" kwargs (g, r)))).
Proof.
  intros Hover Hp Hpace Hquiet.
  destruct (travel_runs (fst (new_day g r)) (snd (new_day g r)) p speed Hpace)
    as (miles & extra & message & Hmiles & Hfive & Hextra & Hrange & Htravel).
  exists miles, extra. repeat split; try assumption; try lia.
  cbv zeta. enter_day Hover. cbn [gets fst snd].
  erewrite bind_ok;
    [ | erewrite bind_ok by reflexivity; cbn [fst snd state set_state pace set_terrain
                                               set_weather set_event_log];
        rewrite <- Hp;
        erewrite bind_ok by (exact Htravel); reflexivity ].
  cbv iota.
  erewrite bind_ok by reflexivity. cbn [fst snd].
  erewrite bind_ok by (apply no_event; cbn [event_chance _consume_food set_state]; exact Hquiet).
  erewrite bind_ok by reflexivity. cbn [fst snd].
  erewrite bind_ok by reflexivity. cbn [fst snd].
  rewrite snd_bind_ret.
  apply day_tail_post_only.
Qed.

End Travel.

(* ================================================================== *)
(** * C7: a day of travel *)

(** C7, as stated, fails, in two ways.  With no food left, a day of travel
    leaves food at 0: it does not decrease.  And an event chance of zero
    does not exclude a random event: [_apply_random_event] skips the event
    only when the trigger roll is strictly above the chance, so a roll of
    exactly 0.0 fires one; here the trail is lost and the 14 miles of the
    day become 4. *)
Lemma C7_travel_counterexamples :
  (let w := (hungry_game, [Choice "Mild"; Choice "Plains"; Float 0.5; Float 0.9]) in
   let g' := fst (snd (perform_action "travel" (mkKwargs (Some "steady") None None) w)) in
   event_chance hungry_game = 0%float
   /\ is_ok (fst (perform_action "travel" (mkKwargs (Some "steady") None None) w)) = true
   /\ food (state hungry_game) = 0 /\ food (state g') = 0)
  /\
  (let w := (calm_game, [Choice "Mild"; Choice "Desert"; Float 0.0; Float 0.95; Float 0.9]) in
   let g' := fst (snd (perform_action "travel" (mkKwargs (Some "steady") None None) w)) in
   event_chance calm_game = 0%float
   /\ is_ok (fst (perform_action "travel" (mkKwargs (Some "steady") None None) w)) = true
   /\ miles_for 18 1.0 0.75 = inr 14
   /\ distance (state calm_game) = 0 /\ distance (state g') = 4).
Proof.
  vm_compute. repeat split; reflexivity.
Qed.

(** C7 (amended): on a game that is not over, with a pace of the table, an
    event chance of zero and an event trigger roll above zero (so that no
    random event fires), the store a [perform_action("travel")] call leaves
    has the distance increased by exactly
    [max(5, round(speed * weather modifier * terrain modifier))] for the
    weather and terrain of the new day, which is at least 5, and food
    lowered to [max(0, food - (5 + extra))], where [extra] is the extra food
    of the pace: a decrease of at least the base ration 5 whenever at least
    5 lbs of food were in stock. *)
Theorem C7_travel_day {R : Type} {RS : RandomSource R}
        (g : Game) (r : R) (kwargs : Kwargs) (p : string) (speed : Z) :
  is_over g = false ->
  p = match kw_pace kwargs with Some q => q | None => pace (state g) end ->
  Py.get PACE_SPEEDS (Py.strip (Py.lower p)) = Some speed ->
  event_chance g = 0%float ->
  (0 <? fst (random (snd (land r))))%float = true ->
  let today := fst (new_day g r) in
  let g' := fst (snd (perform_action "travel" kwargs (g, r))) in
  exists miles extra,
    miles_for speed (_weather_modifier today) (_terrain_modifier today) = inr miles
    /\ extra_food_for (Py.strip (Py.lower p)) = inr extra
    /\ distance (state g') = distance (state g) + miles
    /\ 5 <= miles
    /\ 0 <= extra
    /\ food (state g') = Z.max 0 (food (state g) - (BASE_FOOD_PER_DAY + extra))
    /\ (BASE_FOOD_PER_DAY <= food (state g) ->
        food (state g') <= food (state g) - BASE_FOOD_PER_DAY).
Proof.
  intros Hover Hp Hpace Hzero Hroll. cbv zeta.
  assert (Hquiet : (event_chance g <? fst (random (snd (land r))))%float = true)
    by (rewrite Hzero; exact Hroll).
  destruct (travel_day g r kwargs p speed Hover Hp Hpace Hquiet)
    as (miles & extra & Hmiles & Hfive & Hextra & Hrange & open & offers & E).
  exists miles, extra.
  rewrite E; clear E. unfold travelled_game.
  set (g2 := _consume_food _ _).
  destruct (end_of_day_frame g2) as (Ff & _ & _ & Fd & _).
  assert (Hfood : food (state g2)
                  = Z.max 0 (food (state g) - Z.max 0 (BASE_FOOD_PER_DAY + extra)))
    by reflexivity.
  assert (Hdist : distance (state g2) = distance (state g) + miles) by reflexivity.
  clearbody g2.
  assert (Hgoal : distance (state (_end_of_day g2)) = distance (state g) + miles
                  /\ food (state (_end_of_day g2))
                     = Z.max 0 (food (state g) - (BASE_FOOD_PER_DAY + extra))).
  { rewrite Fd, Ff, Hdist, Hfood. unfold BASE_FOOD_PER_DAY. split; [reflexivity | lia]. }
  destruct Hgoal as [Hd Hf].
  repeat split; try assumption; try lia;
    destruct (is_over (_end_of_day g2));
    cbn [state set_state set_current_trade_offers set_trade_available set_day
         food distance];
    rewrite ?Hd, ?Hf; unfold BASE_FOOD_PER_DAY; lia.
Qed.

Lemma C7_travel_day_witness :
  let w := (calm_game, [Choice "Stormy"; Choice "Mountains"; Float 0.5; Float 0.9]) in
  let g' := fst (snd (perform_action "travel" (mkKwargs (Some " Grueling") None None) w)) in
  exists miles extra,
    miles_for 24 (_weather_modifier (fst (new_day (fst w) (snd w))))
      (_terrain_modifier (fst (new_day (fst w) (snd w)))) = inr miles
    /\ extra_food_for "grueling" = inr extra
    /\ distance (state g') = 0 + miles
    /\ 5 <= miles
    /\ 0 <= extra
    /\ food (state g') = Z.max 0 (240 - (BASE_FOOD_PER_DAY + extra))
    /\ (BASE_FOOD_PER_DAY <= 240 -> food (state g') <= 240 - BASE_FOOD_PER_DAY).
Proof.
  exact (C7_travel_day calm_game
           [Choice "Stormy"; Choice "Mountains"; Float 0.5; Float 0.9]
           (mkKwargs (Some " Grueling") None None) " Grueling" 24
           eq_refl eq_refl eq_refl eq_refl eq_refl).
Defined.

(* ================================================================== *)
(** * The snapshot and the next day *)

Section SnapshotOrder.

Context {R : Type} {RS : RandomSource R}.


Lemma wp_eq {A} (m : M R A) Q E (w w1 : Store R) (a : A) :
  m w = (inr a, w1) -> Q a w1 -> wp m Q E w.
Proof. intros H HQ. unfold wp. rewrite H. exact HQ. Qed.







End SnapshotOrder.

(* ================================================================== *)
(** * C6: the snapshot and the next day *)




(* ================================================================== *)
(** * Two runs side by side *)

Section SideBySide.

Context {R1 R2 : Type} {RS1 : RandomSource R1} {RS2 : RandomSource R2}.
Variable sim : R1 -> R2 -> Prop.
Hypothesis Hsim : answer_alike RS1 RS2 sim.

Lemma agree_ret {A} (a : A) : agree sim (ret a) (ret a).
Proof. intros w1 w2 H. split; [reflexivity | exact H]. Qed.

Lemma agree_raise {A} (e : PyExc) : agree sim (@raise R1 A e) (@raise R2 A e).
Proof. intros w1 w2 H. split; [reflexivity | exact H]. Qed.

Lemma agree_bind {A B} (m1 : M R1 A) (m2 : M R2 A) (k1 : A -> M R1 B) (k2 : A -> M R2 B) :
  agree sim m1 m2 -> (forall a, agree sim (k1 a) (k2 a)) -> agree sim (bind m1 k1) (bind m2 k2).
Proof.
  intros Hm Hk w1 w2 H. destruct (Hm w1 w2 H) as [Hout Hrel].
  unfold bind. rewrite <- Hout. destruct (fst (m1 w1)) as [e|a].
  - split; [reflexivity | exact Hrel].
  - apply Hk. exact Hrel.
Qed.

Lemma agree_get : agree sim (@get R1) (@get R2).
Proof. intros w1 w2 H. split; [cbn; f_equal; apply H | exact H]. Qed.

Lemma agree_gets {A} (f : Game -> A) : agree sim (@gets R1 A f) (@gets R2 A f).
Proof. intros w1 w2 [Hg Hr]. split; [cbn; rewrite Hg; reflexivity | split; assumption]. Qed.

Lemma agree_modify (f : Game -> Game) : agree sim (@modify R1 f) (@modify R2 f).
Proof.
  intros w1 w2 [Hg Hr]. split; [reflexivity | ].
  split; [cbn; rewrite Hg; reflexivity | exact Hr].
Qed.

Lemma agree_modify_state (f : GameState -> GameState) :
  agree sim (@modify_state R1 f) (@modify_state R2 f).
Proof. apply agree_modify. Qed.

Lemma agree_call {A} (f : Game -> A * Game) : agree sim (@call R1 A f) (@call R2 A f).
Proof.
  intros w1 w2 [Hg Hr]. unfold call; cbn [fst snd]. rewrite Hg.
  split; [reflexivity | split; [reflexivity | exact Hr]].
Qed.

Lemma agree_lift {A} (x : PyExc + A) : agree sim (@lift R1 A x) (@lift R2 A x).
Proof. destruct x; [apply agree_raise | apply agree_ret]. Qed.

Lemma agree_random : agree sim (draw (@random R1 RS1)) (draw (@random R2 RS2)).
Proof.
  intros w1 w2 [Hg Hr]. destruct (Hsim _ _ Hr) as ([Hv Hs] & _).
  unfold draw; cbn [fst snd]. rewrite Hv. repeat split; assumption.
Qed.

Lemma agree_randint (a b : Z) :
  agree sim (draw (@randint R1 RS1 a b)) (draw (@randint R2 RS2 a b)).
Proof.
  intros w1 w2 [Hg Hr]. destruct (Hsim _ _ Hr) as (_ & H & _). destruct (H a b) as [Hv Hs].
  unfold draw; cbn [fst snd]. rewrite Hv. repeat split; assumption.
Qed.

Lemma agree_uniform (a b : float) :
  agree sim (draw (@uniform R1 RS1 a b)) (draw (@uniform R2 RS2 a b)).
Proof.
  intros w1 w2 [Hg Hr]. destruct (Hsim _ _ Hr) as (_ & _ & H & _). destruct (H a b) as [Hv Hs].
  unfold draw; cbn [fst snd]. rewrite Hv. repeat split; assumption.
Qed.

Lemma agree_choices (p : list string) (ws : list Z) :
  agree sim (draw (@choices R1 RS1 p ws)) (draw (@choices R2 RS2 p ws)).
Proof.
  intros w1 w2 [Hg Hr]. destruct (Hsim _ _ Hr) as (_ & _ & _ & H). destruct (H p ws) as [Hv Hs].
  unfold draw; cbn [fst snd]. rewrite Hv. repeat split; assumption.
Qed.

Ltac agree_step :=
  lazymatch goal with
  | |- agree sim (bind _ _) (bind _ _) => apply agree_bind; [ | intros ? ]
  | |- agree sim (ret _) (ret _) => apply agree_ret
  | |- agree sim (raise _) (raise _) => apply agree_raise
  | |- agree sim get get => apply agree_get
  | |- agree sim (gets _) (gets _) => apply agree_gets
  | |- agree sim (modify_state _) (modify_state _) => apply agree_modify_state
  | |- agree sim (modify _) (modify _) => apply agree_modify
  | |- agree sim (call _) (call _) => apply agree_call
  | |- agree sim (lift _) (lift _) => apply agree_lift
  | |- agree sim (draw random) (draw random) => apply agree_random
  | |- agree sim (draw (randint _ _)) (draw (randint _ _)) => apply agree_randint
  | |- agree sim (draw (uniform _ _)) (draw (uniform _ _)) => apply agree_uniform
  | |- agree sim (draw (choices _ _)) (draw (choices _ _)) => apply agree_choices
  | |- agree sim (if ?c then _ else _) (if ?c then _ else _) => destruct c
  | |- agree sim (match ?x with _ => _ end) (match ?x with _ => _ end) => destruct x
  end.

Lemma agree_update_weather_and_terrain :
  agree sim (@_update_weather_and_terrain R1 RS1) (@_update_weather_and_terrain R2 RS2).
Proof. unfold _update_weather_and_terrain. repeat agree_step. Qed.

Lemma agree_travel (p : string) : agree sim (@_travel R1 p) (@_travel R2 p).
Proof. unfold _travel. repeat agree_step. Qed.

Lemma agree_hunt (o : option Z) : agree sim (@_hunt R1 RS1 o) (@_hunt R2 RS2 o).
Proof. unfold _hunt. repeat agree_step. Qed.

Lemma agree_trade (o : option Z) : agree sim (@_trade R1 o) (@_trade R2 o).
Proof. unfold _trade, _add_resource, _get_resource. repeat agree_step. Qed.

Lemma agree_apply_random_event :
  agree sim (@_apply_random_event R1 RS1) (@_apply_random_event R2 RS2).
Proof. unfold _apply_random_event. repeat agree_step. Qed.

Lemma agree_make_offer : agree sim (@make_offer R1 RS1) (@make_offer R2 RS2).
Proof. unfold make_offer. repeat agree_step. Qed.

Lemma agree_make_offers (n : nat) :
  forall l, agree sim (@make_offers R1 RS1 n l) (@make_offers R2 RS2 n l).
Proof.
  induction n as [|n IH]; intros l; cbn [make_offers].
  - apply agree_ret.
  - apply agree_bind; [apply agree_make_offer | intros o; apply IH].
Qed.

Lemma agree_maybe_prepare_trade_post (b : bool) :
  agree sim (@_maybe_prepare_trade_post R1 RS1 b) (@_maybe_prepare_trade_post R2 RS2 b).
Proof.
  unfold _maybe_prepare_trade_post. repeat (agree_step || apply agree_make_offers).
Qed.

Lemma agree_perform_action (action : string) (kwargs : Kwargs) :
  agree sim (@perform_action R1 RS1 action kwargs) (@perform_action R2 RS2 action kwargs).
Proof.
  unfold perform_action.
  repeat (agree_step
          || apply agree_update_weather_and_terrain
          || apply agree_travel || apply agree_hunt || apply agree_trade
          || apply agree_apply_random_event || apply agree_maybe_prepare_trade_post).
Qed.

Lemma play_alike (actions : list (string * Kwargs)) :
  forall w1 w2, related sim w1 w2 -> play actions w1 = play actions w2.
Proof.
  induction actions as [|[action kwargs] rest IH]; intros w1 w2 H; cbn [play].
  - reflexivity.
  - destruct (agree_perform_action action kwargs w1 w2 H) as [Hout Hrel].
    cbv zeta. rewrite Hout. destruct Hrel as [Hg Hr]. rewrite Hg. f_equal.
    apply IH. split; assumption.
Qed.

Lemma run_alike (name prof : string) (d : Difficulty) (actions : list (string * Kwargs))
      (r1 : R1) (r2 : R2) :
  sim r1 r2 -> run name prof d actions r1 = run name prof d actions r2.
Proof.
  intros Hr. unfold run, Game_init.
  destruct (Py.get PROFESSION_BONUSES (Py.strip (Py.lower prof))) as [bonuses|]; [ | reflexivity].
  cbv zeta.
  match goal with
  | |- context [(bind ?m1 ?k1) (?g, r1)] =>
      assert (K : related sim (snd (bind m1 k1 (g, r1)))
                          (snd ((@_update_weather_and_terrain R2 RS2 ;;
                                 @_maybe_prepare_trade_post R2 RS2 true) (g, r2)))
                  /\ fst (bind m1 k1 (g, r1))
                     = fst ((@_update_weather_and_terrain R2 RS2 ;;
                             @_maybe_prepare_trade_post R2 RS2 true) (g, r2)))
  end.
  { match goal with
    | |- related sim (snd (?m1 ?w1)) (snd (?m2 ?w2)) /\ _ =>
        assert (Ha : agree sim m1 m2)
          by (apply agree_bind;
              [apply agree_update_weather_and_terrain
              | intros _; apply agree_maybe_prepare_trade_post]);
        destruct (Ha w1 w2) as [Hout Hrel]; [split; [reflexivity | exact Hr] | ];
        split; assumption
    end. }
  destruct K as [Hrel Hout].
  destruct ((_update_weather_and_terrain;; _maybe_prepare_trade_post true) (_, r1))
    as [[e1|u1] w1];
    destruct ((_update_weather_and_terrain;; _maybe_prepare_trade_post true) (_, r2))
    as [[e2|u2] w2]; cbn [fst snd] in *; try discriminate.
  - congruence.
  - destruct Hrel as [Hg Hs]. rewrite Hg. f_equal. f_equal.
    apply play_alike. split; assumption.
Qed.

End SideBySide.

(* ================================================================== *)
(** * A script and a cursor on it answer alike *)

Lemma at_cursor_advance (c : Cursor) : at_cursor (advance c) = tl (at_cursor c).
Proof.
  destruct c as [n l]. unfold at_cursor, advance; cbn [fst snd].
  revert l. induction n as [|n IH]; intros l.
  - destruct l; reflexivity.
  - destruct l as [|x l]; [reflexivity | ]. cbn [skipn]. rewrite <- IH. reflexivity.
Qed.

(** A script and a cursor at the same place answer alike. *)
Lemma script_cursor_alike :
  answer_alike Scripted Cursored (fun s c => s = at_cursor c).
Proof.
  intros s c ->. repeat split; intros; cbn [random randint uniform choices Scripted Cursored
                                             fst snd];
    rewrite at_cursor_advance; destruct (at_cursor c) as [|[x|n|l] s']; reflexivity.
Qed.

(* ================================================================== *)
(** * The order of the draws *)

Section DrawOrder.

Context {R : Type} {RS : RandomSource R}.


Lemma wp_asks_random Q E (g : Game) (r : R) (log : list Request) :
  (forall x r', Q x (g, (r', log ++ [AskRandom])%list)) ->
  wp (draw (@random _ (Recording RS))) Q E (g, (r, log)).
Proof. intros H. apply H. Qed.

Lemma wp_asks_randint (a b : Z) Q E (g : Game) (r : R) (log : list Request) :
  a <= b ->
  (forall n r', a <= n <= b -> Q n (g, (r', log ++ [AskRandint a b])%list)) ->
  wp (draw (@randint _ (Recording RS) a b)) Q E (g, (r, log)).
Proof.
  intros Hab H. unfold wp, draw; cbn [fst snd]. apply H.
  apply (randint_range (RandomSource := RS)). exact Hab.
Qed.

Lemma wp_asks_uniform (a b : float) Q E (g : Game) (r : R) (log : list Request) :
  (forall x r', Q x (g, (r', log ++ [AskUniform a b])%list)) ->
  wp (draw (@uniform _ (Recording RS) a b)) Q E (g, (r, log)).
Proof. intros H. apply H. Qed.

Lemma wp_asks_choices (p : list string) (ws : list Z) Q E (g : Game) (r : R)
      (log : list Request) :
  (forall x r', Q x (g, (r', log ++ [AskChoices p ws])%list)) ->
  wp (draw (@choices _ (Recording RS) p ws)) Q E (g, (r, log)).
Proof. intros H. apply H. Qed.

End DrawOrder.

(** One step of a [wp] goal on a recording source. *)
Ltac asks_step :=
  lazymatch goal with
  | |- wp (draw random) _ _ (_, (_, _)) => apply wp_asks_random; intros ? ?
  | |- wp (draw (randint _ _)) _ _ (_, (_, _)) => apply wp_asks_randint; [lia | intros ? ? ?]
  | |- wp (draw (uniform _ _)) _ _ (_, (_, _)) => apply wp_asks_uniform; intros ? ?
  | |- wp (draw (choices _ _)) _ _ (_, (_, _)) => apply wp_asks_choices; intros ? ?
  | |- wp _ _ _ ?w =>
      lazymatch w with
      | (_, (_, _)) => wp_step
      | _ => destruct w as [? [? ?]]; cbn [fst snd]
      end
  end; cbn [fst snd].

(** Close a goal [exists l, log ++ ... = log ++ l /\ ...]. *)
Ltac asked :=
  repeat rewrite <- app_assoc; cbn [app];
  eexists; split; [reflexivity | ].

Section DrawOrderOfEngine.

Context {R : Type} {RS : RandomSource R}.


Lemma travel_silent (p : string) : silent (@_travel (Recorded R) p).
Proof. intros g s. unfold _travel. repeat wp_step; reflexivity. Qed.

Lemma trade_silent (o : option Z) : silent (@_trade (Recorded R) o).
Proof.
  intros g s. unfold _trade, _add_resource, _get_resource. repeat wp_step; reflexivity.
Qed.

Lemma hunt_asks (o : option Z) (g : Game) (r : R) (log : list Request) :
  wp (@_hunt _ (Recording RS) o)
     (fun _ w' => snd (snd w') = (log ++ [AskRandint 25 55])%list)
     (fun _ _ => True) (g, (r, log)).
Proof. unfold _hunt. repeat asks_step; first [exact I | reflexivity]. Qed.

Lemma event_asks (g : Game) (r : R) (log : list Request) :
  wp (@_apply_random_event _ (Recording RS))
     (fun _ w' => exists l, snd (snd w') = (log ++ l)%list /\ event_rolls l)
     (fun _ _ => True) (g, (r, log)).
Proof.
  unfold _apply_random_event, event_rolls.
  repeat asks_step; asked;
    first [ left; reflexivity
          | right; left; reflexivity
          | right; right; do 2 eexists; split; [ | reflexivity]; cbn; tauto ].
Qed.

Lemma make_offer_asks (g : Game) (r : R) (log : list Request) :
  wp (@make_offer _ (Recording RS))
     (fun _ w' => fst w' = g /\ exists l, snd (snd w') = (log ++ l)%list /\ offer_rolls l)
     (fun _ _ => True) (g, (r, log)).
Proof.
  unfold make_offer, offer_rolls.
  repeat asks_step; try exact I; (split; [reflexivity | ]); asked;
    first [left; reflexivity | right; reflexivity].
Qed.

Lemma make_offers_asks (n : nat) :
  forall acc (g : Game) (r : R) (log : list Request),
    wp (@make_offers _ (Recording RS) n acc)
       (fun _ w' => fst w' = g
          /\ exists offers, snd (snd w') = (log ++ List.concat offers)%list
               /\ List.length offers = n /\ Forall offer_rolls offers)
       (fun _ _ => True) (g, (r, log)).
Proof.
  induction n as [|n IH]; intros acc g r log; cbn [make_offers].
  - split; [reflexivity | ]. exists []. cbn [List.concat fst snd]. rewrite app_nil_r.
    repeat split. constructor.
  - wp_step. eapply wp_mono; [apply make_offer_asks | | intros; exact I].
    intros o [g1 [r1 log1]] (Hg & l & Hlog & Hl). cbn [fst snd] in *. subst g1 log1.
    eapply wp_mono; [apply IH | | intros; exact I].
    intros offers [g2 [r2 log2]] (Hg & rest & Hlog & Hlen & Hrest). cbn [fst snd] in *.
    split; [exact Hg | ]. exists (l :: rest). cbn [List.concat List.length].
    rewrite Hlog, <- app_assoc. repeat split; [congruence | constructor; assumption].
Qed.

Lemma post_asks (initial : bool) (g : Game) (r : R) (log : list Request) :
  wp (@_maybe_prepare_trade_post _ (Recording RS) initial)
     (fun _ w' => is_over (fst w') = is_over g
                  /\ exists l, snd (snd w') = (log ++ l)%list /\ post_rolls l)
     (fun _ _ => True) (g, (r, log)).
Proof.
  unfold _maybe_prepare_trade_post, post_rolls.
  asks_step. asks_step. asks_step.
  - repeat asks_step. split; [reflexivity | ]. asked. left. reflexivity.
  - asks_step. asks_step. asks_step.
    eapply wp_mono; [apply make_offers_asks | | intros; exact I].
    intros offers [g1 [r1 log1]] (Hg & groups & Hlog & Hlen & Hgroups). cbn [fst snd] in *.
    subst g1 log1. repeat asks_step. split; [reflexivity | ]. asked.
    right. exists groups. repeat split; try assumption; lia.
Qed.

Lemma init_asks (name prof : string) (d : Difficulty) (r : R) (w : Store (Recorded R)) :
  @Game_init _ (Recording RS) name prof d (r, []) = inr w -> init_rolls (snd (snd w)).
Proof.
  unfold Game_init. intros H.
  destruct (Py.get PROFESSION_BONUSES (Py.strip (Py.lower prof))) as [bonuses|];
    [ | discriminate ].
  match type of H with
  | match ?m ?w0 with _ => _ end = _ =>
      assert (K : wp m (fun _ w' => init_rolls (snd (snd w'))) (fun _ _ => True) w0);
      [ | unfold wp in K; destruct (m w0) as [[e|u] w1]; [discriminate | ];
          cbn [fst snd] in K; inversion H; subst; exact K ]
  end.
  wp_step.
  eapply wp_eq; [apply update_weather_and_terrain_eq | ].
  eapply wp_mono; [apply (post_asks true _ _ [weather_roll; terrain_roll]) | | intros; exact I].
  intros u w' (_ & l & Hlog & Hl). exists l. split; [exact Hlog | exact Hl].
Qed.

Lemma perform_action_asks (g : Game) (r : R) (log : list Request) (action : string)
      (kwargs : Kwargs) :
  wp (@perform_action _ (Recording RS) action kwargs)
     (fun _ w' => exists l, snd (snd w') = (log ++ l)%list
                    /\ day_rolls (Py.strip (Py.lower action)) (is_over (fst w')) l)
     (fun _ _ => True) (g, (r, log)).
Proof.
  unfold perform_action.
  wp_step. wp_step. wp_step; [exact I | ].
  wp_step; [exact I | ].
  wp_step. wp_step. wp_step.
  eapply wp_eq; [apply update_weather_and_terrain_eq | ].
  wp_step.
  set (key := Py.strip (Py.lower action)) in *.
  set (g0 := set_state _ (set_state _ g)). clearbody g0.
  change (snd (land (RS := Recording RS) (r, log)))
    with (fst (snd (land (RS := Recording RS) (r, log))),
          ((log ++ [weather_roll]) ++ [terrain_roll])%list).
  set (r0 := fst (snd (land (RS := Recording RS) (r, log)))). clearbody r0.
  eapply wp_mono with
    (Q := fun _ w1 => snd (snd w1)
                      = (((log ++ [weather_roll]) ++ [terrain_roll]) ++ action_rolls key)%list)
    (E := fun _ _ => True).
  - unfold action_rolls.
    destruct (String.eqb key "travel") eqn:E1;
      [ | destruct (String.eqb key "hunt") eqn:E2;
          [ | destruct (String.eqb key "rest") eqn:E3;
              [ | destruct (String.eqb key "trade") eqn:E4 ] ] ].
    + apply String.eqb_eq in E1. rewrite E1. cbn [String.eqb Ascii.eqb Bool.eqb].
      wp_step. wp_step. wp_step.
      eapply wp_mono; [apply travel_silent | | intros; exact I].
      intros [m x] [g1 s1] Hs. cbn [snd] in Hs. subst s1. wp_step.
      rewrite app_nil_r. reflexivity.
    + wp_step.
      eapply wp_mono; [apply hunt_asks | | intros; exact I].
      intros m [g1 [r1 log1]] Hs. cbn [snd] in Hs. wp_step. exact Hs.
    + wp_step. wp_step. wp_step. rewrite app_nil_r. reflexivity.
    + wp_step.
      eapply wp_mono; [apply trade_silent | | intros; exact I].
      intros m [g1 s1] Hs. cbn [snd] in Hs. subst s1. wp_step.
      rewrite app_nil_r. reflexivity.
    + wp_step. rewrite app_nil_r. reflexivity.
  - intros [messages food_consumed] [g1 [r1 log1]] Hlog. cbn [fst snd] in Hlog. subst log1.
    wp_step. wp_step. wp_step.
    eapply wp_mono; [apply event_asks | | intros; exact I].
    intros events [g2 [r2 log2]] (ev & Hlog & Hev). cbn [fst snd] in Hlog. subst log2.
    wp_step. wp_step. wp_step. wp_step. wp_step.
    destruct (is_over (_end_of_day g2)) eqn:Eover; cbn [negb].
    + wp_step. wp_step. fields. rewrite Eover.
      exists ([weather_roll; terrain_roll] ++ action_rolls key ++ ev)%list.
      split; [repeat rewrite <- app_assoc; reflexivity | ].
      exists ev, []. rewrite app_nil_r. repeat split; assumption.
    + wp_step. wp_step.
      eapply wp_mono; [apply post_asks | | intros; exact I].
      intros u [g3 [r3 log3]] (Hover & post & Hlog & Hpost). cbn [fst snd] in *.
      wp_step. fields. rewrite Hover, Eover.
      exists ([weather_roll; terrain_roll] ++ action_rolls key ++ ev ++ post)%list.
      split; [rewrite Hlog; repeat rewrite <- app_assoc; reflexivity | ].
      exists ev, post. repeat split; assumption.
  - intros; exact I.
Qed.

(** A source and its recording answer alike. *)
Lemma recording_alike : answer_alike RS (Recording RS) (fun r s => r = fst s).
Proof.
  intros r s ->. repeat split.
Qed.

End DrawOrderOfEngine.

(* ================================================================== *)
(** * C9: determinism under a seed *)

(** C9: the engine draws from its random source only, and always in the
    same order.  Two games built with the same arguments, each on its own
    random source, and driven by the same actions with the same parameters,
    return the same outcome (snapshot or exception) and leave the same game
    at every step, whenever the two sources answer alike, as two sources
    initialised from one seed do.  The draws themselves are made in a fixed
    order, read off a source that records what it is asked and otherwise
    answers as the given one: the constructor asks for the weather, the
    terrain and the first trading post; every call of [perform_action] that
    returns asks for the weather, the terrain, the rolls of the action (the
    bag of a hunt), the event trigger, the rolls of the event and, unless
    the game is over, the trading post of the next day with its offers. *)
Theorem C9_same_seed_same_run {R1 R2 : Type} {RS1 : RandomSource R1} {RS2 : RandomSource R2}
        (sim : R1 -> R2 -> Prop) (name prof : string) (d : Difficulty)
        (actions : list (string * Kwargs)) (r1 : R1) (r2 : R2) :
  answer_alike RS1 RS2 sim ->
  sim r1 r2 ->
  run name prof d actions r1 = run name prof d actions r2
  /\ run (RS := Recording RS1) name prof d actions (r1, []) = run name prof d actions r1
  /\ (forall w,
        Game_init (RS := Recording RS1) name prof d (r1, []) = inr w ->
        init_rolls (snd (snd w)))
  /\ (forall g r log action kwargs snap w',
        perform_action (RS := Recording RS1) action kwargs (g, (r, log)) = (inr snap, w') ->
        exists l,
          snd (snd w') = (log ++ l)%list
          /\ day_rolls (Py.strip (Py.lower action)) (is_over (fst w')) l).
Proof.
  intros Hsim Hr. split; [ | split; [ | split ] ].
  - apply (run_alike sim Hsim). exact Hr.
  - symmetry. apply (run_alike (fun r s => r = fst s) recording_alike). reflexivity.
  - intros w H. exact (init_asks name prof d r1 w H).
  - intros g r log action kwargs snap w' H.
    pose proof (perform_action_asks g r log action kwargs) as K.
    unfold wp in K. rewrite H in K. exact K.
Qed.

Lemma C9_same_seed_same_run_witness :
  run "Tester" "banker" NORMAL three_days three_days_script
  = run "Tester" "banker" NORMAL three_days ((0%nat, three_days_script) : Cursor)
  /\ init_rolls [weather_roll; terrain_roll; AskRandom]
  /\ day_rolls "hunt" false
       [weather_roll; terrain_roll; AskRandint 25 55; AskRandom; AskRandom].
Proof.
  destruct (C9_same_seed_same_run (fun s c => s = at_cursor c)
              "Tester" "banker" NORMAL three_days three_days_script
              ((0%nat, three_days_script) : Cursor) script_cursor_alike eq_refl)
    as (H1 & _ & H3 & H4).
  split; [exact H1 | ].
  split.
  - exact (H3 (banker_game, (skipn 3 three_days_script,
                             [weather_roll; terrain_roll; AskRandom])) eq_refl).
  - edestruct (H4 banker_game
                 [Choice "Cold"; Choice "Hills"; Int 30; Float 0.9; Float 0.9] []
                 "hunt" (mkKwargs None (Some 10) None)) as (l & Hl & Hd);
      [vm_compute; reflexivity | ].
    cbn in Hl. subst l. exact Hd.
Defined.

(* ================================================================== *)
(** * A handler that raises has changed nothing *)

Lemma to_int_errors pick (x : float) (e : PyExc) :
  Py.to_int pick x = inl e -> conversion_error e.
Proof.
  unfold Py.to_int, conversion_error. destruct (Prim2SF x); intros H; inversion H; auto.
Qed.

Lemma nth_error_in_range {A} (l : list A) (i : Z) :
  (i <? 0) || (Z.of_nat (List.length l) <=? i) = false ->
  nth_error l (Z.to_nat i) <> None.
Proof.
  intros H. apply orb_false_iff in H. destruct H as [H1 H2].
  apply nth_error_Some. lia.
Qed.

Lemma trade_item_cases (i : string) :
  in_list i TRADE_ITEMS = true -> i = "food" \/ i = "ammo".
Proof.
  unfold in_list, TRADE_ITEMS. cbn [existsb]. intros H.
  apply orb_true_iff in H. destruct H as [H|H].
  - left. apply String.eqb_eq in H. exact H.
  - apply orb_true_iff in H. destruct H as [H|H]; [ | discriminate ].
    right. apply String.eqb_eq in H. exact H.
Qed.

Lemma trade_item_known (i : string) :
  negb (in_list i TRADE_ITEMS) = false ->
  String.eqb i "food" = false -> String.eqb i "ammo" = false -> False.
Proof.
  intros H Hf Ha. apply negb_false_iff in H. apply trade_item_cases in H.
  destruct H as [-> | ->]; discriminate.
Qed.

(** The two raises of [_trade] that its guards exclude. *)
Ltac unreachable_trade :=
  exfalso;
  match goal with
  | H : nth_error _ _ = None, G : (_ <? 0) || _ = false |- _ =>
      exact (nth_error_in_range _ _ G H)
  | H : negb (in_list ?i TRADE_ITEMS) = false,
    Hf : String.eqb ?i "food" = false, Ha : String.eqb ?i "ammo" = false |- _ =>
      exact (trade_item_known i H Hf Ha)
  end.

Section Atomic.

Context {R : Type} {RS : RandomSource R}.

Lemma wp_conj {A} (m : M R A) Q1 Q2 E1 E2 (w : Store R) :
  wp m Q1 E1 w -> wp m Q2 E2 w ->
  wp m (fun a w' => Q1 a w' /\ Q2 a w') (fun e w' => E1 e w' /\ E2 e w') w.
Proof. unfold wp. destruct (fst (m w)); auto. Qed.

Lemma travel_atomic (p : string) : atomic (@_travel R p).
Proof.
  intros g r.
  destruct (Py.get PACE_SPEEDS (Py.strip (Py.lower p))) as [speed|] eqn:Hpace.
  - destruct (travel_runs g r p speed Hpace) as (miles & extra & message & _ & _ & _ & _ & H).
    eapply wp_eq; [exact H | exact I].
  - unfold _travel. rewrite Hpace. wp_step. reflexivity.
Qed.

Lemma hunt_atomic (o : option Z) : atomic (@_hunt R RS o).
Proof.
  intros g r. unfold _hunt. repeat wp_step; auto.
Qed.

Lemma trade_atomic (o : option Z) : atomic (@_trade R o).
Proof.
  intros g r. unfold _trade, _add_resource, _get_resource.
  repeat wp_step; try reflexivity; try exact I; unreachable_trade.
Qed.

Lemma event_never_raises (g : Game) (r : R) :
  wp _apply_random_event (fun _ _ => True) (fun _ _ => False) (g, r).
Proof. unfold _apply_random_event. repeat wp_step; exact I. Qed.

Lemma make_offer_errors (g : Game) (r : R) :
  wp make_offer (fun _ _ => True) (fun e _ => conversion_error e) (g, r).
Proof.
  unfold make_offer. repeat wp_step; try exact I; eapply to_int_errors; eassumption.
Qed.

Lemma make_offers_errors (n : nat) :
  forall l g r, wp (make_offers n l) (fun _ _ => True) (fun e _ => conversion_error e) (g, r).
Proof.
  induction n as [|n IH]; intros l g r; cbn [make_offers].
  - exact I.
  - wp_step. eapply wp_mono; [apply make_offer_errors | | auto].
    intros o [g1 r1] _. apply IH.
Qed.

Lemma trade_post_errors (b : bool) (g : Game) (r : R) :
  wp (_maybe_prepare_trade_post b) (fun _ _ => True) (fun e _ => conversion_error e) (g, r).
Proof.
  unfold _maybe_prepare_trade_post.
  wp_step. wp_step. wp_step; [repeat wp_step; exact I | ].
  wp_step. wp_step. wp_step.
  eapply wp_mono; [apply make_offers_errors | | auto].
  intros offers [g1 r1] _. repeat wp_step. exact I.
Qed.

(** When the making of a trading post raises, the game is as it was. *)
Lemma trade_post_failure (b : bool) (g : Game) (r : R) :
  wp (_maybe_prepare_trade_post b) (fun _ _ => True)
     (fun e w' => conversion_error e /\ fst w' = g) (g, r).
Proof.
  unfold _maybe_prepare_trade_post.
  wp_step. wp_step. wp_step; [repeat wp_step; exact I | ].
  wp_step. wp_step. wp_step.
  eapply wp_mono;
    [ apply wp_conj;
      [ apply make_offers_errors
      | apply (keeps_make_offers (fun g' => g' = g)); reflexivity ]
    | | intros e w' K; exact K ].
  intros offers [g1 r1] _. repeat wp_step. exact I.
Qed.

Ltac day_handler :=
  let g := fresh "g" in let r := fresh "r" in let H := fresh "H" in
  intros g r H; repeat wp_step; try exact H; fields; exact H.

Lemma keeps_day_travel (d : Z) (p : string) :
  keeps (fun g => day (state g) = d) (@_travel R p).
Proof. unfold _travel. day_handler. Qed.

Lemma keeps_day_hunt (d : Z) (o : option Z) :
  keeps (fun g => day (state g) = d) (@_hunt R RS o).
Proof. unfold _hunt. day_handler. Qed.

Lemma keeps_day_trade (d : Z) (o : option Z) :
  keeps (fun g => day (state g) = d) (@_trade R o).
Proof. unfold _trade, _add_resource, _get_resource. day_handler. Qed.

Lemma keeps_day_event (d : Z) :
  keeps (fun g => day (state g) = d) (@_apply_random_event R RS).
Proof. unfold _apply_random_event. day_handler. Qed.

(** Where a call that raises stops: at entry, where the handler starts, or
    in the making of the post of the next day. *)
Lemma perform_action_failures (g : Game) (r : R) (action : string) (kwargs : Kwargs) :
  wp (perform_action action kwargs) (fun _ _ => True)
     (fun e w' => w' = (g, r)
                  \/ w' = new_day g r
                  \/ (conversion_error e
                      /\ day (state (fst w')) = day (state g) + 1
                      /\ is_over (fst w') = false)) (g, r).
Proof.
  unfold perform_action.
  wp_step. wp_step. wp_step; [left; reflexivity | ].
  wp_step; [left; reflexivity | ].
  wp_step. wp_step. wp_step.
  eapply wp_eq; [apply update_weather_and_terrain_eq | ].
  change (set_state _ (set_state (set_event_log []) g), snd (land r)) with (new_day g r).
  assert (Hday : day (state (fst (new_day g r))) = day (state g)) by reflexivity.
  destruct (new_day g r) as [g0 r0] eqn:Hnew. cbn [fst] in Hday.
  wp_step.
  eapply wp_mono with (Q := fun _ w1 => day (state (fst w1)) = day (state g))
                      (E := fun _ w' => w' = (g0, r0)).
  - eapply wp_mono;
      [ apply wp_conj with (Q1 := fun _ _ => True) (E1 := fun _ w' => w' = (g0, r0))
                           (Q2 := fun _ w1 => day (state (fst w1)) = day (state g))
                           (E2 := fun _ w1 => day (state (fst w1)) = day (state g))
      | intros a w1 [_ H]; exact H
      | intros e w1 [H _]; exact H ].
    + repeat first
        [ wp_step
        | eapply wp_mono; [apply travel_atomic | intros | intros; assumption]
        | eapply wp_mono; [apply hunt_atomic | intros | intros; assumption]
        | eapply wp_mono; [apply trade_atomic | intros | intros; assumption]
        | exact I ].
    + refine ((_ : keeps (fun g' => day (state g') = day (state g)) _) g0 r0 Hday).
      repeat (keeps_step
              || apply keeps_day_travel || apply keeps_day_hunt || apply keeps_day_trade
              || (apply keeps_call; intros g1 H1; rewrite rest_game; fields; exact H1)).
  - intros [messages food_consumed] [g1 r1] Hd1. cbn [fst] in Hd1.
    wp_step. wp_step. wp_step.
    eapply wp_mono;
      [ apply wp_conj;
        [ apply event_never_raises
        | apply (keeps_day_event (day (state g))); unfold _consume_food; fields; exact Hd1 ]
      | | intros e w' [[] _] ].
    intros events [g2 r2] [_ Hd2]. cbn [fst] in Hd2.
    wp_step. wp_step. wp_step. wp_step. wp_step.
    destruct (end_of_day_frame g2) as (_ & _ & _ & _ & _ & Fday & _).
    destruct (is_over (_end_of_day g2)) eqn:Eover; cbn [negb].
    + wp_step. wp_step. exact I.
    + wp_step. wp_step.
      eapply wp_mono; [apply trade_post_failure | | ].
      * intros u w' _. wp_step. exact I.
      * intros e w' [He Hg]. right. right. split; [exact He | ].
        rewrite Hg. fields. split; [congruence | exact Eover].
  - intros e w' ->. right. left. reflexivity.
Qed.

End Atomic.

(* ================================================================== *)
(** * The course of a game *)

Lemma miles_for_at_most (speed : Z) (wm tm : float) (miles : Z) :
  In speed (map snd PACE_SPEEDS) ->
  In wm (modifiers WEATHER_OPTIONS) ->
  In tm (modifiers TERRAIN_OPTIONS) ->
  miles_for speed wm tm = inr miles -> miles <= 25.
Proof.
  intros Hs Hw Ht.
  assert (K : forallb (fun s =>
                forallb (fun w =>
                  forallb (fun t =>
                    match miles_for s w t with inr m => m <=? 25 | inl _ => false end)
                    (modifiers TERRAIN_OPTIONS))
                  (modifiers WEATHER_OPTIONS))
                (map snd PACE_SPEEDS) = true) by (vm_compute; reflexivity).
  rewrite forallb_forall in K. specialize (K speed Hs).
  rewrite forallb_forall in K. specialize (K wm Hw).
  rewrite forallb_forall in K. specialize (K tm Ht).
  intros E. rewrite E in K. apply Z.leb_le in K. exact K.
Qed.

Lemma Forall_pop {A} (P : A -> Prop) (i : nat) :
  forall l, Forall P l -> Forall P (pop i l).
Proof.
  unfold pop. induction i as [|i IH]; intros l H.
  - destruct l as [|x l]; cbn; [constructor | inversion H; assumption].
  - destruct l as [|x l]; cbn; [constructor | ].
    inversion H; subst. constructor; [assumption | apply IH; assumption].
Qed.

Lemma length_pop {A} (i : nat) :
  forall l : list A, (List.length (pop i l) <= List.length l)%nat.
Proof.
  unfold pop. induction i as [|i IH]; intros l.
  - destruct l as [|x l]; cbn; lia.
  - destruct l as [|x l]; [cbn; lia | ]. specialize (IH l).
    change (S (List.length (firstn i l ++ skipn (S i) l)) <= S (List.length l))%nat. lia.
Qed.

Ltac leb_to_Z :=
  repeat match goal with
         | H : (_ <=? _) = true |- _ => apply Z.leb_le in H
         | H : (_ <=? _) = false |- _ => apply Z.leb_gt in H
         | H : (_ <? _) = true |- _ => apply Z.ltb_lt in H
         | H : (_ <? _) = false |- _ => apply Z.ltb_ge in H
         end.

Ltac course_solve :=
  unfold Underway, Course, post_ok in *; fields; leb_to_Z;
  intuition (try lia; try congruence; auto using Forall_pop).

Lemma pace_options_normal (key : string) (speed : Z) :
  In (key, speed) PACE_SPEEDS -> In key pace_options /\ In speed (map snd PACE_SPEEDS).
Proof.
  intros H. split.
  - change key with (fst (key, speed)). apply in_map. exact H.
  - change speed with (snd (key, speed)). apply in_map. exact H.
Qed.

Section CourseOfGame.

Context {R : Type} {RS : RandomSource R}.

Lemma travel_underway (p : string) (g : Game) (r : R) :
  Course g -> is_over g = false ->
  wp (_travel p) (fun _ w' => Underway (fst w')) (fun _ _ => True) (g, r).
Proof.
  intros HC Hover.
  destruct (Py.get PACE_SPEEDS (Py.strip (Py.lower p))) as [speed|] eqn:Hpace.
  - destruct (travel_runs g r p speed Hpace)
      as (miles & extra & message & Hmiles & _ & _ & _ & H).
    eapply wp_eq; [exact H | ]. cbn [fst].
    destruct (pace_options_normal _ _ (pace_speed_cases _ _ Hpace)) as [Hkey Hspeed].
    assert (miles <= 25).
    { eapply miles_for_at_most; [exact Hspeed | | | exact Hmiles];
        apply get_default_in_modifiers. }
    course_solve.
  - unfold _travel. rewrite Hpace. wp_step. exact I.
Qed.

Lemma hunt_underway (o : option Z) (g : Game) (r : R) :
  Course g -> is_over g = false ->
  wp (_hunt o) (fun _ w' => Underway (fst w')) (fun _ _ => True) (g, r).
Proof.
  intros HC Hover. unfold _hunt. repeat wp_step; try exact I. course_solve.
Qed.

Lemma rest_underway (g : Game) : Course g -> is_over g = false -> Underway (snd (_rest g)).
Proof. intros HC Hover. rewrite rest_game. course_solve. Qed.

Lemma trade_underway (o : option Z) (g : Game) (r : R) :
  Course g -> is_over g = false ->
  wp (_trade o) (fun _ w' => Underway (fst w')) (fun _ _ => True) (g, r).
Proof.
  intros HC Hover. unfold _trade, _add_resource, _get_resource.
  repeat wp_step; try exact I;
    try match goal with
        | |- context [pop ?i ?l] => pose proof (length_pop i l)
        end;
    course_solve; first [ constructor | cbn; lia ].
Qed.

Lemma keeps_underway_event : keeps Underway (@_apply_random_event R RS).
Proof.
  unfold _apply_random_event. intros g r H. repeat wp_step; try exact H; course_solve.
Qed.

Lemma underway_consume_food (n : Z) (g : Game) : Underway g -> Underway (_consume_food n g).
Proof. unfold _consume_food. intros H. course_solve. Qed.

(** The end of the day closes the game or opens the next day. *)
Lemma end_of_day_course (g : Game) :
  Underway g ->
  Course (if is_over (_end_of_day g) then _end_of_day g
          else set_state (fun st => set_day (day st + 1) st) (_end_of_day g)).
Proof.
  intros H. unfold _end_of_day, TARGET_MILES.
  repeat match goal with
         | |- context [if ?c then _ else _] => destruct c eqn:?; fields
         end; course_solve.
Qed.

Lemma make_offer_ok (g : Game) (r : R) :
  wp make_offer (fun o w' => fst w' = g /\ offer_ok o) (fun _ w' => fst w' = g) (g, r).
Proof.
  unfold make_offer. repeat wp_step; try reflexivity;
    (split; [reflexivity | ]); unfold offer_ok; cbn [item quantity price];
    match goal with |- context [if ?c then _ else _] => destruct c end;
    first [ left; repeat split; try reflexivity; lia
          | right; repeat split; try reflexivity; lia ].
Qed.

Lemma make_offers_ok (n : nat) :
  forall l (g : Game) (r : R),
    wp (make_offers n l)
       (fun offers w' => fst w' = g
          /\ exists new, offers = (l ++ new)%list /\ List.length new = n /\ Forall offer_ok new)
       (fun _ w' => fst w' = g) (g, r).
Proof.
  induction n as [|n IH]; intros l g r; cbn [make_offers].
  - split; [reflexivity | ]. exists []. rewrite app_nil_r. repeat split. constructor.
  - wp_step. eapply wp_mono; [apply make_offer_ok | | intros e w' H; exact H].
    intros o [g1 r1] [Hg Ho]. cbn [fst] in Hg. subst g1.
    eapply wp_mono; [apply IH | | intros e w' H; exact H].
    intros offers w' (Hg & new & -> & Hlen & Hnew).
    split; [exact Hg | ]. exists (o :: new).
    rewrite <- app_assoc. repeat split; [cbn; lia | constructor; assumption].
Qed.

Lemma course_post (g g' : Game) :
  Course g -> post_only g g' -> post_ok g' -> Course g'.
Proof.
  intros HC (open & offers & ->) Hpost.
  unfold Course in *. fields. intuition.
Qed.

Lemma trade_post_course (b : bool) (g : Game) (r : R) :
  Course g ->
  wp (_maybe_prepare_trade_post b)
     (fun _ w' => Course (fst w')) (fun _ w' => Course (fst w')) (g, r).
Proof.
  intros HC. unfold _maybe_prepare_trade_post.
  wp_step. wp_step. wp_step.
  - wp_step. wp_step. wp_step.
    eapply course_post; [exact HC | eexists; eexists; reflexivity | ].
    unfold post_ok; fields. repeat split; [constructor | cbn; lia | discriminate].
  - wp_step. wp_step. wp_step.
    eapply wp_mono; [apply make_offers_ok | | intros e [g1 r1] Hg; cbn [fst] in Hg; subst g1; exact HC].
    intros offers [g1 r1] (Hg & new & -> & Hlen & Hnew). cbn [fst] in Hg. subst g1.
    wp_step. wp_step. wp_step.
    eapply course_post; [exact HC | eexists; eexists; reflexivity | ].
    unfold post_ok; fields. cbn [app]. repeat split; [exact Hnew | lia | ].
    intros _ Hnil. rewrite Hnil in Hlen. cbn in Hlen. lia.
Qed.

Lemma keeps_course_perform_action (action : string) (kwargs : Kwargs) :
  keeps Course (@perform_action R RS action kwargs).
Proof.
  intros g r HC. unfold perform_action.
  wp_step. wp_step. wp_step; [exact HC | ].
  wp_step; [exact HC | ].
  wp_step. wp_step. wp_step.
  eapply wp_eq; [apply update_weather_and_terrain_eq | ].
  set (g0 := set_state _ (set_state _ g)).
  assert (HC0 : Course g0) by (subst g0; course_solve).
  assert (Hover0 : is_over g0 = false) by (subst g0; fields; assumption).
  clearbody g0. generalize (snd (land r)). intros r0.
  wp_step.
  eapply wp_mono with (Q := fun _ w1 => Underway (fst w1))
                      (E := fun _ w1 => w1 = (g0, r0)).
  - repeat first
      [ wp_step
      | eapply wp_mono;
          [ apply wp_conj; [apply travel_underway; assumption | apply travel_atomic]
          | intros ? ? [? _] | intros ? ? [_ ?]; assumption ]
      | eapply wp_mono;
          [ apply wp_conj; [apply hunt_underway; assumption | apply hunt_atomic]
          | intros ? ? [? _] | intros ? ? [_ ?]; assumption ]
      | eapply wp_mono;
          [ apply wp_conj; [apply trade_underway; assumption | apply trade_atomic]
          | intros ? ? [? _] | intros ? ? [_ ?]; assumption ]
      | assumption
      | apply rest_underway; assumption
      | solve [course_solve] ].
  - intros [messages food_consumed] [g1 r1] HU. cbn [fst] in HU.
    wp_step. wp_step. wp_step.
    eapply wp_mono;
      [ apply wp_conj;
          [ apply keeps_underway_event; apply underway_consume_food; exact HU
          | apply event_never_raises ]
      | | intros e w' [_ []] ].
    intros events [g2 r2] [HU2 _]. cbn [fst] in HU2.
    wp_step. wp_step. wp_step. wp_step. wp_step.
    pose proof (end_of_day_course g2 HU2) as HE.
    destruct (is_over (_end_of_day g2)); cbn [negb].
    + wp_step. wp_step. exact HE.
    + wp_step. wp_step.
      eapply wp_mono; [apply trade_post_course; exact HE | | intros e w' H; exact H].
      intros u w' H. wp_step. exact H.
  - intros e w' ->. exact HC0.
Qed.

End CourseOfGame.

Section ReachableCourse.

Context {R : Type} {RS : RandomSource R}.

Lemma init_course (name prof : string) (d : Difficulty) (rng : R) (w : Store R) :
  Game_init name prof d rng = inr w -> Course (fst w).
Proof.
  unfold Game_init. intros H.
  destruct (Py.get PROFESSION_BONUSES (Py.strip (Py.lower prof))) as [bonuses|] eqn:Hb;
    [ | discriminate ].
  match type of H with
  | match ?m ?w0 with _ => _ end = _ =>
      assert (K : wp m (fun _ w' => Course (fst w')) (fun _ w' => Course (fst w')) w0);
      [ | unfold wp in K; destruct (m w0) as [[e|u] w1]; [discriminate |];
          cbn [fst snd] in K; inversion H; subst; exact K ]
  end.
  wp_step. eapply wp_eq; [apply update_weather_and_terrain_eq | ].
  apply trade_post_course.
  assert (Hh : Py.get_default bonuses "health" 0
               = health_bonus (Py.strip (Py.lower prof))).
  { unfold health_bonus, Py.get_default. rewrite Hb. reflexivity. }
  pose proof (health_bonus_range (Py.strip (Py.lower prof))).
  unfold Course, post_ok; fields. rewrite Hh.
  destruct d; cbn [DIFFICULTY_SETTINGS cfg_max_days];
    repeat split; try lia; try discriminate; try apply Forall_nil;
    cbn; auto.
Qed.

(** Every reachable store is on course. *)
Lemma reachable_course (w : Store R) : reachable w -> Course (fst w).
Proof.
  induction 1 as [name prof d rng w H | w action kwargs Hr IH].
  - eapply init_course; exact H.
  - destruct w as [g r]. pose proof (keeps_course_perform_action action kwargs g r IH) as K.
    unfold wp in K. destruct (fst (perform_action action kwargs (g, r))); exact K.
Qed.

End ReachableCourse.

(* ================================================================== *)
(** * What holds of every game a caller can reach *)

Lemma market_store_reachable : reachable market_store.
Proof.
  unfold market_store. apply reach_step.
  apply (reach_init "Tester" "banker" NORMAL (quiet_start ++ later_script)%list).
  reflexivity.
Qed.

Lemma later_store_reachable : reachable later_store.
Proof. unfold later_store. apply reach_step. exact market_store_reachable. Qed.

(** X1: no game is ever won.  A day of travel covers 25 miles at most and a
    game has 60 days at most, so that the distance stays within 25 miles
    per day, 1500 in all, below the 2000 of [TARGET_MILES]; [won] is false
    in every reachable store. *)
Theorem X1_no_game_is_won {R : Type} {RS : RandomSource R} (w : Store R) :
  reachable w ->
  won (state (fst w)) = false
  /\ distance (state (fst w)) <= 25 * day (state (fst w))
  /\ distance (state (fst w)) <= 1500
  /\ distance (state (fst w)) < TARGET_MILES.
Proof.
  intros Hr. apply reachable_course in Hr. unfold Course in Hr. unfold TARGET_MILES.
  destruct (is_over (fst w)); intuition (try lia).
Qed.

Lemma X1_no_game_is_won_witness :
  won (state (fst later_store)) = false
  /\ distance (state (fst later_store)) <= 25 * day (state (fst later_store))
  /\ distance (state (fst later_store)) <= 1500
  /\ distance (state (fst later_store)) < TARGET_MILES.
Proof. apply (X1_no_game_is_won later_store). exact later_store_reachable. Defined.

(** X2: the day counter starts at 1 and never passes the [max_days] of the
    difficulty, which is 60 at most. *)
Theorem X2_day_within_max_days {R : Type} {RS : RandomSource R} (w : Store R) :
  reachable w ->
  1 <= day (state (fst w))
    <= cfg_max_days (DIFFICULTY_SETTINGS (difficulty (state (fst w))))
  /\ cfg_max_days (DIFFICULTY_SETTINGS (difficulty (state (fst w)))) <= 60.
Proof.
  intros Hr. pose proof (reachable_inv w Hr) as HI. apply reachable_course in Hr.
  unfold Course in Hr. unfold Inv in HI.
  destruct HI as (_ & _ & _ & _ & _ & _ & _ & Hs & Hm & _).
  rewrite <- Hs, <- Hm. intuition lia.
Qed.

Lemma X2_day_within_max_days_witness :
  1 <= day (state (fst later_store))
    <= cfg_max_days (DIFFICULTY_SETTINGS (difficulty (state (fst later_store))))
  /\ cfg_max_days (DIFFICULTY_SETTINGS (difficulty (state (fst later_store)))) <= 60.
Proof. apply (X2_day_within_max_days later_store). exact later_store_reachable. Defined.

(** X3: a game is over exactly when the player is no longer alive, and as
    long as it is not over health is positive. *)
Theorem X3_over_iff_not_alive {R : Type} {RS : RandomSource R} (w : Store R) :
  reachable w ->
  alive (state (fst w)) = negb (is_over (fst w))
  /\ (is_over (fst w) = false -> 0 < health (state (fst w))).
Proof.
  intros Hr. apply reachable_course in Hr. unfold Course in Hr.
  destruct (is_over (fst w)); cbn [negb]; intuition.
Qed.

Lemma X3_over_iff_not_alive_witness :
  alive (state (fst later_store)) = negb (is_over (fst later_store))
  /\ (is_over (fst later_store) = false -> 0 < health (state (fst later_store))).
Proof. apply (X3_over_iff_not_alive later_store). exact later_store_reachable. Defined.

(** X4: the pace kept in the state is always one of [pace_options], in the
    normal form [_travel] looks up: a [travel] without a [pace] argument
    never meets the invalid-pace error. *)
Theorem X4_stored_pace_is_valid {R : Type} {RS : RandomSource R} (w : Store R) :
  reachable w ->
  In (pace (state (fst w))) pace_options
  /\ exists speed,
       Py.get PACE_SPEEDS (Py.strip (Py.lower (pace (state (fst w))))) = Some speed.
Proof.
  intros Hr. apply reachable_course in Hr. unfold Course in Hr.
  destruct Hr as (_ & _ & Hp & _). split; [exact Hp | ].
  cbn in Hp. destruct Hp as [<- | [<- | [<- | []]]]; eexists; vm_compute; reflexivity.
Qed.

Lemma X4_stored_pace_is_valid_witness :
  In (pace (state (fst later_store))) pace_options
  /\ exists speed,
       Py.get PACE_SPEEDS (Py.strip (Py.lower (pace (state (fst later_store))))) = Some speed.
Proof. apply (X4_stored_pace_is_valid later_store). exact later_store_reachable. Defined.

(** X5: the offers of a game are always as [_maybe_prepare_trade_post] makes
    them: food in lots of 25 to 60 for $10 or more, ammo in lots of 6 to 15
    for $8 or more, bought or sold, three offers at most; and whenever
    [available_actions] lists "trade", [get_trade_offers] is not empty. *)
Theorem X5_offers_are_well_made {R : Type} {RS : RandomSource R} (w : Store R) :
  reachable w ->
  Forall offer_ok (get_trade_offers (fst w))
  /\ Z.of_nat (List.length (get_trade_offers (fst w))) <= 3
  /\ (In "trade" (available_actions (fst w)) -> get_trade_offers (fst w) <> []).
Proof.
  intros Hr. apply reachable_course in Hr. unfold Course, post_ok in Hr.
  destruct Hr as (_ & _ & _ & (Hall & Hlen & Hopen) & _).
  unfold get_trade_offers, available_actions. repeat split; try assumption.
  destruct (trade_available (state (fst w))).
  - intros _. apply Hopen. reflexivity.
  - cbn. intros [H|[H|[H|[]]]]; discriminate H.
Qed.

Lemma X5_offers_are_well_made_witness :
  Forall offer_ok (get_trade_offers (fst market_store))
  /\ Z.of_nat (List.length (get_trade_offers (fst market_store))) <= 3
  /\ (In "trade" (available_actions (fst market_store))
      -> get_trade_offers (fst market_store) <> []).
Proof. apply (X5_offers_are_well_made market_store). exact market_store_reachable. Defined.

(* ================================================================== *)
(** * Names are read in a normal form *)

Lemma is_space_lower_char (c : ascii) : Py.is_space (Py.lower_char c) = Py.is_space c.
Proof. destruct c as [[] [] [] [] [] [] [] []]; reflexivity. Qed.

Lemma lower_char_idem (c : ascii) : Py.lower_char (Py.lower_char c) = Py.lower_char c.
Proof. destruct c as [[] [] [] [] [] [] [] []]; reflexivity. Qed.

Lemma lower_idem (s : string) : Py.lower (Py.lower s) = Py.lower s.
Proof.
  induction s as [|c s IH]; cbn [Py.lower]; [reflexivity | ].
  rewrite lower_char_idem, IH. reflexivity.
Qed.

Lemma lower_lstrip (s : string) : Py.lower (Py.lstrip s) = Py.lstrip (Py.lower s).
Proof.
  induction s as [|c s IH]; cbn [Py.lower Py.lstrip]; [reflexivity | ].
  rewrite is_space_lower_char. destruct (Py.is_space c); [exact IH | reflexivity].
Qed.

Lemma lower_rstrip (s : string) : Py.lower (Py.rstrip s) = Py.rstrip (Py.lower s).
Proof.
  induction s as [|c s IH]; cbn [Py.lower Py.rstrip]; [reflexivity | ].
  rewrite <- IH, is_space_lower_char.
  destruct (Py.rstrip s) as [|c' t]; cbn [Py.lower].
  - destruct (Py.is_space c); reflexivity.
  - reflexivity.
Qed.

Lemma rstrip_idem (s : string) : Py.rstrip (Py.rstrip s) = Py.rstrip s.
Proof.
  induction s as [|c s IH]; cbn [Py.rstrip]; [reflexivity | ].
  destruct (Py.rstrip s) as [|c' t] eqn:E.
  - destruct (Py.is_space c) eqn:Ec; cbn [Py.rstrip]; [reflexivity | ].
    rewrite Ec. reflexivity.
  - remember (String c' t) as u eqn:Eu. cbn [Py.rstrip]. rewrite IH.
    subst u. reflexivity.
Qed.

Lemma rstrip_head (c : ascii) (s : string) :
  Py.is_space c = false -> exists t, Py.rstrip (String c s) = String c t.
Proof.
  intros Hc. cbn [Py.rstrip]. destruct (Py.rstrip s).
  - rewrite Hc. eexists. reflexivity.
  - eexists. reflexivity.
Qed.

Lemma lstrip_head (s : string) :
  Py.lstrip s = EmptyString
  \/ exists c t, Py.lstrip s = String c t /\ Py.is_space c = false.
Proof.
  induction s as [|c s IH]; cbn [Py.lstrip]; [left; reflexivity | ].
  destruct (Py.is_space c) eqn:Ec; [exact IH | ].
  right. exists c, s. split; [reflexivity | exact Ec].
Qed.

Lemma strip_idem (s : string) : Py.strip (Py.strip s) = Py.strip s.
Proof.
  unfold Py.strip. destruct (lstrip_head s) as [E | (c & t & E & Hc)]; rewrite E.
  - reflexivity.
  - destruct (rstrip_head c t Hc) as (t' & Et). rewrite Et.
    cbn [Py.lstrip]. rewrite Hc. rewrite <- Et. apply rstrip_idem.
Qed.

Lemma lower_strip (s : string) : Py.lower (Py.strip s) = Py.strip (Py.lower s).
Proof. unfold Py.strip. rewrite lower_rstrip, lower_lstrip. reflexivity. Qed.

(** Reading a name twice is reading it once. *)
Lemma normal_form_idem (s : string) :
  Py.strip (Py.lower (Py.strip (Py.lower s))) = Py.strip (Py.lower s).
Proof. rewrite lower_strip, lower_idem. apply strip_idem. Qed.

(** X6: action names are read without regard to case and surrounding
    white space: a call with a name whose normal form is one of the four
    actions does what the call with the normal form does. *)
Theorem X6_action_name_normal_form {R : Type} {RS : RandomSource R}
        (action : string) (kwargs : Kwargs) (w : Store R) :
  in_list (Py.strip (Py.lower action)) ["travel"; "hunt"; "rest"; "trade"] = true ->
  perform_action action kwargs w
  = perform_action (Py.strip (Py.lower action)) kwargs w.
Proof.
  intros Hknown. unfold perform_action. rewrite normal_form_idem, Hknown. reflexivity.
Qed.

Lemma X6_action_name_normal_form_witness :
  perform_action "  HUNT " no_kwargs (banker_game, later_script)
  = perform_action "hunt" no_kwargs (banker_game, later_script).
Proof.
  exact (X6_action_name_normal_form "  HUNT " no_kwargs (banker_game, later_script) eq_refl).
Defined.

(** X7: so are paces: [_travel] with a pace whose normal form is in the
    table does what it does with the normal form. *)
Theorem X7_pace_normal_form {R : Type} {RS : RandomSource R}
        (p : string) (speed : Z) (w : Store R) :
  Py.get PACE_SPEEDS (Py.strip (Py.lower p)) = Some speed ->
  @_travel R p w = _travel (Py.strip (Py.lower p)) w.
Proof.
  intros Hpace. unfold _travel. rewrite normal_form_idem, Hpace. reflexivity.
Qed.

Lemma X7_pace_normal_form_witness :
  @_travel Script "Slow " (banker_game, later_script)
  = _travel "slow" (banker_game, later_script).
Proof.
  exact (X7_pace_normal_form "Slow " 12 (banker_game, later_script) eq_refl).
Defined.

(* ================================================================== *)
(** * Construction *)

Lemma get_known {A} (d : list (string * A)) (key : string) :
  Py.get d key = None -> ~ In key (Py.keys d).
Proof.
  unfold Py.keys. induction d as [|[k v] d IH]; cbn [Py.get map fst In]; [tauto | ].
  destruct (String.eqb k key) eqn:E; [discriminate | ].
  intros H [Hk|Hin]; [ | exact (IH H Hin)].
  subst k. rewrite String.eqb_refl in E. discriminate.
Qed.

Section Construction.

Context {R : Type} {RS : RandomSource R}.

(** X8: a game starts with the preset of its difficulty plus the bonus of
    its profession, health being 100 plus the health bonus, on day 1 at
    mile 0, alive, not won and not over, at a steady pace; and, the name
    given being of ASCII characters, under that name stripped, or under
    "Pioneer" when nothing is left of it. *)
Theorem X8_initial_state (name prof : string) (d : Difficulty) (rng : R) (w : Store R) :
  Game_init name prof d rng = inr w ->
  exists bonuses,
    Py.get PROFESSION_BONUSES (Py.strip (Py.lower prof)) = Some bonuses
    /\ food (state (fst w)) = cfg_food (DIFFICULTY_SETTINGS d) + Py.get_default bonuses "food" 0
    /\ ammo (state (fst w)) = cfg_ammo (DIFFICULTY_SETTINGS d) + Py.get_default bonuses "ammo" 0
    /\ money (state (fst w))
       = cfg_money (DIFFICULTY_SETTINGS d) + Py.get_default bonuses "money" 0
    /\ health (state (fst w)) = 100 + Py.get_default bonuses "health" 0
    /\ day (state (fst w)) = 1 /\ distance (state (fst w)) = 0
    /\ alive (state (fst w)) = true /\ won (state (fst w)) = false /\ is_over (fst w) = false
    /\ pace (state (fst w)) = "steady"
    /\ profession (state (fst w)) = Py.strip (Py.lower prof)
    /\ difficulty (state (fst w)) = d
    /\ event_chance (fst w) = cfg_event_chance (DIFFICULTY_SETTINGS d)
    /\ max_days (fst w) = cfg_max_days (DIFFICULTY_SETTINGS d)
    /\ (ascii_only name = true ->
        player_name (state (fst w))
        = (if String.eqb (Py.strip name) "" then "Pioneer" else Py.strip name)).
Proof.
  unfold Game_init. intros H.
  destruct (Py.get PROFESSION_BONUSES (Py.strip (Py.lower prof))) as [bonuses|] eqn:Hb;
    [ | discriminate ].
  exists bonuses. split; [reflexivity | ].
  erewrite bind_ok in H by apply update_weather_and_terrain_eq.
  match type of H with
  | match _maybe_prepare_trade_post true (?g0, ?r0) with _ => _ end = _ =>
      pose proof (maybe_prepare_trade_post_only true g0 r0) as Hpost;
      destruct (_maybe_prepare_trade_post true (g0, r0)) as [[e|u] w1];
      [discriminate | ]
  end.
  inversion H; subst w1. cbn [snd] in Hpost.
  destruct Hpost as (open & offers & ->). fields. repeat split; reflexivity.
Qed.

(** X9: construction fails for an unknown profession only, with the
    invalid-argument error that lists the professions; any other failure
    is a float conversion in the making of the first trading post. *)
Theorem X9_construction_errors (name prof : string) (d : Difficulty) (rng : R) (e : PyExc) :
  Game_init name prof d rng = inl e ->
  (~ In (Py.strip (Py.lower prof)) available_professions
   /\ e = ValueError ("Unknown profession '" ++ prof
                      ++ "'. Choose from banker, carpenter, farmer, doctor"))
  \/ conversion_error e.
Proof.
  unfold Game_init. intros H.
  destruct (Py.get PROFESSION_BONUSES (Py.strip (Py.lower prof))) as [bonuses|] eqn:Hb.
  - right. erewrite bind_ok in H by apply update_weather_and_terrain_eq.
    match type of H with
    | match _maybe_prepare_trade_post true (?g0, ?r0) with _ => _ end = _ =>
        pose proof (trade_post_errors true g0 r0) as K; unfold wp in K;
        destruct (_maybe_prepare_trade_post true (g0, r0)) as [[e'|u] w1];
        [ | discriminate ]
    end.
    cbn [fst] in K. inversion H; subst. exact K.
  - left. split; [apply get_known; exact Hb | ]. inversion H. reflexivity.
Qed.

End Construction.

Lemma X8_initial_state_witness :
  exists bonuses,
    Py.get PROFESSION_BONUSES (Py.strip (Py.lower " Banker")) = Some bonuses
    /\ food (state banker_game) = cfg_food (DIFFICULTY_SETTINGS NORMAL) + Py.get_default bonuses "food" 0
    /\ ammo (state banker_game) = cfg_ammo (DIFFICULTY_SETTINGS NORMAL) + Py.get_default bonuses "ammo" 0
    /\ money (state banker_game)
       = cfg_money (DIFFICULTY_SETTINGS NORMAL) + Py.get_default bonuses "money" 0
    /\ health (state banker_game) = 100 + Py.get_default bonuses "health" 0
    /\ player_name (state banker_game) = "Tester".
Proof.
  assert (H : Game_init " Tester " " Banker" NORMAL quiet_start = inr (banker_game, []))
    by reflexivity.
  destruct (X8_initial_state " Tester " " Banker" NORMAL quiet_start (banker_game, []) H)
    as (bonuses & Hb & Hf & Ha & Hm & Hh & _ & _ & _ & _ & _ & _ & _ & _ & _ & _ & Hn).
  exists bonuses.
  exact (conj Hb (conj Hf (conj Ha (conj Hm (conj Hh (Hn eq_refl)))))).
Defined.

Lemma X9_construction_errors_witness :
  (~ In (Py.strip (Py.lower "Sailor")) available_professions
   /\ ValueError "Unknown profession 'Sailor'. Choose from banker, carpenter, farmer, doctor"
      = ValueError ("Unknown profession '" ++ "Sailor"
                    ++ "'. Choose from banker, carpenter, farmer, doctor"))
  \/ conversion_error
       (ValueError "Unknown profession 'Sailor'. Choose from banker, carpenter, farmer, doctor").
Proof.
  apply (X9_construction_errors "Tester" "Sailor" HARD quiet_start). reflexivity.
Defined.

(* ================================================================== *)
(** * Reading a difficulty *)

(** X10: [from_choice] reads a difficulty back from its value; and of a
    string of ASCII characters, in any case and with white space around,
    it returns [d] exactly when the string lower-cased and stripped is the
    value of [d], and raises the invalid-argument error, quoting the string
    lower-cased and stripped, when it is the value of no difficulty. *)
Theorem X10_from_choice :
  (forall d, from_choice (Difficulty_value d) = inr d)
  /\ (forall s, ascii_only s = true ->
        forall d, from_choice s = inr d <-> Py.strip (Py.lower s) = Difficulty_value d)
  /\ (forall s, ascii_only s = true ->
        (forall d, Py.strip (Py.lower s) <> Difficulty_value d) ->
        from_choice s
        = inl (ValueError ("Unknown difficulty '" ++ Py.strip (Py.lower s) ++ "'."))).
Proof.
  assert (Hiff : forall s d,
             from_choice s = inr d <-> Py.strip (Py.lower s) = Difficulty_value d).
  { intros s d. unfold from_choice, Difficulty_members.
    set (v := Py.strip (Py.lower s)). cbn [find Difficulty_value].
    destruct (String.eqb_spec "easy" v) as [E1|E1];
      [ | destruct (String.eqb_spec "normal" v) as [E2|E2];
          [ | destruct (String.eqb_spec "hard" v) as [E3|E3] ] ];
      (split; intros H;
       [ inversion H; subst; cbn [Difficulty_value]; congruence
       | destruct d; cbn [Difficulty_value] in H; subst v; try reflexivity;
         first [ congruence | rewrite H in *; discriminate ] ]). }
  split; [ | split; [intros s _; exact (Hiff s) | ] ].
  - intros d. apply Hiff. destruct d; vm_compute; reflexivity.
  - intros s _ Hno. unfold from_choice, Difficulty_members.
    set (v := Py.strip (Py.lower s)) in *. cbn [find Difficulty_value].
    destruct (String.eqb_spec "easy" v) as [E1|E1];
      [exfalso; apply (Hno EASY); symmetry; exact E1 | ].
    destruct (String.eqb_spec "normal" v) as [E2|E2];
      [exfalso; apply (Hno NORMAL); symmetry; exact E2 | ].
    destruct (String.eqb_spec "hard" v) as [E3|E3];
      [exfalso; apply (Hno HARD); symmetry; exact E3 | ].
    reflexivity.
Qed.

(* ================================================================== *)
(** * Calls that fail *)

Section FailingCalls.

Context {R : Type} {RS : RandomSource R}.

(** X11: on a game that is not over, a call with an action name of ASCII
    characters that, lower-cased and stripped, is none of travel, hunt,
    rest and trade raises the invalid-argument error, quoting the name as
    given, before anything is changed or drawn. *)
Theorem X11_unknown_action (g : Game) (r : R) (action : string) (kwargs : Kwargs) :
  is_over g = false ->
  ascii_only action = true ->
  in_list (Py.strip (Py.lower action)) ["travel"; "hunt"; "rest"; "trade"] = false ->
  perform_action action kwargs (g, r)
  = (inl (ValueError ("Unknown action '" ++ action ++ "'.")), (g, r)).
Proof.
  intros Hover _ Hkey. unfold perform_action, bind, gets; cbn [fst snd].
  rewrite Hover, Hkey. reflexivity.
Qed.

(** X12: where a call that raises stops.  Whatever the action and its
    arguments, when [perform_action] raises, the store is the one of entry
    (a finished game, an unknown action); or the one in which the handler
    started, with only the event log cleared and the weather and terrain
    drawn (a handler that refuses its arguments); or the error is a float
    conversion in the making of the next trading post, and then the day has
    been played: the game is not over and is on the next day. *)
Theorem X12_where_a_failed_call_stops (g : Game) (r : R) (action : string)
        (kwargs : Kwargs) (e : PyExc) :
  fst (perform_action action kwargs (g, r)) = inl e ->
  let w' := snd (perform_action action kwargs (g, r)) in
  w' = (g, r)
  \/ w' = new_day g r
  \/ (conversion_error e
      /\ day (state (fst w')) = day (state g) + 1
      /\ is_over (fst w') = false).
Proof.
  intros H. cbv zeta. pose proof (perform_action_failures g r action kwargs) as K.
  unfold wp in K. rewrite H in K. exact K.
Qed.

(** X13: a day of travel at a pace of ASCII characters (given, or the one
    of the state) that, lower-cased and stripped, is not in the table
    raises the invalid-argument error, quoting the pace as given, in the
    store in which the handler started. *)
Theorem X13_invalid_pace (g : Game) (r : R) (kwargs : Kwargs) (p : string) :
  is_over g = false ->
  p = match kw_pace kwargs with Some q => q | None => pace (state g) end ->
  ascii_only p = true ->
  Py.get PACE_SPEEDS (Py.strip (Py.lower p)) = None ->
  perform_action "travel" kwargs (g, r)
  = (inl (ValueError ("Invalid pace '" ++ p ++ "'. Choose from slow, steady, grueling.")),
     new_day g r).
Proof.
  intros Hover Hp _ Hpace. enter_day Hover. cbn [gets fst snd].
  erewrite bind_err; [reflexivity | ].
  erewrite bind_ok by reflexivity.
  cbn [fst snd state set_state pace set_terrain set_weather set_event_log].
  rewrite <- Hp.
  erewrite bind_err; [reflexivity | ].
  unfold _travel. rewrite Hpace. reflexivity.
Qed.

(** X14: a hunt with zero or negative [ammo_spent] raises the
    invalid-argument error in the store in which the handler started,
    whatever the ammunition in stock. *)
Theorem X14_hunt_needs_positive_ammo (g : Game) (r : R) (kwargs : Kwargs) (n : Z) :
  is_over g = false ->
  kw_ammo_spent kwargs = Some n ->
  n <= 0 ->
  perform_action "hunt" kwargs (g, r)
  = (inl (ValueError "Ammo spent must be positive when hunting."), new_day g r).
Proof.
  intros Hover Hkw Hn. enter_day Hover. rewrite Hkw.
  erewrite bind_err; [reflexivity | ].
  erewrite bind_err; [reflexivity | ].
  unfold _hunt. destruct (n <=? 0) eqn:E; [reflexivity | lia].
Qed.

End FailingCalls.

Lemma X11_unknown_action_witness :
  perform_action "Fish" no_kwargs (banker_game, later_script)
  = (inl (ValueError ("Unknown action '" ++ "Fish" ++ "'.")), (banker_game, later_script)).
Proof.
  apply (X11_unknown_action banker_game later_script "Fish" no_kwargs); reflexivity.
Defined.

(** A rest whose next trading post cannot be priced: the factor drawn is
    infinite.  The call raises after the day has been played. *)
Lemma X12_where_a_failed_call_stops_witness :
  let script := [Choice "Mild"; Choice "Plains"; Float 0.9;
                 Float 0.1; Int 1; Float 0.2; Int 30; Float infinity] in
  let out := perform_action "rest" no_kwargs (banker_game, script) in
  fst out = inl (OverflowError "cannot convert float infinity to integer")
  /\ (snd out = (banker_game, script)
      \/ snd out = new_day banker_game script
      \/ (conversion_error (OverflowError "cannot convert float infinity to integer")
          /\ day (state (fst (snd out))) = day (state banker_game) + 1
          /\ is_over (fst (snd out)) = false))
  /\ day (state (fst (snd out))) = 2
  /\ food (state (fst (snd out))) = 235.
Proof.
  cbv zeta.
  assert (H : fst (perform_action "rest" no_kwargs
                     (banker_game,
                      [Choice "Mild"; Choice "Plains"; Float 0.9;
                       Float 0.1; Int 1; Float 0.2; Int 30; Float infinity]))
              = inl (OverflowError "cannot convert float infinity to integer"))
    by (vm_compute; reflexivity).
  split; [exact H | ].
  split; [exact (X12_where_a_failed_call_stops _ _ _ _ _ H) | ].
  split; vm_compute; reflexivity.
Defined.

Lemma X13_invalid_pace_witness :
  perform_action "travel" (mkKwargs (Some "gallop") None None) (banker_game, later_script)
  = (inl (ValueError ("Invalid pace '" ++ "gallop" ++ "'. Choose from slow, steady, grueling.")),
     new_day banker_game later_script).
Proof.
  apply (X13_invalid_pace banker_game later_script (mkKwargs (Some "gallop") None None)
           "gallop"); reflexivity.
Defined.

Lemma X14_hunt_needs_positive_ammo_witness :
  perform_action "hunt" (mkKwargs None (Some 0) None) (banker_game, later_script)
  = (inl (ValueError "Ammo spent must be positive when hunting."),
     new_day banker_game later_script).
Proof.
  apply (X14_hunt_needs_positive_ammo banker_game later_script
           (mkKwargs None (Some 0) None) 0); [reflexivity | reflexivity | lia].
Defined.

(* ================================================================== *)
(** * What no day changes *)

Ltac kept_solve :=
  unfold kept, same_setup in *; fields; intuition congruence.

Lemma kept_refl (b : bool) (g : Game) : kept b g g.
Proof. kept_solve. Qed.

Lemma kept_consume_food (b : bool) (g0 : Game) (amount : Z) (g : Game) :
  kept b g0 g -> kept b g0 (_consume_food amount g).
Proof. unfold _consume_food. intros H. kept_solve. Qed.

Lemma kept_rest (b : bool) (g0 g : Game) : kept b g0 g -> kept b g0 (snd (_rest g)).
Proof. intros H. rewrite rest_game. kept_solve. Qed.

Lemma kept_end_of_day (b : bool) (g0 g : Game) : kept b g0 g -> kept b g0 (_end_of_day g).
Proof.
  intros H. unfold _end_of_day.
  repeat match goal with
         | |- context [if ?c then _ else _] => destruct c; fields
         end; kept_solve.
Qed.

Section Kept.

Context {R : Type} {RS : RandomSource R}.

Ltac kept_handler :=
  let g := fresh "g" in let r := fresh "r" in let H := fresh "H" in
  intros g r H; repeat wp_step; try exact H; kept_solve.

Lemma keeps_kept_update (b : bool) (g0 : Game) :
  keeps (kept b g0) (@_update_weather_and_terrain R RS).
Proof. unfold _update_weather_and_terrain. kept_handler. Qed.

Lemma keeps_kept_travel (b : bool) (g0 : Game) (p : string) :
  keeps (kept b g0) (@_travel R p).
Proof. unfold _travel. kept_handler. Qed.

Lemma keeps_kept_hunt (b : bool) (g0 : Game) (o : option Z) :
  keeps (kept b g0) (@_hunt R RS o).
Proof. unfold _hunt. kept_handler. Qed.

Lemma keeps_kept_trade (g0 : Game) (o : option Z) :
  keeps (kept true g0) (@_trade R o).
Proof. unfold _trade, _add_resource, _get_resource. kept_handler. Qed.

Lemma keeps_kept_event (b : bool) (g0 : Game) :
  keeps (kept b g0) (@_apply_random_event R RS).
Proof. unfold _apply_random_event. kept_handler. Qed.

Lemma keeps_kept_post (b : bool) (g0 : Game) (initial : bool) :
  keeps (kept b g0) (@_maybe_prepare_trade_post R RS initial).
Proof.
  unfold _maybe_prepare_trade_post.
  repeat (keeps_step || apply keeps_make_offers
          || (apply keeps_modify; intros g H; kept_solve)).
Qed.

Lemma keeps_kept_perform_action (g0 : Game) (action : string) (kwargs : Kwargs) :
  keeps (kept (String.eqb (Py.strip (Py.lower action)) "trade") g0)
    (@perform_action R RS action kwargs).
Proof.
  unfold perform_action.
  destruct (String.eqb (Py.strip (Py.lower action)) "trade");
  repeat (keeps_step
          || apply keeps_kept_update
          || apply keeps_kept_travel || apply keeps_kept_hunt || apply keeps_kept_trade
          || apply keeps_kept_event || apply keeps_kept_post
          || (apply keeps_call; apply kept_rest)
          || (apply keeps_modify; first [ apply kept_consume_food | apply kept_end_of_day ])
          || (apply keeps_modify; intros g H; kept_solve)).
Qed.

(** X15: no call of [perform_action], returning or raising, changes the
    player's name, the profession, the difficulty, the settings, the event
    chance or the day limit; and no call with an action name of ASCII
    characters that, lower-cased and stripped, is not "trade" changes the
    money. *)
Theorem X15_setup_and_money_kept (g : Game) (r : R) (action : string) (kwargs : Kwargs) :
  let g' := fst (snd (perform_action action kwargs (g, r))) in
  same_setup g g'
  /\ (ascii_only action = true ->
      Py.strip (Py.lower action) <> "trade" ->
      money (state g') = money (state g)).
Proof.
  cbv zeta.
  pose proof (keeps_kept_perform_action g action kwargs g r (kept_refl _ g)) as K.
  unfold wp in K.
  assert (K' : kept (String.eqb (Py.strip (Py.lower action)) "trade") g
                 (fst (snd (perform_action action kwargs (g, r)))))
    by (destruct (fst (perform_action action kwargs (g, r))); exact K).
  destruct K' as [Hs Hm]. split; [exact Hs | ].
  intros _ Hne. apply Hm. apply String.eqb_neq. exact Hne.
Qed.

End Kept.

(* ================================================================== *)
(** * What the handlers do *)

Lemma post_only_fields (g g' : Game) :
  post_only g g' ->
  food (state g') = food (state g) /\ ammo (state g') = ammo (state g)
  /\ money (state g') = money (state g) /\ distance (state g') = distance (state g)
  /\ health (state g') = health (state g) /\ pace (state g') = pace (state g)
  /\ day (state g') = day (state g) /\ is_over g' = is_over g.
Proof. intros (open & offers & ->). fields. repeat split. Qed.

Section HandlerEffects.

Context {R : Type} {RS : RandomSource R}.

Lemma hunt_runs (g : Game) (r : R) (o : option Z) (cost : Z) :
  cost = match o with Some a => a | None => 5 end ->
  0 < cost <= ammo (state g) ->
  exists message,
    _hunt o (g, r)
    = (inr message,
       (set_state (fun st => set_food (food st + (fst (randint 25 55 r) + cost * 2)) st)
          (set_state (fun st => set_ammo (ammo st - cost) st) g),
        snd (randint 25 55 r))).
Proof.
  intros Hcost Hrange. unfold _hunt. rewrite <- Hcost.
  destruct (cost <=? 0) eqn:E1; [lia | ].
  unfold bind at 1, gets at 1; cbn [fst snd].
  destruct (ammo (state g) <? cost) eqn:E2; [lia | ].
  eexists. reflexivity.
Qed.

Lemma hunt_day (g : Game) (r : R) (kwargs : Kwargs) (cost : Z) :
  is_over g = false ->
  cost = match kw_ammo_spent kwargs with Some a => a | None => 5 end ->
  0 < cost <= ammo (state g) ->
  (event_chance g <? fst (random (snd (randint 25 55 (snd (land r))))))%float = true ->
  post_only (if is_over (hunted_game g r cost) then hunted_game g r cost
             else set_state (fun st => set_day (day st + 1) st) (hunted_game g r cost))
    (fst (snd (perform_action "hunt" kwargs (g, r)))).
Proof.
  intros Hover Hcost Hrange Hquiet.
  destruct (hunt_runs (fst (new_day g r)) (snd (new_day g r)) (kw_ammo_spent kwargs) cost
              Hcost Hrange) as (message & Hhunt).
  enter_day Hover.
  erewrite bind_ok; [ | erewrite bind_ok by (exact Hhunt); reflexivity ].
  cbv iota.
  erewrite bind_ok by reflexivity. cbn [fst snd].
  erewrite bind_ok by (apply no_event; cbn [event_chance _consume_food set_state]; exact Hquiet).
  erewrite bind_ok by reflexivity. cbn [fst snd].
  erewrite bind_ok by reflexivity. cbn [fst snd].
  rewrite snd_bind_ret.
  apply day_tail_post_only.
Qed.

(** X16: a day of hunting.  On a game that is not over, a hunt that spends
    [cost] rounds (5 when [ammo_spent] is not given), with that much
    ammunition in stock and no random event, brings back between 25 and 55
    lbs plus 2 lbs a round; after the 5 lbs eaten that day, food has grown
    by at least 22 lbs, ammunition is down by [cost], and money, distance,
    health and pace are as before. *)
Theorem X16_hunt_day (g : Game) (r : R) (kwargs : Kwargs) (cost : Z) :
  is_over g = false ->
  cost = match kw_ammo_spent kwargs with Some a => a | None => 5 end ->
  0 < cost <= ammo (state g) ->
  0 <= food (state g) ->
  (event_chance g <? fst (random (snd (randint 25 55 (snd (land r))))))%float = true ->
  let g' := fst (snd (perform_action "hunt" kwargs (g, r))) in
  let bag := fst (randint 25 55 (snd (land r))) in
  25 <= bag <= 55
  /\ food (state g') = food (state g) + bag + 2 * cost - BASE_FOOD_PER_DAY
  /\ food (state g) + 22 <= food (state g')
  /\ ammo (state g') = ammo (state g) - cost
  /\ money (state g') = money (state g)
  /\ distance (state g') = distance (state g)
  /\ health (state g') = health (state g)
  /\ pace (state g') = pace (state g).
Proof.
  intros Hover Hcost Hrange Hfood Hquiet. cbv zeta.
  pose proof (randint_range 25 55 (snd (land r)) ltac:(lia)) as Hbag.
  pose proof (post_only_fields _ _ (hunt_day g r kwargs cost Hover Hcost Hrange Hquiet)) as K.
  destruct K as (Kf & Ka & Km & Kd & Kh & Kp & _ & _).
  rewrite Kf, Ka, Km, Kd, Kh, Kp; clear Kf Ka Km Kd Kh Kp.
  unfold hunted_game.
  set (g2 := _consume_food _ _).
  destruct (end_of_day_frame g2) as (Ff & Fa & Fm & Fd & Fp & _ & _ & Fh).
  assert (Hf2 : food (state g2)
                = Z.max 0 (food (state g) + (fst (randint 25 55 (snd (land r))) + cost * 2)
                           - Z.max 0 BASE_FOOD_PER_DAY)) by reflexivity.
  assert (Hh2 : health (state g2) = health (state g)) by reflexivity.
  assert (Ha2 : ammo (state g2) = ammo (state g) - cost) by reflexivity.
  assert (Hm2 : money (state g2) = money (state g)) by reflexivity.
  assert (Hd2 : distance (state g2) = distance (state g)) by reflexivity.
  assert (Hp2 : pace (state g2) = pace (state g)) by reflexivity.
  unfold BASE_FOOD_PER_DAY in *.
  destruct (food (state g2) <=? 0) eqn:E; [lia | ].
  clearbody g2.
  assert (Hpick : forall G : Game,
            food (state (if is_over G then G
                         else set_state (fun st => set_day (day st + 1) st) G))
            = food (state G)
            /\ ammo (state (if is_over G then G
                            else set_state (fun st => set_day (day st + 1) st) G))
               = ammo (state G)
            /\ money (state (if is_over G then G
                             else set_state (fun st => set_day (day st + 1) st) G))
               = money (state G)
            /\ distance (state (if is_over G then G
                                else set_state (fun st => set_day (day st + 1) st) G))
               = distance (state G)
            /\ health (state (if is_over G then G
                              else set_state (fun st => set_day (day st + 1) st) G))
               = health (state G)
            /\ pace (state (if is_over G then G
                            else set_state (fun st => set_day (day st + 1) st) G))
               = pace (state G))
    by (intros G; destruct (is_over G); fields; repeat split).
  destruct (Hpick (_end_of_day g2)) as (Pf & Pa & Pm & Pd & Ph & Pp).
  rewrite Pf, Pa, Pm, Pd, Ph, Pp.
  repeat split; try lia; congruence.
Qed.

(** X17: [_rest] caps health at 100.  Below 100, health rises, by the
    difficulty's amount or up to 100, and the message reports the gain; at
    100 or above, health becomes 100, so that a doctor who starts at 110
    loses 10 by resting, and the message reports no recovery.  Nothing but
    health changes. *)
Theorem X17_rest_caps_health (g : Game) :
  0 < cfg_rest_health (settings g) ->
  let message := fst (_rest g) in
  let g' := snd (_rest g) in
  g' = set_state (fun st => set_health (health (state g')) st) g
  /\ (health (state g) < 100 ->
      health (state g) < health (state g') <= 100
      /\ health (state g') <= health (state g) + cfg_rest_health (settings g)
      /\ message = "You rest for the day and recover "
                   ++ Py.str (health (state g') - health (state g)) ++ " health.")
  /\ (100 <= health (state g) ->
      health (state g') = 100
      /\ message = "You rest for the day but feel no better.").
Proof.
  intros Hgain. cbv zeta. rewrite rest_game. fields.
  split; [reflexivity | ].
  unfold _rest. fields.
  split; intros H.
  - destruct (_ <=? 0) eqn:E; [lia | ]. cbn [fst]. repeat split; lia.
  - destruct (_ <=? 0) eqn:E; [ | lia ]. cbn [fst]. split; [lia | reflexivity].
Qed.

End HandlerEffects.

Lemma X16_hunt_day_witness :
  let g' := fst (snd (perform_action "hunt" (mkKwargs None (Some 10) None)
                        (banker_game,
                         [Choice "Cold"; Choice "Hills"; Int 30; Float 0.9; Float 0.9]))) in
  25 <= 30 <= 55
  /\ food (state g') = 285 /\ 240 + 22 <= food (state g')
  /\ ammo (state g') = 45 /\ money (state g') = 1700 /\ distance (state g') = 0
  /\ health (state g') = 100 /\ pace (state g') = "steady".
Proof.
  pose proof (X16_hunt_day banker_game
                [Choice "Cold"; Choice "Hills"; Int 30; Float 0.9; Float 0.9]
                (mkKwargs None (Some 10) None) 10
                eq_refl eq_refl ltac:(cbn; lia) ltac:(cbn; lia) eq_refl) as H.
  vm_compute in H. vm_compute. exact H.
Defined.

Lemma X17_rest_caps_health_witness :
  health (state doctor_game) = 110
  /\ health (state (snd (_rest doctor_game))) = 100
  /\ fst (_rest doctor_game) = "You rest for the day but feel no better.".
Proof.
  split; [reflexivity | ].
  destruct (X17_rest_caps_health doctor_game ltac:(cbn; lia)) as (_ & _ & H).
  apply H. cbn. lia.
Defined.

(* ================================================================== *)
(** * Trades *)

Lemma nth_error_not_empty {A} (l : list A) (n : nat) (a : A) :
  nth_error l n = Some a -> is_empty l = false.
Proof. destruct l; [destruct n; discriminate | reflexivity]. Qed.

Lemma nth_error_index {A} (l : list A) (i : Z) (a : A) :
  0 <= i -> nth_error l (Z.to_nat i) = Some a ->
  (i <? 0) || (Z.of_nat (List.length l) <=? i) = false.
Proof.
  intros Hi H.
  assert (K : (Z.to_nat i < List.length l)%nat) by (apply nth_error_Some; congruence).
  apply orb_false_iff. split; [apply Z.ltb_ge; lia | apply Z.leb_gt; lia].
Qed.

(** Run a handler whose item is a literal down to its pairs. *)
Ltac run_resources :=
  unfold _add_resource, _get_resource in *;
  change (String.eqb "food" "food") with true in *;
  change (String.eqb "ammo" "food") with false in *;
  change (String.eqb "ammo" "ammo") with true in *;
  cbv iota in *;
  unfold bind, gets, modify_state, modify, ret, raise in *; cbn [fst snd] in *.

Section Trades.

Context {R : Type} {RS : RandomSource R}.

(** [_trade] with an offer of the post: what is left once the guards are
    passed. *)
Lemma trade_enters (g : Game) (r : R) (i : Z) (o : TradeOffer) :
  trade_available (state g) = true ->
  0 <= i ->
  nth_error (current_trade_offers g) (Z.to_nat i) = Some o ->
  in_list (item o) TRADE_ITEMS = true ->
  _trade (Some i) (g, r)
  = (message <-
       (if 0 <? price o then
          funds <- gets (fun g => money (state g)) ;;
          if funds <? price o then
            raise (ValueError "Not enough money for that trade.")
          else
          modify_state (fun st => set_money (money st - price o) st) ;;
          _add_resource (item o) (quantity o) ;;
          ret ("You buy " ++ Py.str (quantity o) ++ " " ++ item o
               ++ " for $" ++ Py.str (price o) ++ ".")
        else
          have <- _get_resource (item o) ;;
          if have <? quantity o then
            raise (ValueError "You do not have enough goods for that trade.")
          else
          _add_resource (item o) (- quantity o) ;;
          modify_state (fun st => set_money (money st + Z.abs (price o)) st) ;;
          ret ("You sell " ++ Py.str (quantity o) ++ " " ++ item o
               ++ " for $" ++ Py.str (Z.abs (price o)) ++ ".")) ;;
     modify_state (set_trade_available false) ;;
     modify (fun g => set_current_trade_offers
                        (pop (Z.to_nat i) (current_trade_offers g)) g) ;;
     ret message) (g, r).
Proof.
  intros Hopen Hi Hnth Hitem.
  unfold _trade. unfold bind at 1, get at 1; cbn [fst snd].
  rewrite Hopen, (nth_error_not_empty _ _ _ Hnth); cbn [negb orb].
  rewrite (nth_error_index _ _ _ Hi Hnth), Hnth, Hitem; cbn [negb].
  reflexivity.
Qed.

(** X18: buying.  With the post open, an offer at index [i] whose price is
    positive and within the money at hand is accepted: the money goes down
    by the price, the stock of the offer's item goes up by its quantity, the
    offer leaves the list, the post closes, and nothing is drawn.  The
    message is the offer's description with "You buy" for "Buy". *)
Theorem X18_trade_buys (g : Game) (r : R) (i : Z) (o : TradeOffer) (have : Z) :
  trade_available (state g) = true ->
  0 <= i ->
  nth_error (current_trade_offers g) (Z.to_nat i) = Some o ->
  in_list (item o) TRADE_ITEMS = true ->
  0 < price o <= money (state g) ->
  _get_resource (item o) (g, r) = (inr have, (g, r)) ->
  exists g',
    _trade (Some i) (g, r)
    = (inr ("You buy " ++ Py.str (quantity o) ++ " " ++ item o
            ++ " for $" ++ Py.str (price o) ++ "."), (g', r))
    /\ _get_resource (item o) (g', r) = (inr (Z.max 0 (have + quantity o)), (g', r))
    /\ money (state g') = money (state g) - price o
    /\ trade_available (state g') = false
    /\ current_trade_offers g' = pop (Z.to_nat i) (current_trade_offers g)
    /\ (item o = "food" -> ammo (state g') = ammo (state g))
    /\ (item o = "ammo" -> food (state g') = food (state g))
    /\ distance (state g') = distance (state g)
    /\ health (state g') = health (state g)
    /\ day (state g') = day (state g)
    /\ describe o = "Buy " ++ Py.str (quantity o) ++ " " ++ item o
                    ++ " for $" ++ Py.str (price o).
Proof.
  intros Hopen Hi Hnth Hitem Hprice Hhave.
  assert (Hshown : describe o = "Buy " ++ Py.str (quantity o) ++ " " ++ item o
                                ++ " for $" ++ Py.str (price o)).
  { unfold describe. destruct (0 <? price o) eqn:E; [ | lia ].
    rewrite Z.abs_eq by lia. reflexivity. }
  rewrite (trade_enters g r i o Hopen Hi Hnth Hitem).
  destruct (0 <? price o) eqn:E1; [ | lia ].
  assert (E2 : (money (state g) <? price o) = false) by (apply Z.ltb_ge; lia).
  destruct (trade_item_cases _ Hitem) as [Hfood | Hammo].
  - rewrite Hfood in *. run_resources. rewrite E2.
    eexists. split; [reflexivity | ].
    inversion Hhave; subst have. fields.
    repeat split; try reflexivity; try discriminate; exact Hshown.
  - rewrite Hammo in *. run_resources. rewrite E2.
    eexists. split; [reflexivity | ].
    inversion Hhave; subst have. fields.
    repeat split; try reflexivity; try discriminate; exact Hshown.
Qed.

(** X19: selling.  With the post open, an offer at index [i] whose price is
    not positive, for goods in stock, is accepted: the stock of the offer's
    item goes down by its quantity, the money goes up by the absolute value
    of the price, the offer leaves the list and the post closes.  The
    message is the offer's description with "You sell" for "Sell"; an offer
    of price 0 is a sale. *)
Theorem X19_trade_sells (g : Game) (r : R) (i : Z) (o : TradeOffer) (have : Z) :
  trade_available (state g) = true ->
  0 <= i ->
  nth_error (current_trade_offers g) (Z.to_nat i) = Some o ->
  in_list (item o) TRADE_ITEMS = true ->
  price o <= 0 ->
  _get_resource (item o) (g, r) = (inr have, (g, r)) ->
  quantity o <= have ->
  exists g',
    _trade (Some i) (g, r)
    = (inr ("You sell " ++ Py.str (quantity o) ++ " " ++ item o
            ++ " for $" ++ Py.str (Z.abs (price o)) ++ "."), (g', r))
    /\ _get_resource (item o) (g', r) = (inr (Z.max 0 (have - quantity o)), (g', r))
    /\ money (state g') = money (state g) - price o
    /\ trade_available (state g') = false
    /\ current_trade_offers g' = pop (Z.to_nat i) (current_trade_offers g)
    /\ (item o = "food" -> ammo (state g') = ammo (state g))
    /\ (item o = "ammo" -> food (state g') = food (state g))
    /\ distance (state g') = distance (state g)
    /\ health (state g') = health (state g)
    /\ day (state g') = day (state g)
    /\ describe o = "Sell " ++ Py.str (quantity o) ++ " " ++ item o
                    ++ " for $" ++ Py.str (Z.abs (price o)).
Proof.
  intros Hopen Hi Hnth Hitem Hprice Hhave Hstock.
  assert (Hshown : describe o = "Sell " ++ Py.str (quantity o) ++ " " ++ item o
                                ++ " for $" ++ Py.str (Z.abs (price o))).
  { unfold describe. destruct (0 <? price o) eqn:E; [lia | reflexivity]. }
  rewrite (trade_enters g r i o Hopen Hi Hnth Hitem).
  destruct (0 <? price o) eqn:E1; [lia | ].
  assert (E2 : (have <? quantity o) = false) by (apply Z.ltb_ge; lia).
  destruct (trade_item_cases _ Hitem) as [Hfood | Hammo].
  - rewrite Hfood in *. run_resources.
    inversion Hhave; subst have. rewrite E2.
    eexists. split; [reflexivity | ]. fields.
    repeat split; try reflexivity; try discriminate; try lia; exact Hshown.
  - rewrite Hammo in *. run_resources.
    inversion Hhave; subst have. rewrite E2.
    eexists. split; [reflexivity | ]. fields.
    repeat split; try reflexivity; try discriminate; try lia; exact Hshown.
Qed.

(** X20: a trade that cannot be paid is refused.  With the post open and an
    offer at index [i], a positive price above the money at hand, or a sale
    of more goods than are in stock, raises the invalid-argument error with
    the store unchanged: the post stays open and the offer stays listed. *)
Theorem X20_trade_refused (g : Game) (r : R) (i : Z) (o : TradeOffer) (have : Z)
        (e : PyExc) :
  trade_available (state g) = true ->
  0 <= i ->
  nth_error (current_trade_offers g) (Z.to_nat i) = Some o ->
  in_list (item o) TRADE_ITEMS = true ->
  _get_resource (item o) (g, r) = (inr have, (g, r)) ->
  (0 < price o /\ money (state g) < price o
   /\ e = ValueError "Not enough money for that trade.")
  \/ (price o <= 0 /\ have < quantity o
      /\ e = ValueError "You do not have enough goods for that trade.") ->
  _trade (Some i) (g, r) = (inl e, (g, r)).
Proof.
  intros Hopen Hi Hnth Hitem Hhave [(Hpos & Hlow & ->) | (Hneg & Hlow & ->)];
    rewrite (trade_enters g r i o Hopen Hi Hnth Hitem).
  - destruct (0 <? price o) eqn:E1; [ | lia ].
    assert (E2 : (money (state g) <? price o) = true) by (apply Z.ltb_lt; lia).
    unfold bind, gets, raise; cbn [fst snd]. rewrite E2. reflexivity.
  - destruct (0 <? price o) eqn:E1; [lia | ].
    assert (E2 : (have <? quantity o) = true) by (apply Z.ltb_lt; lia).
    destruct (trade_item_cases _ Hitem) as [Hfood | Hammo].
    + rewrite Hfood in *. run_resources.
      inversion Hhave; subst have. rewrite E2. reflexivity.
    + rewrite Hammo in *. run_resources.
      inversion Hhave; subst have. rewrite E2. reflexivity.
Qed.

End Trades.

Lemma X18_trade_buys_witness :
  exists g',
    _trade (Some 0) (trading_game, @nil Draw) = (inr "You buy 30 food for $12.", (g', []))
    /\ food (state g') = 270 /\ money (state g') = 1688
    /\ current_trade_offers g' = [mkTradeOffer "ammo" 9 (-17)].
Proof.
  destruct (X18_trade_buys trading_game (@nil Draw) 0 (mkTradeOffer "food" 30 12) 240
              eq_refl ltac:(lia) eq_refl eq_refl ltac:(cbn; lia) eq_refl)
    as (g' & H1 & H2 & H3 & _ & H5 & _).
  exists g'. split; [exact H1 | ].
  split; [exact (f_equal (fun x => match fst x with inr n => n | inl _ => 0 end) H2) | ].
  split; [rewrite H3; reflexivity | rewrite H5; reflexivity].
Defined.

Lemma X19_trade_sells_witness :
  exists g',
    _trade (Some 1) (trading_game, @nil Draw) = (inr "You sell 9 ammo for $17.", (g', []))
    /\ ammo (state g') = 46 /\ money (state g') = 1717
    /\ current_trade_offers g' = [mkTradeOffer "food" 30 12].
Proof.
  destruct (X19_trade_sells trading_game (@nil Draw) 1 (mkTradeOffer "ammo" 9 (-17)) 55
              eq_refl ltac:(lia) eq_refl eq_refl ltac:(cbn; lia) eq_refl ltac:(cbn; lia))
    as (g' & H1 & H2 & H3 & _ & H5 & _).
  exists g'. split; [exact H1 | ].
  split; [exact (f_equal (fun x => match fst x with inr n => n | inl _ => 0 end) H2) | ].
  split; [rewrite H3; reflexivity | rewrite H5; reflexivity].
Defined.

Lemma X20_trade_refused_witness :
  _trade (Some 0) (set_state (set_money 5) trading_game, @nil Draw)
  = (inl (ValueError "Not enough money for that trade."),
     (set_state (set_money 5) trading_game, [])).
Proof.
  apply (X20_trade_refused (set_state (set_money 5) trading_game) (@nil Draw) 0
           (mkTradeOffer "food" 30 12) 240);
    [reflexivity | lia | reflexivity | reflexivity | reflexivity | ].
  left. cbn. repeat split; lia.
Defined.

(* ================================================================== *)
(** * Random events and the travel handler *)

Lemma extra_food_for_cases (key : string) (speed : Z) :
  In (key, speed) PACE_SPEEDS ->
  extra_food_for key = inr (if String.eqb key "grueling" then 2 else 0).
Proof.
  intros H. cbn in H.
  destruct H as [H|[H|[H|[]]]]; inversion H; subst; vm_compute; reflexivity.
Qed.

Section EventsAndTravel.

Context {R : Type} {RS : RandomSource R}.

(** X21: a random event never raises and never ends the game by itself.  It
    adds at most one message and changes at most one of food (by -30 to
    +45), health (by -20 to 0), ammunition (by -10 to 0) and distance (by
    -10 to 0), none of them below zero; money, day, pace and the trading
    post are untouched, and without message the game is unchanged. *)
Theorem X21_event_bounds (g : Game) (r : R) :
  0 <= food (state g) -> 0 <= health (state g) ->
  0 <= ammo (state g) -> 0 <= distance (state g) ->
  exists messages g' r',
    _apply_random_event (g, r) = (inr messages, (g', r'))
    /\ (List.length messages <= 1)%nat
    /\ (messages = [] -> g' = g)
    /\ Z.max 0 (food (state g) - 30) <= food (state g') <= food (state g) + 45
    /\ Z.max 0 (health (state g) - 20) <= health (state g') <= health (state g)
    /\ Z.max 0 (ammo (state g) - 10) <= ammo (state g') <= ammo (state g)
    /\ Z.max 0 (distance (state g) - 10) <= distance (state g') <= distance (state g)
    /\ ((health (state g') = health (state g) /\ ammo (state g') = ammo (state g)
         /\ distance (state g') = distance (state g))
        \/ (food (state g') = food (state g) /\ ammo (state g') = ammo (state g)
            /\ distance (state g') = distance (state g))
        \/ (food (state g') = food (state g) /\ health (state g') = health (state g)
            /\ distance (state g') = distance (state g))
        \/ (food (state g') = food (state g) /\ health (state g') = health (state g)
            /\ ammo (state g') = ammo (state g)))
    /\ money (state g') = money (state g) /\ day (state g') = day (state g)
    /\ pace (state g') = pace (state g)
    /\ alive (state g') = alive (state g) /\ won (state g') = won (state g)
    /\ is_over g' = is_over g
    /\ trade_available (state g') = trade_available (state g)
    /\ current_trade_offers g' = current_trade_offers g.
Proof.
  intros Hfood Hhealth Hammo Hdist.
  unfold _apply_random_event, bind, draw, gets, modify_state, modify, ret; cbn [fst snd].
  repeat match goal with
         | |- context [if ?c then _ else _] => destruct c; cbn [fst snd]
         end;
    try match goal with
        | |- context [randint ?a ?b ?r0] =>
            pose proof (randint_range a b r0 ltac:(lia))
        end;
    do 3 eexists; (split; [reflexivity | ]); fields;
    (split; [cbn; lia | ]);
    (split; [first [reflexivity | discriminate] | ]);
    repeat match goal with
           | |- _ /\ _ => split
           end;
    try reflexivity; try lia;
    first [ left; repeat split; reflexivity
          | right; left; repeat split; reflexivity
          | right; right; left; repeat split; reflexivity
          | right; right; right; repeat split; reflexivity ].
Qed.

(** X22: the travel handler.  At a pace of the table, in any case and with
    spaces around it, [_travel] never raises and draws nothing: it adds
    between 5 and 25 miles, stores the pace in its normal form, and asks for
    2 lbs of extra food at the grueling pace and none at the others. *)
Theorem X22_travel_bounds (g : Game) (r : R) (p : string) (speed : Z) :
  Py.get PACE_SPEEDS (Py.strip (Py.lower p)) = Some speed ->
  exists message miles,
    _travel p (g, r)
    = (inr (message, if String.eqb (Py.strip (Py.lower p)) "grueling" then 2 else 0),
       (set_state (set_pace (Py.strip (Py.lower p)))
          (set_state (fun st => set_distance (distance st + miles) st) g), r))
    /\ 5 <= miles <= 25.
Proof.
  intros Hpace.
  destruct (travel_runs g r p speed Hpace)
    as (miles & extra & message & Hmiles & Hfive & Hextra & _ & H).
  pose proof (pace_speed_cases _ _ Hpace) as Hin.
  rewrite (extra_food_for_cases _ _ Hin) in Hextra. inversion Hextra; subst extra.
  exists message, miles. split; [exact H | ].
  split; [exact Hfive | ].
  destruct (pace_options_normal _ _ Hin) as [_ Hspeed].
  eapply miles_for_at_most; [exact Hspeed | | | exact Hmiles];
    apply get_default_in_modifiers.
Qed.

End EventsAndTravel.

Lemma X21_event_bounds_witness :
  exists g',
    _apply_random_event (banker_game, [Float 0.1; Float 0.3; Int 12])
    = (inr ["A wagon accident injures you for 12 health."], (g', []))
    /\ health (state g') = 88 /\ food (state g') = 240.
Proof.
  destruct (X21_event_bounds banker_game [Float 0.1; Float 0.3; Int 12]
              ltac:(cbn; lia) ltac:(cbn; lia) ltac:(cbn; lia) ltac:(cbn; lia))
    as (messages & g' & r' & H & _).
  vm_compute in H. inversion H; subst. exists (fst (snd (_apply_random_event
    (banker_game, [Float 0.1; Float 0.3; Int 12])))).
  vm_compute. repeat split.
Defined.

Lemma X22_travel_bounds_witness :
  exists message miles,
    _travel " Grueling" (banker_game, @nil Draw)
    = (inr (message, 2),
       (set_state (set_pace "grueling")
          (set_state (fun st => set_distance (distance st + miles) st) banker_game), []))
    /\ 5 <= miles <= 25.
Proof.
  exact (X22_travel_bounds banker_game (@nil Draw) " Grueling" 24 eq_refl).
Defined.

(* ================================================================== *)
(** * The making of a trading post *)

Section PostMade.

Context {R : Type} {RS : RandomSource R}.

(** X23: [_maybe_prepare_trade_post] draws one roll; above the probability
    (0.3 at construction, 0.25 after a day) the post is closed and its
    offers cleared; otherwise the post is open with one to three offers,
    each of food (25 to 60 lbs, at least $10) or of ammunition (6 to 15
    rounds, at least $8).  Nothing else of the game changes, and when a
    price cannot be converted the game is left as it was. *)
Theorem X23_trade_post_made (initial : bool) (g : Game) (r : R) :
  let out := _maybe_prepare_trade_post initial (g, r) in
  let g' := fst (snd out) in
  let probability := if negb initial then 0.25%float else 0.3%float in
  match fst out with
  | inr _ =>
      ((probability <? fst (random r))%float = true
       /\ g' = set_current_trade_offers [] (set_state (set_trade_available false) g))
      \/ ((probability <? fst (random r))%float = false
          /\ exists offers,
               g' = set_current_trade_offers offers (set_state (set_trade_available true) g)
               /\ 1 <= Z.of_nat (List.length offers) <= 3
               /\ Forall offer_ok offers)
  | inl e => conversion_error e /\ g' = g
  end.
Proof.
  cbv zeta.
  assert (K : wp (_maybe_prepare_trade_post initial)
                (fun (_ : unit) (w' : Store R) =>
                   ((if negb initial then 0.25%float else 0.3%float)
                    <? fst (random r))%float = true
                   /\ fst w' = set_current_trade_offers []
                                 (set_state (set_trade_available false) g)
                   \/ ((if negb initial then 0.25%float else 0.3%float)
                       <? fst (random r))%float = false
                      /\ exists offers,
                           fst w' = set_current_trade_offers offers
                                      (set_state (set_trade_available true) g)
                           /\ 1 <= Z.of_nat (List.length offers) <= 3
                           /\ Forall offer_ok offers)
                (fun (e : PyExc) (w' : Store R) => conversion_error e /\ fst w' = g)
                (g, r)).
  { unfold _maybe_prepare_trade_post.
    apply wp_bind. unfold wp at 1, draw at 1; cbn [fst snd].
    destruct ((if negb initial then 0.25%float else 0.3%float) <? fst (random r))%float eqn:E.
    - repeat wp_step. left. split; reflexivity.
    - wp_step. wp_step. wp_step.
      eapply wp_mono;
        [ apply wp_conj; [apply make_offers_ok | apply make_offers_errors] | | ].
      + intros offers [g1 r1] [(Hg & new & -> & Hlen & Hnew) _]. cbn [fst] in Hg. subst g1.
        repeat wp_step. right. split; [reflexivity | ].
        exists new. cbn [app]. repeat split; try assumption; lia.
      + intros e [g1 r1] [Hg He]. cbn [fst] in *. split; assumption. }
  unfold wp in K.
  destruct (fst (_maybe_prepare_trade_post initial (g, r))); exact K.
Qed.

End PostMade.
